(** * A shallow embedding of the tmux JSON-RPC bridge

    Sources: [src/scripts/tmux_utils.py] (class [TmuxOrchestrator]) and
    [src/utils/tmux_wrapper.py] (class [PersistentTmuxWrapper]).

    Python values that cross the RPC boundary are JSON values ([pyval]):
    [None], booleans, integers, binary64 floats, strings, lists and dicts.
    A Python [str] is a Rocq [string] whose characters are read as the code
    points U+0000 to U+00FF (ASCII and Latin-1); the [str] methods below
    follow Python's Unicode tables on that range.  A [bytes] value (the
    standard error of a run without [text=True]) is a [string] of bytes.
    Each Python method becomes a
    computation in a state and exception monad [M]: the state holds the
    remaining lines of standard input, the lines printed on standard output
    and the log of observable effects (external processes launched, clock
    reads, [input()] prompts).  The tmux server and the clock are an oracle
    that answers from the log of earlier effects, so a test world can react
    to history (a target that disappears between two calls, and so on). *)

From Stdlib Require Import String Ascii List ZArith Bool Lia.
From Stdlib Require Import Floats.SpecFloat.
Import ListNotations.
Open Scope string_scope.
Open Scope Z_scope.
Local Set Warnings "-register-all".

(* ------------------------------------------------------------------ *)
(** ** Strings as Python's [str] methods use them *)

Module PyStr.

(** [c.isspace()]: the characters [str.strip()] and [int()] skip, U+0009
    to U+000D, U+001C to U+0020, U+0085 and U+00A0. *)
Definition is_space (c : ascii) : bool :=
  match nat_of_ascii c with
  | 9 | 10 | 11 | 12 | 13 | 28 | 29 | 30 | 31 | 32 | 133 | 160 => true
  | _ => false
  end%nat.

Fixpoint lstrip (s : string) : string :=
  match s with
  | EmptyString => EmptyString
  | String c r => if is_space c then lstrip r else s
  end.

Fixpoint rev_str (s : string) (acc : string) : string :=
  match s with
  | EmptyString => acc
  | String c r => rev_str r (String c acc)
  end.

(** [s.strip()]. *)
Definition strip (s : string) : string :=
  rev_str (lstrip (rev_str (lstrip s) EmptyString)) EmptyString.

(** [s.split(sep)] for a one-character separator: always at least one
    field, empty fields kept. *)
Fixpoint split (sep : ascii) (s : string) : list string :=
  match s with
  | EmptyString => [EmptyString]
  | String c r =>
      let rest := split sep r in
      if Ascii.eqb c sep then EmptyString :: rest
      else match rest with
           | f :: fs => String c f :: fs
           | [] => [String c EmptyString]
           end
  end.

(** [s.lower()]: the upper-case letters of the range are [A]-[Z], U+00C0
    to U+00D6 and U+00D8 to U+00DE, each 32 code points before its
    lower-case letter. *)
Definition lower_char (c : ascii) : ascii :=
  let n := nat_of_ascii c in
  if ((65 <=? n)%nat && (n <=? 90)%nat) || ((192 <=? n)%nat && (n <=? 222)%nat && negb (n =? 215)%nat)
  then ascii_of_nat (n + 32) else c.

Fixpoint lower (s : string) : string :=
  match s with
  | EmptyString => EmptyString
  | String c r => String (lower_char c) (lower r)
  end.

(** [s.startswith(p)]. *)
Definition startswith (s p : string) : bool := String.prefix p s.

(** [p in s] on strings. *)
Fixpoint contains (p s : string) : bool :=
  String.prefix p s ||
  match s with
  | EmptyString => false
  | String _ r => contains p r
  end.

Fixpoint has_char (c : ascii) (s : string) : bool :=
  match s with
  | EmptyString => false
  | String d r => Ascii.eqb c d || has_char c r
  end.

(** ["x" * n]. *)
Fixpoint repeat (s : string) (n : nat) : string :=
  match n with
  | O => EmptyString
  | S k => s ++ repeat s k
  end.

Fixpoint join (sep : string) (l : list string) : string :=
  match l with
  | [] => EmptyString
  | [x] => x
  | x :: r => x ++ sep ++ join sep r
  end.

(** Decimal rendering of an integer, as [str(n)]. *)
Definition digit (n : Z) : ascii := ascii_of_nat (48 + Z.to_nat n).

Fixpoint digits_fuel (fuel : nat) (n : Z) (acc : string) : string :=
  match fuel with
  | O => acc
  | S f =>
      let acc' := String (digit (n mod 10)) acc in
      if n <? 10 then acc' else digits_fuel f (n / 10) acc'
  end.

Definition of_nonneg (n : Z) : string :=
  digits_fuel (S (Z.to_nat (Z.log2 (Z.max n 1)))) n EmptyString.

Definition of_Z (n : Z) : string :=
  if n <? 0 then "-" ++ of_nonneg (- n) else of_nonneg n.

(** Zero-padded rendering, as the [%02d] of [strftime]/[isoformat]. *)
Definition pad (w : nat) (n : Z) : string :=
  let s := of_nonneg n in
  repeat "0" (w - String.length s) ++ s.

(** [int(s)]: surrounding white space, an optional sign, decimal digits
    with single underscores between them. *)
Definition digit_val (c : ascii) : option Z :=
  let n := nat_of_ascii c in
  if (48 <=? n)%nat && (n <=? 57)%nat then Some (Z.of_nat n - 48) else None.

Fixpoint parse_digits (s : string) (acc : Z) (after_digit : bool) : option Z :=
  match s with
  | EmptyString => if after_digit then Some acc else None
  | String c r =>
      match digit_val c with
      | Some d => parse_digits r (acc * 10 + d) true
      | None =>
          if Ascii.eqb c "_" && after_digit then
            match r with
            | String c' _ =>
                match digit_val c' with
                | Some _ => parse_digits r acc false
                | None => None
                end
            | EmptyString => None
            end
          else None
      end
  end.

Definition int_of_string (s : string) : option Z :=
  match strip s with
  | String c r =>
      if Ascii.eqb c "-" then option_map Z.opp (parse_digits r 0 false)
      else if Ascii.eqb c "+" then parse_digits r 0 false
      else parse_digits (String c r) 0 false
  | EmptyString => None
  end.

(** [repr(s)] of a string and [repr(b)] of a bytes object.  [printable]
    tells the characters written as they are; the others, but for [\n],
    [\r] and [\t], are written [\xNN].  For a [str] the non-printable
    characters of the range are the controls U+0000 to U+001F and U+007F
    to U+009F, the no-break space U+00A0 and the soft hyphen U+00AD; for
    [bytes] every byte outside 32 to 126. *)
Definition hexd (n : nat) : ascii :=
  if (n <? 10)%nat then ascii_of_nat (48 + n) else ascii_of_nat (87 + n).

Definition str_printable (n : nat) : bool :=
  ((32 <=? n)%nat && (n <=? 126)%nat) || ((161 <=? n)%nat && negb (n =? 173)%nat).

Definition bytes_printable (n : nat) : bool := (32 <=? n)%nat && (n <=? 126)%nat.

Fixpoint repr_body (printable : nat -> bool) (q : ascii) (s : string) : string :=
  match s with
  | EmptyString => EmptyString
  | String c r =>
      let n := nat_of_ascii c in
      let e :=
        if Ascii.eqb c "\" then "\\"
        else if Ascii.eqb c q then String "\" (String q EmptyString)
        else if (n =? 10)%nat then "\n"
        else if (n =? 13)%nat then "\r"
        else if (n =? 9)%nat then "\t"
        else if negb (printable n) then
          String "\" (String "x" (String (hexd (n / 16)) (String (hexd (n mod 16)) EmptyString)))
        else String c EmptyString in
      e ++ repr_body printable q r
  end.

Definition dq : ascii := ascii_of_nat 34.

(** The quote: ["] when the text holds a ['] and no ["], else [']. *)
Definition quote (s : string) : ascii :=
  if has_char "'" s && negb (has_char dq s) then dq else "'"%char.

Definition repr (s : string) : string :=
  let q := quote s in
  String q (repr_body str_printable q s ++ String q EmptyString).

Definition bytes_repr (s : string) : string :=
  let q := quote s in
  "b" ++ String q (repr_body bytes_printable q s ++ String q EmptyString).

End PyStr.

(* ------------------------------------------------------------------ *)
(** ** Floats as Python's [float] shows and compares them *)

(** A Python [float] is a binary64 value, a [spec_float]: [S754_finite s m e]
    is [(-1)^s * m * 2^e]. *)
Module PyFloat.

(** The significand and exponent of a finite value [m * 2^e] brought to the
    canonical form of binary64: [2^52 <= m < 2^53], or [e = -1074]. *)
Definition normalize (m e : Z) : Z * Z :=
  let s := Z.max 0 (Z.min (52 - Z.log2 m) (e + 1074)) in
  (Z.shiftl m s, e - s).

Definition ceil_div (n d : Z) : Z := - ((- n) / d).

(** The multiples [c * 10^E] of [10^E] that read back as the canonical
    [m * 2^e]: those between the midpoints to the two neighbouring values,
    the midpoints included when [m] is even (a tie rounds to even).  The
    result is the least and the greatest [c], and the [c] nearest to
    [m * 2^e] among them (a tie to the even one).  Values are scaled by
    [2^(2-e)] to make the midpoints integers. *)
Definition candidates (m e E : Z) : Z * Z * Z :=
  let u := e - 2 in
  let a := Z.max (- E) 0 in
  let b := Z.max (- u) 0 in
  let D := 10 ^ (E + a) * 2 ^ b in
  let K := 2 ^ (u + b) * 10 ^ a in
  let L := if (m =? 2 ^ 52) && (-1074 <? e) then 4 * m - 1 else 4 * m - 2 in
  let H := 4 * m + 2 in
  let incl := Z.even m in
  let lo := if incl then ceil_div (L * K) D else (L * K) / D + 1 in
  let hi := if incl then (H * K) / D else ceil_div (H * K) D - 1 in
  let X := 4 * m * K in
  let q := X / D in
  let r := X mod D in
  let near := if 2 * r >? D then q + 1 else if 2 * r <? D then q else if Z.even q then q else q + 1 in
  (lo, hi, Z.max lo (Z.min hi near)).

(** The shortest decimal [c * 10^E] that reads back as [m * 2^e], the
    nearest among the shortest: the greatest [E], from [E] down, for which
    there is a candidate. *)
Fixpoint shortest (fuel : nat) (m e E : Z) : Z * Z :=
  match fuel with
  | O => (m, 0)
  | S f =>
      let '(lo, hi, c) := candidates m e E in
      if lo <=? hi then (c, E) else shortest f m e (E - 1)
  end.

Definition substr_from (n : nat) (s : string) : string := substring n (String.length s - n) s.

(** The digits [ds] with the decimal point after [decpt] of them, as
    [float_repr_style = 'short'] writes them: fixed notation with at least
    one digit after the point for [-4 < decpt <= 16], else one digit, the
    others after a point, and a signed exponent of at least two digits. *)
Definition format (ds : string) (decpt : Z) : string :=
  let n := Z.of_nat (String.length ds) in
  if (decpt <=? -4) || (16 <? decpt) then
    let x := decpt - 1 in
    substring 0 1 ds ++ (if 1 <? n then "." ++ substr_from 1 ds else EmptyString) ++
    "e" ++ (if x <? 0 then "-" else "+") ++ PyStr.pad 2 (Z.abs x)
  else if decpt <=? 0 then "0." ++ PyStr.repeat "0" (Z.to_nat (- decpt)) ++ ds
  else if n <=? decpt then ds ++ PyStr.repeat "0" (Z.to_nat (decpt - n)) ++ ".0"
  else substring 0 (Z.to_nat decpt) ds ++ "." ++ substr_from (Z.to_nat decpt) ds.

(** [repr(x)], which is also [str(x)]: the search for [E] starts above
    [log10 |x| + 1]. *)
Definition repr (f : spec_float) : string :=
  match f with
  | S754_zero s => if s then "-0.0" else "0.0"
  | S754_infinity s => if s then "-inf" else "inf"
  | S754_nan => "nan"
  | S754_finite s m e =>
      let '(m', e') := normalize (Z.pos m) e in
      let '(c, E) := shortest 40 m' e' (((Z.log2 m' + e' + 2) * 30103) / 100000 + 2) in
      let ds := PyStr.of_nonneg c in
      (if s then "-" else EmptyString) ++ format ds (Z.of_nat (String.length ds) + E)
  end.

(** [x] compared with the integer [n], exactly as Python compares a [float]
    with an [int]; [None] for a NaN, which is neither less, equal nor
    greater. *)
Definition cmp_Z (f : spec_float) (n : Z) : option comparison :=
  match f with
  | S754_nan => None
  | S754_zero _ => Some (Z.compare 0 n)
  | S754_infinity s => Some (if s then Lt else Gt)
  | S754_finite s m e =>
      let v := if s then Z.neg m else Z.pos m in
      Some (if 0 <=? e then Z.compare (v * 2 ^ e) n else Z.compare v (n * 2 ^ (- e)))
  end.

(** [bool(x)]: false for the zeros only. *)
Definition truthy (f : spec_float) : bool :=
  match f with S754_zero _ => false | _ => true end.

End PyFloat.


(* ------------------------------------------------------------------ *)
(** ** Python values exchanged as JSON *)

Inductive pyval : Type :=
| PNone
| PBool (b : bool)
| PInt (z : Z)
| PFloat (f : spec_float)
| PStr (s : string)
| PList (l : list pyval)
| PDict (d : list (string * pyval)).

(** [repr(v)] and [str(v)] (the latter is what an f-string inserts). *)
Fixpoint py_repr (v : pyval) : string :=
  match v with
  | PNone => "None"
  | PBool true => "True"
  | PBool false => "False"
  | PInt z => PyStr.of_Z z
  | PFloat f => PyFloat.repr f
  | PStr s => PyStr.repr s
  | PList l => "[" ++ PyStr.join ", " (map py_repr l) ++ "]"
  | PDict d =>
      "{" ++ PyStr.join ", " (map (fun kv => PyStr.repr (fst kv) ++ ": " ++ py_repr (snd kv)) d) ++ "}"
  end.

Definition py_str (v : pyval) : string :=
  match v with
  | PStr s => s
  | _ => py_repr v
  end.

Definition py_type_name (v : pyval) : string :=
  match v with
  | PNone => "NoneType"
  | PBool _ => "bool"
  | PInt _ => "int"
  | PFloat _ => "float"
  | PStr _ => "str"
  | PList _ => "list"
  | PDict _ => "dict"
  end.

(** [bool(v)], as [if v:] and [not v] use it. *)
Definition py_truthy (v : pyval) : bool :=
  match v with
  | PNone => false
  | PBool b => b
  | PInt z => negb (z =? 0)
  | PFloat f => PyFloat.truthy f
  | PStr s => negb (String.eqb s EmptyString)
  | PList l => negb (Nat.eqb (List.length l) 0)
  | PDict d => negb (Nat.eqb (List.length d) 0)
  end.

(** The integer value of an [int] (a [bool] is an [int] in Python). *)
Definition py_as_int (v : pyval) : option Z :=
  match v with
  | PInt z => Some z
  | PBool b => Some (if b then 1 else 0)
  | _ => None
  end.

(** [isinstance(v, int)]. *)
Definition py_isinstance_int (v : pyval) : bool :=
  match py_as_int v with Some _ => true | None => false end.

(** [v == s] for a string [s] and [v == n] for an integer [n]. *)
Definition py_eq_str (v : pyval) (s : string) : bool :=
  match v with PStr s' => String.eqb s' s | _ => false end.

Definition py_eq_int (v : pyval) (n : Z) : bool :=
  match v with
  | PFloat f => match PyFloat.cmp_Z f n with Some Eq => true | _ => false end
  | _ => match py_as_int v with Some z => z =? n | None => false end
  end.

Fixpoint dict_lookup (d : list (string * pyval)) (k : string) : option pyval :=
  match d with
  | [] => None
  | (k', v) :: r => if String.eqb k' k then Some v else dict_lookup r k
  end.

(* ------------------------------------------------------------------ *)
(** ** Exceptions, processes, effects *)

Inductive exc : Type :=
| CalledProcessError (returncode : Z) (cmd : list string) (stderr : string) (text : bool)
| OSError (msg : string)
| ValueError (msg : string)
| TypeError (msg : string)
| AttributeError (msg : string)
| IndexError (msg : string)
| KeyError (key : pyval)
| EOFError (msg : string)
| RecursionError (msg : string)
| JSONDecodeError (msg : string).

(** The names of [signal.Signals] on Linux (Python 3.11 and later), by
    number; an alias takes the name that sorts first ([SIGABRT] for
    [SIGIOT], [SIGCHLD] for [SIGCLD], [SIGIO] for [SIGPOLL]). *)
Definition signal_name (n : Z) : option string :=
  match n with
  | 1 => Some "SIGHUP" | 2 => Some "SIGINT" | 3 => Some "SIGQUIT" | 4 => Some "SIGILL"
  | 5 => Some "SIGTRAP" | 6 => Some "SIGABRT" | 7 => Some "SIGBUS" | 8 => Some "SIGFPE"
  | 9 => Some "SIGKILL" | 10 => Some "SIGUSR1" | 11 => Some "SIGSEGV" | 12 => Some "SIGUSR2"
  | 13 => Some "SIGPIPE" | 14 => Some "SIGALRM" | 15 => Some "SIGTERM" | 16 => Some "SIGSTKFLT"
  | 17 => Some "SIGCHLD" | 18 => Some "SIGCONT" | 19 => Some "SIGSTOP" | 20 => Some "SIGTSTP"
  | 21 => Some "SIGTTIN" | 22 => Some "SIGTTOU" | 23 => Some "SIGURG" | 24 => Some "SIGXCPU"
  | 25 => Some "SIGXFSZ" | 26 => Some "SIGVTALRM" | 27 => Some "SIGPROF" | 28 => Some "SIGWINCH"
  | 29 => Some "SIGIO" | 30 => Some "SIGPWR" | 31 => Some "SIGSYS" | 34 => Some "SIGRTMIN"
  | 64 => Some "SIGRTMAX"
  | _ => None
  end.

(** [str(e)].  A process killed by a signal [n] (return code [-n]) is
    rendered with [repr(signal.Signals(n))], or as an unknown signal when
    [n] names none. *)
Definition exc_str (e : exc) : string :=
  match e with
  | CalledProcessError rc cmd _ _ =>
      "Command '" ++ py_repr (PList (map PStr cmd)) ++ "' " ++
      (if rc <? 0 then
         match signal_name (- rc) with
         | Some sig => "died with <Signals." ++ sig ++ ": " ++ PyStr.of_Z (- rc) ++ ">."
         | None => "died with unknown signal " ++ PyStr.of_Z (- rc) ++ "."
         end
       else "returned non-zero exit status " ++ PyStr.of_Z rc ++ ".")
  | OSError m | ValueError m | TypeError m | AttributeError m
  | IndexError m | EOFError m | RecursionError m | JSONDecodeError m => m
  | KeyError k => py_repr k
  end.

Definition is_called_process_error (e : exc) : bool :=
  match e with CalledProcessError _ _ _ _ => true | _ => false end.

Definition is_json_decode_error (e : exc) : bool :=
  match e with JSONDecodeError _ => true | _ => false end.

(** The answer of the operating system to one [subprocess.run]. *)
Inductive proc_outcome : Type :=
| Launched (returncode : Z) (stdout stderr : string)
| LaunchFailed (msg : string).

Record completed : Type := mkCompleted
  { cp_returncode : Z; cp_stdout : string; cp_stderr : string }.

(** Observable effects, in the order they happen. *)
Inductive event : Type :=
| EvRun (cmd : list string)
| EvNow
| EvInput (prompt : string).

(** A line on standard output: [print(json.dumps(v))] or any other
    [print]. *)
Inductive outline : Type :=
| OutJson (v : pyval)
| OutText (s : string).

Record St : Type := mkSt
  { st_in : list string; st_out : list outline; st_log : list event }.

Record datetime : Type := mkDatetime
  { dt_year : Z; dt_month : Z; dt_day : Z;
    dt_hour : Z; dt_minute : Z; dt_second : Z; dt_microsecond : Z }.

(** [d.isoformat()] and [d.strftime("%H:%M:%S")]. *)
Definition isoformat (d : datetime) : string :=
  PyStr.pad 4 (dt_year d) ++ "-" ++ PyStr.pad 2 (dt_month d) ++ "-" ++
  PyStr.pad 2 (dt_day d) ++ "T" ++ PyStr.pad 2 (dt_hour d) ++ ":" ++
  PyStr.pad 2 (dt_minute d) ++ ":" ++ PyStr.pad 2 (dt_second d) ++
  (if dt_microsecond d =? 0 then EmptyString else "." ++ PyStr.pad 6 (dt_microsecond d)).

Definition strftime_hms (d : datetime) : string :=
  PyStr.pad 2 (dt_hour d) ++ ":" ++ PyStr.pad 2 (dt_minute d) ++ ":" ++
  PyStr.pad 2 (dt_second d).

(** A computation: from a state to a value or a raised exception, and the
    state reached (effects before a [raise] are kept). *)
Inductive res (A : Type) : Type :=
| Ok (a : A)
| Exc (e : exc).
Arguments Ok {A} a.
Arguments Exc {A} e.

Definition M (A : Type) : Type := St -> res A * St.

Definition ret {A} (a : A) : M A := fun st => (Ok a, st).

Definition raise {A} (e : exc) : M A := fun st => (Exc e, st).

Definition bind {A B} (m : M A) (k : A -> M B) : M B :=
  fun st =>
    match m st with
    | (Ok a, st') => k a st'
    | (Exc e, st') => (Exc e, st')
    end.

Notation "x <- m ;; k" := (bind m (fun x => k))
  (at level 61, m at next level, right associativity).

(** [try: m] followed by [except] clauses, tried in order: the first
    clause whose class test accepts the exception handles it; an exception
    raised by a handler propagates. *)
Fixpoint handle {A} (hs : list ((exc -> bool) * (exc -> M A))) (e : exc) : M A :=
  match hs with
  | [] => raise e
  | (sel, h) :: r => if sel e then h e else handle r e
  end.

Definition try_except {A} (m : M A) (hs : list ((exc -> bool) * (exc -> M A))) : M A :=
  fun st =>
    match m st with
    | (Exc e, st') => handle hs e st'
    | r => r
    end.

(** [try: m except E as e: h(e)] where [sel] recognises the classes [E]. *)
Definition catch {A} (sel : exc -> bool) (m : M A) (h : exc -> M A) : M A :=
  try_except m [(sel, h)].

(** [except Exception]: every exception of the model is an [Exception]. *)
Definition any_exc (_ : exc) : bool := true.

Definition print_text (s : string) : M unit :=
  fun st => (Ok tt, mkSt (st_in st) (app (st_out st) [OutText s]) (st_log st)).

Definition print_json (v : pyval) : M unit :=
  fun st => (Ok tt, mkSt (st_in st) (app (st_out st) [OutJson v]) (st_log st)).

Definition log_event (ev : event) : M unit :=
  fun st => (Ok tt, mkSt (st_in st) (st_out st) (app (st_log st) [ev])).

(** [sys.stdin.readline()]: the empty string at end of input. *)
Definition readline : M string :=
  fun st =>
    match st_in st with
    | [] => (Ok EmptyString, st)
    | l :: r => (Ok l, mkSt r (st_out st) (st_log st))
    end.

Fixpoint all_pstr (l : list pyval) : option (list string) :=
  match l with
  | [] => Some []
  | PStr s :: r => option_map (cons s) (all_pstr r)
  | _ :: _ => None
  end.

Fixpoint first_non_str (l : list pyval) : string :=
  match l with
  | [] => EmptyString
  | PStr _ :: r => first_non_str r
  | v :: _ => py_type_name v
  end.

Definition nul : ascii := ascii_of_nat 0.

Definition rstrip_newline (s : string) : string :=
  match PyStr.rev_str s EmptyString with
  | String c r => if Ascii.eqb c "010"%char then PyStr.rev_str r EmptyString else s
  | EmptyString => s
  end.

Section Bridge.

(** The tmux server and the operating system: the outcome of launching a
    command, given the effects that happened before. *)
Variable tmux : list event -> list string -> proc_outcome.
(** [datetime.now()], given the effects that happened before. *)
Variable clock : list event -> datetime.
(** [json.loads(s)]: a value, or the exception it raises: a
    [JSONDecodeError] for text that is not JSON, and for JSON it cannot
    build a [ValueError] (an integer of more than 4300 digits) or a
    [RecursionError] (nesting deeper than the recursion limit). *)
Variable json_loads : string -> pyval + exc.

(** [subprocess.run(cmd, capture_output=True, text=text, check=check)]. *)
Definition run (cmd : list pyval) (text check : bool) : M completed :=
  match all_pstr cmd with
  | None => raise (TypeError ("expected str, bytes or os.PathLike object, not " ++ first_non_str cmd))
  | Some args =>
      if existsb (PyStr.has_char nul) args then raise (ValueError "embedded null byte")
      else fun st =>
        let st1 := mkSt (st_in st) (st_out st) (app (st_log st) [EvRun args]) in
        match tmux (st_log st) args with
        | LaunchFailed m => (Exc (OSError m), st1)
        | Launched rc o e =>
            if check && negb (rc =? 0)
            then (Exc (CalledProcessError rc args e text), st1)
            else (Ok (mkCompleted rc o e), st1)
        end
  end.

(** [datetime.now()]. *)
Definition now : M datetime :=
  fun st => (Ok (clock (st_log st)), mkSt (st_in st) (st_out st) (app (st_log st) [EvNow])).

(** [input(prompt)]. *)
Definition input (prompt : string) : M string :=
  fun st =>
    let out := app (st_out st) [OutText prompt] in
    let lg := app (st_log st) [EvInput prompt] in
    match st_in st with
    | [] => (Exc (EOFError "EOF when reading a line"), mkSt [] out lg)
    | l :: r => (Ok (rstrip_newline l), mkSt r out lg)
    end.


(** [datetime.now()]-free helpers of the orchestrator. *)
Fixpoint forM_opt {A B} (f : A -> M (option B)) (l : list A) : M (list B) :=
  match l with
  | [] => ret []
  | x :: r =>
      o <- f x;;
      rest <- forM_opt f r;;
      ret (match o with Some b => b :: rest | None => rest end)
  end.

Fixpoint mapM {A B} (f : A -> M B) (l : list A) : M (list B) :=
  match l with
  | [] => ret []
  | x :: r => b <- f x;; rest <- mapM f r;; ret (b :: rest)
  end.

(** [a, b = parts] and [a, b, c = parts] when the count is wrong. *)
Definition unpack_error (expected got : nat) : exc :=
  if (expected <? got)%nat
  then ValueError ("too many values to unpack (expected " ++ PyStr.of_Z (Z.of_nat expected) ++ ")")
  else ValueError ("not enough values to unpack (expected " ++ PyStr.of_Z (Z.of_nat expected) ++
                   ", got " ++ PyStr.of_Z (Z.of_nat got) ++ ")").

(** [int(s)]. *)
Definition py_int (s : string) : M Z :=
  match PyStr.int_of_string s with
  | Some z => ret z
  | None => raise (ValueError ("invalid literal for int() with base 10: " ++ PyStr.repr s))
  end.

(** [parts[i]] on a list of strings. *)
Definition list_index (parts : list string) (i : nat) : M string :=
  match nth_error parts i with
  | Some x => ret x
  | None => raise (IndexError "list index out of range")
  end.

(** [e.stderr] inserted in an f-string, when it is non-empty: a [str] for
    [text=True] runs, a [bytes] object otherwise. *)
Definition stderr_details (e : exc) : option string :=
  match e with
  | CalledProcessError _ _ err text =>
      if String.eqb err EmptyString then None
      else Some (if text then err else PyStr.bytes_repr err)
  | _ => None
  end.

(** [num_lines <= n] and [num_lines > n]: an [int], a [bool] or a [float]
    compares with an integer, anything else raises. *)
Definition py_le_int (v : pyval) (n : Z) : M bool :=
  match v with
  | PFloat f => ret (match PyFloat.cmp_Z f n with Some Lt | Some Eq => true | _ => false end)
  | _ =>
      match py_as_int v with
      | Some z => ret (z <=? n)
      | None => raise (TypeError ("'<=' not supported between instances of '" ++ py_type_name v ++ "' and 'int'"))
      end
  end.

Definition py_gt_int (v : pyval) (n : Z) : M bool :=
  match v with
  | PFloat f => ret (match PyFloat.cmp_Z f n with Some Gt => true | _ => false end)
  | _ =>
      match py_as_int v with
      | Some z => ret (n <? z)
      | None => raise (TypeError ("'>' not supported between instances of '" ++ py_type_name v ++ "' and 'int'"))
      end
  end.

(** [window_index < 0], evaluated only once [isinstance(window_index, int)]
    holds. *)
Definition py_lt0 (v : pyval) : bool :=
  match py_as_int v with Some z => z <? 0 | None => false end.

(** The guard shared by [capture_window_content] and [send_keys_to_window]:
    [not session_name or not isinstance(window_index, int) or window_index < 0]. *)
Definition invalid_target (session_name window_index : pyval) : bool :=
  negb (py_truthy session_name) || negb (py_isinstance_int window_index) || py_lt0 window_index.

Definition target_of (session_name window_index : pyval) : string :=
  py_str session_name ++ ":" ++ py_str window_index.

(* ------------------------------------------------------------------ *)
(** ** [class TmuxOrchestrator] *)

Record TmuxWindow : Type := mkTmuxWindow
  { session_name : string; window_index : Z; window_name : string; active : bool }.

Record TmuxSession : Type := mkTmuxSession
  { name : string; windows : list TmuxWindow; attached : bool }.

Record TmuxOrchestrator : Type := mkOrchestrator
  { safety_mode : bool; max_lines_capture : Z }.

(** [TmuxOrchestrator.__init__]. *)
Definition TmuxOrchestrator_init : TmuxOrchestrator :=
  {| safety_mode := true; max_lines_capture := 1000 |}.

Definition tmux_str (args : list string) : list pyval := map PStr args.

Definition sessions_cmd : list pyval :=
  tmux_str ["tmux"; "list-sessions"; "-F"; "#{session_name}:#{session_attached}"].

Definition windows_cmd (session_name : string) : list pyval :=
  tmux_str ["tmux"; "list-windows"; "-t"; session_name; "-F";
            "#{window_index}:#{window_name}:#{window_active}"].

Definition nl : ascii := "010"%char.

(** One line of [list-windows]. *)
Definition parse_window (session_name : string) (window_line : string) : M (option TmuxWindow) :=
  if String.eqb window_line EmptyString then ret None
  else match PyStr.split ":" window_line with
       | [wi; wn; wa] =>
           i <- py_int wi;;
           ret (Some (mkTmuxWindow session_name i wn (String.eqb wa "1")))
       | parts => raise (unpack_error 3 (List.length parts))
       end.

(** One line of [list-sessions], with the [list-windows] call it makes. *)
Definition parse_session (line : string) : M (option TmuxSession) :=
  if String.eqb line EmptyString then ret None
  else match PyStr.split ":" line with
       | [session_name; attached] =>
           windows_result <- run (windows_cmd session_name) true true;;
           ws <- forM_opt (parse_window session_name)
                   (PyStr.split nl (PyStr.strip (cp_stdout windows_result)));;
           ret (Some (mkTmuxSession session_name ws (String.eqb attached "1")))
       | parts => raise (unpack_error 2 (List.length parts))
       end.

(** [get_tmux_sessions]. *)
Definition get_tmux_sessions : M (list TmuxSession) :=
  catch is_called_process_error
    (sessions_result <- run sessions_cmd true true;;
     forM_opt parse_session (PyStr.split nl (PyStr.strip (cp_stdout sessions_result))))
    (fun e => _ <- print_text ("Error getting tmux sessions: " ++ exc_str e);; ret []).

(** [capture_window_content(session_name, window_index, num_lines)]. *)
Definition capture_window_content (self : TmuxOrchestrator)
    (session_name window_index num_lines : pyval) : M string :=
  if invalid_target session_name window_index then
    ret ("Error: Invalid session name or window index: " ++ target_of session_name window_index)
  else
    nonpos <- py_le_int num_lines 0;;
    if nonpos then ret "Error: Number of lines must be positive"
    else
      over <- py_gt_int num_lines (max_lines_capture self);;
      num_lines' <- (if over then
                       _ <- print_text ("Warning: Limiting capture to " ++
                                        PyStr.of_Z (max_lines_capture self) ++ " lines");;
                       ret (PInt (max_lines_capture self))
                     else ret num_lines);;
      let target := target_of session_name window_index in
      catch is_called_process_error
        (_ <- run (tmux_str ["tmux"; "list-panes"; "-t"; target]) false true;;
         result <- run (tmux_str ["tmux"; "capture-pane"; "-t"; target; "-p"; "-S";
                                  "-" ++ py_str num_lines']) true true;;
         ret (cp_stdout result))
        (fun e =>
           let error_msg := "Error capturing content from " ++ target ++ ": " ++ exc_str e in
           ret (match stderr_details e with
                | Some d => error_msg ++ String nl "Details: " ++ d
                | None => error_msg
                end)).

(** [get_window_info(session_name, window_index)]: a dict, [None] when the
    reply is blank (the [if] has no [else]), or an error dict. *)
Definition get_window_info (self : TmuxOrchestrator) (session_name window_index : pyval) : M pyval :=
  catch is_called_process_error
    (result <- run (tmux_str ["tmux"; "display-message"; "-t"; target_of session_name window_index; "-p";
                              "#{window_name}:#{window_active}:#{window_panes}:#{window_layout}"]) true true;;
     let o := PyStr.strip (cp_stdout result) in
     if String.eqb o EmptyString then ret PNone
     else
       let parts := PyStr.split ":" o in
       n <- list_index parts 0;;
       a <- list_index parts 1;;
       p <- list_index parts 2;;
       panes <- py_int p;;
       layout <- list_index parts 3;;
       content <- capture_window_content self session_name window_index (PInt 50);;
       ret (PDict [("name", PStr n); ("active", PBool (String.eqb a "1")); ("panes", PInt panes);
                   ("layout", PStr layout); ("content", PStr content)]))
    (fun e => ret (PDict [("error", PStr ("Could not get window info: " ++ exc_str e))])).

(** Prints [Details: ...] when the failed run left a non-empty stderr. *)
Definition print_details (e : exc) : M unit :=
  match stderr_details e with
  | Some d => print_text ("Details: " ++ d)
  | None => ret tt
  end.

(** [send_keys_to_window(session_name, window_index, keys, confirm)]. *)
Definition send_keys_to_window (self : TmuxOrchestrator)
    (session_name window_index keys confirm : pyval) : M bool :=
  if invalid_target session_name window_index then
    _ <- print_text ("Error: Invalid session name or window index: " ++ target_of session_name window_index);;
    ret false
  else if negb (py_truthy keys) then
    _ <- print_text "Error: Cannot send empty keys";;
    ret false
  else
    let target := target_of session_name window_index in
    exists_ <- catch is_called_process_error
                 (_ <- run (tmux_str ["tmux"; "list-panes"; "-t"; target]) false true;; ret true)
                 (fun _ => _ <- print_text ("Error: Tmux target '" ++ target ++ "' does not exist");;
                           ret false);;
    if negb exists_ then ret false
    else
      go <- (if safety_mode self && py_truthy confirm then
               _ <- print_text ("SAFETY CHECK: About to send '" ++ py_str keys ++ "' to " ++ target);;
               response <- input "Confirm? (yes/no): ";;
               if negb (String.eqb (PyStr.lower response) "yes") then
                 _ <- print_text "Operation cancelled";; ret false
               else ret true
             else ret true);;
      if negb go then ret false
      else
        catch is_called_process_error
          (_ <- run [PStr "tmux"; PStr "send-keys"; PStr "-t"; PStr target; keys] true true;; ret true)
          (fun e => _ <- print_text ("Error sending keys to " ++ target ++ ": " ++ exc_str e);;
                    _ <- print_details e;;
                    ret false).

Definition submit_cmd (target : string) : list pyval :=
  tmux_str ["tmux"; "send-keys"; "-t"; target; "C-m"].

(** [send_command_to_window(session_name, window_index, command, confirm)]. *)
Definition send_command_to_window (self : TmuxOrchestrator)
    (session_name window_index command confirm : pyval) : M bool :=
  if negb (py_truthy command) then
    _ <- print_text "Error: Cannot send empty command";;
    ret false
  else
    sent <- send_keys_to_window self session_name window_index command confirm;;
    if negb sent then ret false
    else
      let target := target_of session_name window_index in
      catch is_called_process_error
        (_ <- run (submit_cmd target) true true;; ret true)
        (fun e => _ <- print_text ("Error sending Enter key to " ++ target ++ ": " ++ exc_str e);;
                  _ <- print_details e;;
                  ret false).

(** One entry of [status["sessions"]] and of its ["windows"]. *)
Definition window_status (self : TmuxOrchestrator) (session : TmuxSession) (window : TmuxWindow) : M pyval :=
  window_info <- get_window_info self (PStr (name session)) (PInt (window_index window));;
  ret (PDict [("index", PInt (window_index window)); ("name", PStr (window_name window));
              ("active", PBool (active window)); ("info", window_info)]).

Definition session_status (self : TmuxOrchestrator) (session : TmuxSession) : M pyval :=
  ws <- mapM (window_status self session) (windows session);;
  ret (PDict [("name", PStr (name session)); ("attached", PBool (attached session));
              ("windows", PList ws)]).

(** [get_all_windows_status()]. *)
Definition get_all_windows_status (self : TmuxOrchestrator) : M pyval :=
  sessions <- get_tmux_sessions;;
  t <- now;;
  ss <- mapM (session_status self) sessions;;
  ret (PDict [("timestamp", PStr (isoformat t)); ("sessions", PList ss)]).

(** [v.lower()]. *)
Definition py_lower (v : pyval) : M string :=
  match v with
  | PStr s => ret (PyStr.lower s)
  | _ => raise (AttributeError ("'" ++ py_type_name v ++ "' object has no attribute 'lower'"))
  end.

(** [find_window_by_name(window_name)]. *)
Definition find_window_by_name (self : TmuxOrchestrator) (window_name_ : pyval) : M (list (string * Z)) :=
  sessions <- get_tmux_sessions;;
  per_session <- mapM (fun session =>
      forM_opt (fun window =>
          needle <- py_lower window_name_;;
          ret (if PyStr.contains needle (PyStr.lower (window_name window))
               then Some (name session, window_index window) else None))
        (windows session)) sessions;;
  ret (concat per_session).

(** [v[k]] for a string key. *)
Definition getitem (v : pyval) (k : string) : M pyval :=
  match v with
  | PDict d =>
      match dict_lookup d k with
      | Some x => ret x
      | None => raise (KeyError (PStr k))
      end
  | PList _ => raise (TypeError "list indices must be integers or slices, not str")
  | PStr _ => raise (TypeError "string indices must be integers, not 'str'")
  | _ => raise (TypeError ("'" ++ py_type_name v ++ "' object is not subscriptable"))
  end.

(** [k in v] for a string [k]. *)
Definition py_contains (k : string) (v : pyval) : M bool :=
  match v with
  | PDict d => ret (match dict_lookup d k with Some _ => true | None => false end)
  | PStr s => ret (PyStr.contains k s)
  | PList l => ret (existsb (fun x => py_eq_str x k) l)
  | _ => raise (TypeError ("argument of type '" ++ py_type_name v ++ "' is not iterable"))
  end.

(** [for x in v] over the lists the snapshot builds. *)
Definition iter_list (v : pyval) : M (list pyval) :=
  match v with
  | PList l => ret l
  | _ => raise (TypeError ("'" ++ py_type_name v ++ "' object is not iterable"))
  end.

Definition py_split_nl (v : pyval) : M (list string) :=
  match v with
  | PStr s => ret (PyStr.split nl s)
  | _ => raise (AttributeError ("'" ++ py_type_name v ++ "' object has no attribute 'split'"))
  end.

Definition nls : string := String nl EmptyString.

Definition render_window (window : pyval) : M string :=
  idx <- getitem window "index";;
  wname <- getitem window "name";;
  act <- getitem window "active";;
  let head := "  Window " ++ py_str idx ++ ": " ++ py_str wname ++
              (if py_truthy act then " (ACTIVE)" else EmptyString) ++ nls in
  info <- getitem window "info";;
  has_content <- py_contains "content" info;;
  body <- (if has_content then
             info' <- getitem window "info";;
             content <- getitem info' "content";;
             content_lines <- py_split_nl content;;
             let recent_lines :=
               if (10 <? List.length content_lines)%nat
               then skipn (List.length content_lines - 10) content_lines else content_lines in
             ret ("    Recent output:" ++ nls ++
                  String.concat EmptyString (map (fun line => if String.eqb (PyStr.strip line) EmptyString then EmptyString
                                                     else "    | " ++ line ++ nls) recent_lines))
           else ret EmptyString);;
  ret (head ++ body ++ nls).

Definition render_session (session : pyval) : M string :=
  sname <- getitem session "name";;
  att <- getitem session "attached";;
  let head := "Session: " ++ py_str sname ++ " (" ++ (if py_truthy att then "ATTACHED" else "DETACHED") ++
              ")" ++ nls ++ PyStr.repeat "-" 30 ++ nls in
  ws <- getitem session "windows";;
  wl <- iter_list ws;;
  rendered <- mapM render_window wl;;
  ret (head ++ String.concat EmptyString rendered).

(** [create_monitoring_snapshot()]. *)
Definition create_monitoring_snapshot (self : TmuxOrchestrator) : M string :=
  status <- get_all_windows_status self;;
  ts <- getitem status "timestamp";;
  let header := "Tmux Monitoring Snapshot - " ++ py_str ts ++ nls ++ PyStr.repeat "=" 50 ++ nls ++ nls in
  ss <- getitem status "sessions";;
  sl <- iter_list ss;;
  rendered <- mapM render_session sl;;
  ret (header ++ String.concat EmptyString rendered).

(** [_detect_window_role(window_name, window_index)]. *)
Definition detect_window_role (window_name_ : string) (window_index_ : pyval) : string :=
  let name_lower := PyStr.lower window_name_ in
  if PyStr.contains "project" name_lower || PyStr.contains "manager" name_lower || py_eq_int window_index_ 0
  then "project-manager"
  else if PyStr.contains "qa" name_lower || PyStr.contains "test" name_lower || py_eq_int window_index_ 1
  then "qa-engineer"
  else if PyStr.contains "dev" name_lower || PyStr.contains "code" name_lower || py_eq_int window_index_ 2
  then "developer"
  else "developer".

(** [_generate_status_response(role, session_name, window_index)]. *)
Definition generate_status_response (role : string) : M string :=
  t <- now;;
  let timestamp := strftime_hms t in
  ret (if String.eqb role "project-manager" then
         "[" ++ timestamp ++ "] PROJECT STATUS: Coordinating team activities. Monitoring QA and development progress. Ready to assist with project management tasks."
       else if String.eqb role "qa-engineer" then
         "[" ++ timestamp ++ "] QA STATUS: Systems operational. Ready to run tests and validate code quality. Awaiting code submissions for testing."
       else if String.eqb role "developer" then
         "[" ++ timestamp ++ "] DEVELOPER STATUS: Ready for development tasks. Environment configured. Awaiting project requirements or code assignments."
       else
         "[" ++ timestamp ++ "] AGENT STATUS: Online and ready. Waiting for task assignments.").

(** [handle_status_request(session_name, window_index, request)]. *)
Definition handle_status_request (self : TmuxOrchestrator) (session_name_ window_index_ : pyval) : M bool :=
  catch is_called_process_error
    (sessions <- get_tmux_sessions;;
     match find (fun s => py_eq_str session_name_ (name s)) sessions with
     | None => ret false
     | Some session =>
         match find (fun w => py_eq_int window_index_ (window_index w)) (windows session) with
         | None => ret false
         | Some window =>
             let role := detect_window_role (window_name window) window_index_ in
             status_response <- generate_status_response role;;
             let target := target_of session_name_ window_index_ in
             _ <- run (tmux_str ["tmux"; "send-keys"; "-t"; target; "C-c"]) true false;;
             _ <- run (tmux_str ["tmux"; "send-keys"; "-t"; target; "echo '" ++ status_response ++ "'"; "C-m"])
                    true true;;
             ret true
         end
     end)
    (fun e => _ <- print_text ("Error handling status request: " ++ exc_str e);; ret false).

(** The [if __name__ == "__main__":] block of [tmux_utils.py], returning the
    exit status; [print(json.dumps(status, indent=2))] prints the status
    as one JSON document. *)
Definition utils_main : M Z :=
  try_except
    (_ <- run (tmux_str ["tmux"; "-V"]) false true;;
     let orchestrator := TmuxOrchestrator_init in
     status <- get_all_windows_status orchestrator;;
     _ <- print_json status;;
     ret 0)
    [(is_called_process_error,
      fun _ => _ <- print_text "Error: tmux is not installed or not accessible";;
               _ <- print_text "Please install tmux to use this utility";;
               ret 1);
     (any_exc,
      fun e => _ <- print_text ("Unexpected error: " ++ exc_str e);;
               ret 1)].

(* ------------------------------------------------------------------ *)
(** ** [class PersistentTmuxWrapper] *)

(** [request.get(k, default)]. *)
Definition py_get (v : pyval) (k : string) (default : pyval) : M pyval :=
  match v with
  | PDict d => ret (match dict_lookup d k with Some x => x | None => default end)
  | _ => raise (AttributeError ("'" ++ py_type_name v ++ "' object has no attribute 'get'"))
  end.

(** [len(v)]. *)
Definition py_len (v : pyval) : M Z :=
  match v with
  | PList l => ret (Z.of_nat (List.length l))
  | PStr s => ret (Z.of_nat (String.length s))
  | PDict d => ret (Z.of_nat (List.length d))
  | _ => raise (TypeError ("object of type '" ++ py_type_name v ++ "' has no len()"))
  end.

(** [v[i]] for an integer [i]. *)
Definition py_index (v : pyval) (i : nat) : M pyval :=
  match v with
  | PList l =>
      match nth_error l i with
      | Some x => ret x
      | None => raise (IndexError "list index out of range")
      end
  | PStr s =>
      match String.get i s with
      | Some c => ret (PStr (String c EmptyString))
      | None => raise (IndexError "string index out of range")
      end
  | PDict _ => raise (KeyError (PInt (Z.of_nat i)))
  | _ => raise (TypeError ("'" ++ py_type_name v ++ "' object is not subscriptable"))
  end.

(** [v.startswith(p)]. *)
Definition py_startswith (v : pyval) (p : string) : M bool :=
  match v with
  | PStr s => ret (PyStr.startswith s p)
  | _ => raise (AttributeError ("'" ++ py_type_name v ++ "' object has no attribute 'startswith'"))
  end.

Definition window_to_py (w : TmuxWindow) : pyval :=
  PDict [("sessionName", PStr (session_name w)); ("windowIndex", PInt (window_index w));
         ("windowName", PStr (window_name w)); ("active", PBool (active w))].

Definition session_to_py (s : TmuxSession) : pyval :=
  PDict [("name", PStr (name s)); ("attached", PBool (attached s));
         ("windows", PList (map window_to_py (windows s)))].

(** [args[i] if len(args) > i else default]. *)
Definition arg_or (args : pyval) (n : Z) (i : nat) (default : pyval) : M pyval :=
  if Z.of_nat i <? n then py_index args i else ret default.

(** The [if]/[elif] chain of [handle_request], inside its [try]. *)
Definition dispatch (self : TmuxOrchestrator) (method args : pyval) : M pyval :=
  if py_eq_str method "ping" then ret (PStr "pong")
  else if py_eq_str method "get_tmux_sessions" then
    sessions <- get_tmux_sessions;;
    ret (PList (map session_to_py sessions))
  else if py_eq_str method "capture_window_content" then
    n <- py_len args;;
    if n <? 2 then raise (ValueError "Missing arguments for capture_window_content") else
    s <- py_index args 0;;
    w <- py_index args 1;;
    num_lines <- arg_or args n 2 (PInt 50);;
    r <- capture_window_content self s w num_lines;;
    ret (PStr r)
  else if py_eq_str method "get_window_info" then
    n <- py_len args;;
    if n <? 2 then raise (ValueError "Missing arguments for get_window_info") else
    s <- py_index args 0;;
    w <- py_index args 1;;
    get_window_info self s w
  else if py_eq_str method "send_keys_to_window" then
    n <- py_len args;;
    if n <? 3 then raise (ValueError "Missing arguments for send_keys_to_window") else
    s <- py_index args 0;;
    w <- py_index args 1;;
    keys <- py_index args 2;;
    confirm <- arg_or args n 3 (PBool false);;
    r <- send_keys_to_window self s w keys confirm;;
    ret (PBool r)
  else if py_eq_str method "send_command_to_window" then
    n <- py_len args;;
    if n <? 3 then raise (ValueError "Missing arguments for send_command_to_window") else
    s <- py_index args 0;;
    w <- py_index args 1;;
    command <- py_index args 2;;
    confirm <- arg_or args n 3 (PBool false);;
    is_status <- py_startswith command "STATUS REQUEST:";;
    r <- (if is_status then handle_status_request self s w
          else send_command_to_window self s w command confirm);;
    ret (PBool r)
  else if py_eq_str method "get_all_windows_status" then
    get_all_windows_status self
  else if py_eq_str method "find_window_by_name" then
    n <- py_len args;;
    if n <? 1 then raise (ValueError "Missing window name argument") else
    wn <- py_index args 0;;
    matches <- find_window_by_name self wn;;
    ret (PList (map (fun m => PList [PStr (fst m); PInt (snd m)]) matches))
  else if py_eq_str method "create_monitoring_snapshot" then
    r <- create_monitoring_snapshot self;;
    ret (PStr r)
  else raise (ValueError ("Unknown method: " ++ py_str method)).

Definition response_ok (request_id result : pyval) : pyval :=
  PDict [("id", request_id); ("result", result)].

Definition response_err (request_id : pyval) (msg : string) : pyval :=
  PDict [("id", request_id); ("error", PStr msg)].

(** [handle_request(request)]: the [except] clause calls [request.get]
    again, which raises for a request that is not a dict. *)
Definition handle_request (self : TmuxOrchestrator) (request : pyval) : M pyval :=
  catch any_exc
    (method <- py_get request "method" PNone;;
     args <- py_get request "args" (PList []);;
     request_id <- py_get request "id" PNone;;
     result <- dispatch self method args;;
     ret (response_ok request_id result))
    (fun e => rid <- py_get request "id" PNone;;
              ret (response_err rid (exc_str e))).

(** [PersistentTmuxWrapper.__init__]: a fresh orchestrator whose
    [safety_mode] is then set to [False]. *)
Definition wrapper_orchestrator : TmuxOrchestrator :=
  {| safety_mode := false; max_lines_capture := max_lines_capture TmuxOrchestrator_init |}.

(** [json.loads(line)]. *)
Definition json_loads_m (line : string) : M pyval :=
  match json_loads line with
  | inl v => ret v
  | inr e => raise e
  end.

(** One turn of the [while True] loop of [run_persistent]: [false] for
    [break], [true] to go round again. *)
Definition loop_body (self : TmuxOrchestrator) : M bool :=
  try_except
    (line <- readline;;
     if String.eqb line EmptyString then ret false
     else
       let line' := PyStr.strip line in
       if String.eqb line' EmptyString then ret true
       else
         request <- json_loads_m line';;
         response <- handle_request self request;;
         _ <- print_json response;;
         ret true)
    [(is_json_decode_error,
      fun e => _ <- print_json (response_err PNone ("Invalid JSON request: " ++ exc_str e));; ret true);
     (any_exc,
      fun e => _ <- print_json (response_err PNone ("Request handling error: " ++ exc_str e));; ret true)].

Fixpoint persistent_loop (self : TmuxOrchestrator) (fuel : nat) : M unit :=
  match fuel with
  | O => ret tt
  | S f => continue <- loop_body self;; if continue then persistent_loop self f else ret tt
  end.

(** [run_persistent()], returning the exit status of the process.  Every
    turn reads one line or stops, so one more turn than there are lines
    of input runs the loop to its [break]. *)
Definition run_persistent (self : TmuxOrchestrator) : M Z :=
  fun st =>
    catch any_exc
      (_ <- persistent_loop self (S (List.length (st_in st)));; ret 0)
      (fun e => _ <- print_json (response_err PNone ("Persistent mode error: " ++ exc_str e));; ret 1) st.

(** [run_legacy(method, args)], returning the exit status. *)
Definition run_legacy (self : TmuxOrchestrator) (method : string) (args : list pyval) : M Z :=
  response <- handle_request self (PDict [("id", PStr "legacy"); ("method", PStr method); ("args", PList args)]);;
  has_error <- py_contains "error" response;;
  if has_error then
    err <- getitem response "error";;
    _ <- print_json (PDict [("error", err)]);;
    ret 1
  else
    result <- getitem response "result";;
    _ <- print_json result;;
    ret 0.

(** One command-line argument of [main]: JSON-decoded, or kept as a
    string on a [JSONDecodeError]; another exception of [json.loads]
    propagates. *)
Definition parse_cli_arg (a : string) : M pyval :=
  catch is_json_decode_error (json_loads_m a) (fun _ => ret (PStr a)).

(** [main()] after [argparse]: [--persistent] or a method and its
    arguments. *)
Definition main (persistent : bool) (method : option string) (argv : list string) : M Z :=
  if persistent then run_persistent wrapper_orchestrator
  else match method with
       | None => _ <- print_json (PDict [("error", PStr "No method specified")]);; ret 1
       | Some m => method_args <- mapM parse_cli_arg argv;; run_legacy wrapper_orchestrator m method_args
       end.

End Bridge.

(* ------------------------------------------------------------------ *)
(** ** Reasoning about computations *)

Definition not_input (ev : event) : Prop := forall p, ev <> EvInput p.

Definition is_text (o : outline) : Prop := exists s, o = OutText s.

(** Only [print(json.dumps(...))] lines, in order: what a client parses as
    responses. *)
Definition json_out (out : list outline) : list pyval :=
  flat_map (fun o => match o with OutJson v => [v] | OutText _ => [] end) out.

(** The identifier a request carries: [request.get('id')] for a dict;
    a request that is not a dict has none. *)
Definition req_id (v : pyval) : pyval :=
  match v with
  | PDict d => match dict_lookup d "id" with Some x => x | None => PNone end
  | _ => PNone
  end.

(** [r] answers request [v]: the identifier of [v] and exactly one of a
    result or an error. *)
Definition response_for (v r : pyval) : Prop :=
  exists key body, r = PDict [("id", req_id v); (key, body)] /\ (key = "result" \/ key = "error").

(** The lines the persistent loop accepts as requests: not blank once
    stripped, and decoding as JSON. *)
Definition well_formed_line (json_loads : string -> pyval + exc) (l : string) : Prop :=
  PyStr.strip l <> EmptyString /\ exists v, json_loads (PyStr.strip l) = inl v.

(** Whether a log records an operator prompt. *)
Definition prompted (lg : list event) : bool :=
  existsb (fun ev => match ev with EvInput _ => true | _ => false end) lg.

(** The command [get_tmux_sessions] starts with. *)
Definition list_sessions_args : list string :=
  ["tmux"; "list-sessions"; "-F"; "#{session_name}:#{session_attached}"].

(** A step that launches, reads the clock or prints diagnostics, but
    neither prompts the operator nor reads standard input nor prints a
    JSON line. *)
Definition quiet_step (st st' : St) : Prop :=
  st_in st' = st_in st /\
  (exists added, st_out st' = st_out st ++ added /\ Forall is_text added)%list /\
  (exists added, st_log st' = st_log st ++ added /\ Forall not_input added)%list.

(** A step that does not prompt the operator. *)
Definition no_prompt_step (st st' : St) : Prop :=
  (exists added, st_log st' = st_log st ++ added /\ Forall not_input added)%list.

(** [m] relates every state to the state it ends in by [R]. *)
Definition Preserves (R : St -> St -> Prop) {A} (m : M A) : Prop := forall st, R st (snd (m st)).

(** A line the persistent loop skips: blank once stripped. *)
Definition blank (l : string) : bool := String.eqb (PyStr.strip l) EmptyString.

(** The error response the persistent loop prints for an exception [e]
    that its body raised. *)
Definition loop_error (e : exc) : pyval :=
  response_err PNone
    ((if is_json_decode_error e then "Invalid JSON request: " else "Request handling error: ") ++ exc_str e).

(** [r] is the JSON line the persistent loop prints for the non-blank line
    [l]: the response to the request it decodes to, or the error response
    of a line that [json.loads] rejects. *)
Definition answers (json_loads : string -> pyval + exc) (l : string) (r : pyval) : Prop :=
  match json_loads (PyStr.strip l) with
  | inl v => response_for v r
  | inr e => r = loop_error e
  end.

(** The ["info"] entries of every window of a status built by
    [get_all_windows_status], in order. *)
Definition status_infos (status : pyval) : list pyval :=
  match status with
  | PDict d =>
      match dict_lookup d "sessions" with
      | Some (PList ss) =>
          flat_map (fun s => match s with
                             | PDict sd =>
                                 match dict_lookup sd "windows" with
                                 | Some (PList ws) =>
                                     flat_map (fun w => match w with
                                                        | PDict wd => match dict_lookup wd "info" with
                                                                      | Some i => [i]
                                                                      | None => []
                                                                      end
                                                        | _ => []
                                                        end) ws
                                 | _ => []
                                 end
                             | _ => []
                             end) ss
      | _ => []
      end
  | _ => []
  end.

(** What tmux prints for [list-sessions -F ...] and [list-windows -F ...]:
    one line per entry, each ended by a newline. *)
Definition tmux_listing (lines : list string) : string :=
  String.concat EmptyString (map (fun l => l ++ nls) lines).

(** A window and a session as a tmux server lists them: the index, the
    name, and the flag printed for [#{window_active}] or
    [#{session_attached}]. *)
Record listed_window : Type := mkListedWindow
  { lw_index : Z; lw_name : string; lw_active : string }.

Record listed_session : Type := mkListedSession
  { ls_name : string; ls_attached : string; ls_windows : list listed_window }.

Definition window_listing (ws : list listed_window) : string :=
  tmux_listing (map (fun w => PyStr.of_Z (lw_index w) ++ ":" ++ lw_name w ++ ":" ++ lw_active w) ws).

Definition session_listing (ss : list listed_session) : string :=
  tmux_listing (map (fun s => ls_name s ++ ":" ++ ls_attached s) ss).

Definition list_windows_args (session_name : string) : list string :=
  ["tmux"; "list-windows"; "-t"; session_name; "-F"; "#{window_index}:#{window_name}:#{window_active}"].

(** A tmux server that lists the sessions [ss], and for each of them its
    windows, whatever happened before. *)
Definition tmux_lists (tmux : list event -> list string -> proc_outcome) (ss : list listed_session) : Prop :=
  (forall lg, exists e, tmux lg list_sessions_args = Launched 0 (session_listing ss) e) /\
  (forall lg s, In s ss -> exists e, tmux lg (list_windows_args (ls_name s)) = Launched 0 (window_listing (ls_windows s)) e).

Fixpoint str_forall (f : ascii -> bool) (s : string) : bool :=
  match s with
  | EmptyString => true
  | String c r => f c && str_forall f r
  end.

Definition colon : ascii := ":"%char.

(** A session name tmux can list and the orchestrator can pass back:
    no [:], newline or NUL, and no leading white space. *)
Definition plain_session_name (s : string) : bool :=
  negb (PyStr.has_char colon s) && negb (PyStr.has_char nl s) && negb (PyStr.has_char nul s) &&
  match s with String c _ => negb (PyStr.is_space c) | EmptyString => true end.

(** A flag field: no [:] and no white space. *)
Definition plain_flag (s : string) : bool :=
  str_forall (fun c => negb (PyStr.is_space c) && negb (Ascii.eqb c colon)) s.

(** A listing the orchestrator reads back: plain session names and flags,
    window names free of newlines, and (when [colon_free]) of [:]. *)
Definition plain_listing (colon_free : bool) (ss : list listed_session) : bool :=
  forallb (fun s => plain_session_name (ls_name s) && plain_flag (ls_attached s) &&
                    forallb (fun w => negb (PyStr.has_char nl (lw_name w)) &&
                                      (negb colon_free || negb (PyStr.has_char colon (lw_name w))) &&
                                      plain_flag (lw_active w)) (ls_windows s)) ss.

(** The sessions [get_tmux_sessions] should build from such a listing. *)
Definition listed_to_session (s : listed_session) : TmuxSession :=
  mkTmuxSession (ls_name s)
    (map (fun w => mkTmuxWindow (ls_name s) (lw_index w) (lw_name w) (String.eqb (lw_active w) "1"))
         (ls_windows s))
    (String.eqb (ls_attached s) "1").

(* ------------------------------------------------------------------ *)
(** ** Notions used by the further properties *)

(** A string whose first character is not white space. *)
Definition hd_ok (s : string) : bool :=
  match s with String c _ => negb (PyStr.is_space c) | EmptyString => false end.

(** A listing line with no newline whose last [:]-field is a plain flag. *)
Definition flag_line (l : string) : Prop :=
  PyStr.has_char nl l = false /\ exists x f, l = (x ++ String colon f)%string /\ plain_flag f = true.

(** The error of [a, b, c = line.split(':')] on a line with more than two [:]. *)
Definition too_many_3 : exc := ValueError "too many values to unpack (expected 3)".

(** The method names [handle_request] dispatches on. *)
Definition rpc_methods : list string :=
  ["ping"; "get_tmux_sessions"; "capture_window_content"; "get_window_info"; "send_keys_to_window";
   "send_command_to_window"; "get_all_windows_status"; "find_window_by_name"; "create_monitoring_snapshot"].

(** [d.get(k, default)] on a JSON object. *)
Definition dict_get (d : list (string * pyval)) (k : string) (default : pyval) : pyval :=
  match dict_lookup d k with Some x => x | None => default end.

(** The texts after the time stamp in the replies of [_generate_status_response]
    for the three roles [_detect_window_role] returns. *)
Definition status_bodies : list string :=
  ["] PROJECT STATUS: Coordinating team activities. Monitoring QA and development progress. Ready to assist with project management tasks.";
   "] QA STATUS: Systems operational. Ready to run tests and validate code quality. Awaiting code submissions for testing.";
   "] DEVELOPER STATUS: Ready for development tasks. Environment configured. Awaiting project requirements or code assignments."].

(** The warning [capture_window_content] prints when asked for more lines
    than [max_lines_capture]. *)
Definition capture_warning (self : TmuxOrchestrator) (n : Z) : list outline :=
  if max_lines_capture self <? n
  then [OutText ("Warning: Limiting capture to " ++ PyStr.of_Z (max_lines_capture self) ++ " lines")]
  else [].

(** The values [get_window_info] returns: [None], an error object, or the
    window's fields with its captured content. *)
Definition info_shape (v : pyval) : Prop :=
  v = PNone \/ (exists m, v = PDict [("error", PStr m)]) \/
  exists n a p l c, v = PDict [("name", PStr n); ("active", PBool a); ("panes", PInt p);
                               ("layout", PStr l); ("content", PStr c)].

(** A window entry of [get_all_windows_status]. *)
Definition window_shape (v : pyval) : Prop :=
  exists i n b info, v = PDict [("index", PInt i); ("name", PStr n); ("active", PBool b); ("info", info)] /\
                     info_shape info.

(** A session entry of [get_all_windows_status]. *)
Definition session_shape (v : pyval) : Prop :=
  exists n b ws, v = PDict [("name", PStr n); ("attached", PBool b); ("windows", PList ws)] /\
                 Forall window_shape ws.

(** The error of [k in None]. *)
Definition none_not_iterable : exc := TypeError "argument of type 'NoneType' is not iterable".

(** A window entry whose ["info"] is [None]. *)
Definition bad_window (w : pyval) : bool :=
  match w with
  | PDict wd => match dict_lookup wd "info" with Some PNone => true | _ => false end
  | _ => false
  end.

(** A session entry with such a window. *)
Definition bad_session (s : pyval) : bool :=
  match s with
  | PDict sd => match dict_lookup sd "windows" with Some (PList ws) => existsb bad_window ws | _ => false end
  | _ => false
  end.

(* ------------------------------------------------------------------ *)
(** ** A concrete tmux host, used by the examples and witnesses *)

Module Demo.

Definition list_eqb (a b : list string) : bool :=
  (Nat.eqb (List.length a) (List.length b)) && forallb (fun p => String.eqb (fst p) (snd p)) (combine a b).

Definition ok (out : string) : proc_outcome := Launched 0 out EmptyString.

(** One attached session [main] with one active window [0:shell]; any
    other command fails as tmux does for a missing target. *)
Definition tmux (log : list event) (cmd : list string) : proc_outcome :=
  if list_eqb cmd ["tmux"; "list-sessions"; "-F"; "#{session_name}:#{session_attached}"]
  then ok ("main:1" ++ nls)
  else if list_eqb cmd ["tmux"; "list-windows"; "-t"; "main"; "-F"; "#{window_index}:#{window_name}:#{window_active}"]
  then ok ("0:shell:1" ++ nls)
  else if list_eqb cmd ["tmux"; "list-panes"; "-t"; "main:0"] then ok ("0: [80x24]" ++ nls)
  else if list_eqb cmd ["tmux"; "display-message"; "-t"; "main:0"; "-p";
                        "#{window_name}:#{window_active}:#{window_panes}:#{window_layout}"]
  then ok ("shell:1:1:b25d,80x24,0,0,0" ++ nls)
  else match cmd with
       | "tmux" :: "capture-pane" :: "-t" :: "main:0" :: _ => ok ("$ ls" ++ nls ++ "a.txt" ++ nls)
       | "tmux" :: "send-keys" :: "-t" :: "main:0" :: _ => ok EmptyString
       | _ => Launched 1 EmptyString "can't find window"
       end.

Definition clock (_ : list event) : datetime := mkDatetime 2026 10 17 12 0 0 0.

Definition request_line (n : Z) : string := "REQ" ++ PyStr.of_Z n.

(** The same host with no tmux server running: every command exits 1. *)
Definition no_server (_ : list event) (_ : list string) : proc_outcome :=
  Launched 1 EmptyString ("no server running on /tmp/tmux-0/default" ++ nls).

(** A host without the [tmux] executable. *)
Definition no_tmux (_ : list event) (_ : list string) : proc_outcome :=
  LaunchFailed "[Errno 2] No such file or directory: 'tmux'".

(** The demo host where sending the [C-m] key fails. *)
Definition no_enter (log : list event) (cmd : list string) : proc_outcome :=
  if String.eqb (last cmd EmptyString) "C-m" then Launched 1 EmptyString "not a terminal"
  else tmux log cmd.

(** The demo host where [display-message] answers with a blank line. *)
Definition blank_info (log : list event) (cmd : list string) : proc_outcome :=
  match cmd with
  | "tmux" :: "display-message" :: _ => ok nls
  | _ => tmux log cmd
  end.

Definition malformed : string := "Expecting value: line 1 column 1 (char 0)".

(** A JSON string literal. *)
Definition jstr (s : string) : string := String PyStr.dq (s ++ String PyStr.dq EmptyString).

(** [{"id": 7, "method": "ping", "args": [99...9]}] with an integer of 5000
    digits, well-formed JSON that [json.loads] refuses to convert. *)
Definition big_int_line : string :=
  "{" ++ jstr "id" ++ ": 7, " ++ jstr "method" ++ ": " ++ jstr "ping" ++ ", " ++ jstr "args" ++ ": [" ++
  PyStr.repeat "9" 5000 ++ "]}".

Definition big_int_error : string :=
  "Exceeds the limit (4300 digits) for integer string conversion: value has 5000 digits; use sys.set_int_max_str_digits() to increase the limit".

(** [{"id": 1, "method": "ping", "x": NaN}]: not JSON by its grammar, which
    has no [NaN], but [json.loads] accepts it. *)
Definition nan_line : string :=
  "{" ++ jstr "id" ++ ": 1, " ++ jstr "method" ++ ": " ++ jstr "ping" ++ ", " ++ jstr "x" ++ ": NaN}".

(** A stand-in for [json.loads], exact on the lines it knows: [REQn]
    decodes to a [ping] request with identifier [n]; [ARRAY] to a JSON
    list; [true], [false] and integers to themselves; [1.5] to a float;
    [big_int_line] raises the [ValueError] of [json.loads];
    [nan_line] decodes to its dict; anything else is malformed. *)
Definition json_loads (s : string) : pyval + exc :=
  match s with
  | String "R" (String "E" (String "Q" r)) =>
      match PyStr.int_of_string r with
      | Some n => inl (PDict [("id", PInt n); ("method", PStr "ping")])
      | None => inr (JSONDecodeError malformed)
      end
  | _ => if String.eqb s "ARRAY" then inl (PList [PInt 1])
         else if String.eqb s "true" then inl (PBool true)
         else if String.eqb s "false" then inl (PBool false)
         else if String.eqb s "1.5" then inl (PFloat (S754_finite false 3 (-1)))
         else if String.eqb s big_int_line then inr (ValueError big_int_error)
         else if String.eqb s nan_line then
           inl (PDict [("id", PInt 1); ("method", PStr "ping"); ("x", PFloat S754_nan)])
         else match PyStr.int_of_string s with
              | Some n => inl (PInt n)
              | None => inr (JSONDecodeError malformed)
              end
  end.

Definition st0 : St := mkSt [] [] [].

Definition req (id : Z) (method : string) (args : list pyval) : pyval :=
  PDict [("id", PInt id); ("method", PStr method); ("args", PList args)].

(** What the demo host lists, as [listed_session]s and as the sessions
    [get_tmux_sessions] builds, and the commands it takes to list them. *)
Definition main_listing : list listed_session :=
  [mkListedSession "main" "1" [mkListedWindow 0 "shell" "1"]].

Definition main_sessions : list TmuxSession :=
  [mkTmuxSession "main" [mkTmuxWindow "main" 0 "shell" true] true].

Definition listing_log : list event :=
  [EvRun list_sessions_args; EvRun (list_windows_args "main")].

(** The demo host whose only window is named [a:b]. *)
Definition colon_listing : list listed_session :=
  [mkListedSession "main" "1" [mkListedWindow 0 "a:b" "1"]].

Definition colon_window (log : list event) (cmd : list string) : proc_outcome :=
  if list_eqb cmd (list_windows_args "main") then ok ("0:a:b:1" ++ nls) else tmux log cmd.

(** The demo host where [display-message] prints two fields only. *)
Definition short_info (log : list event) (cmd : list string) : proc_outcome :=
  match cmd with
  | "tmux" :: "display-message" :: _ => ok ("shell:1" ++ nls)
  | _ => tmux log cmd
  end.

End Demo.


(* ------------------------------------------------------------------ *)
(** ** Checks on concrete inputs *)

Example strip_ex : PyStr.strip ("  a b" ++ nls) = "a b". Proof. reflexivity. Qed.
Example split_ex : PyStr.split ":" "a::b" = ["a"; EmptyString; "b"]. Proof. reflexivity. Qed.
Example of_Z_ex : PyStr.of_Z (-1203) = "-1203". Proof. reflexivity. Qed.
Example int_ex : PyStr.int_of_string " -1_000 " = Some (-1000). Proof. reflexivity. Qed.
Example repr_ex : PyStr.repr "it's" = String PyStr.dq ("it's" ++ String PyStr.dq EmptyString).
Proof. reflexivity. Qed.
Example strip_latin1_ex :
  PyStr.strip (String "028" (String "133" (String "160" ("a" ++ String "160" EmptyString)))) = "a".
Proof. reflexivity. Qed.
Example repr_latin1_ex : PyStr.repr (String "133" ("a" ++ String "173" EmptyString)) = "'\x85a\xad'".
Proof. reflexivity. Qed.
Example bytes_repr_ex : PyStr.bytes_repr (String "255" (String "127" EmptyString)) = "b'\xff\x7f'".
Proof. reflexivity. Qed.
Example lower_latin1_ex :
  PyStr.lower (String "192" (String "201" (String "215" (String "222" EmptyString)))) =
  String "224" (String "233" (String "215" (String "254" EmptyString))).
Proof. reflexivity. Qed.
Example float_repr_ex :
  PyFloat.repr (S754_finite false 3602879701896397 (-55)) = "0.1" /\
  PyFloat.repr (S754_finite false 152587890625 16) = "1e+16" /\
  PyFloat.repr (S754_finite false 1 (-20)) = "9.5367431640625e-07" /\
  PyFloat.repr S754_nan = "nan".
Proof. vm_compute. repeat split. Qed.
Example signal_ex :
  exc_str (CalledProcessError (-9) ["tmux"; "ls"] EmptyString false) =
    "Command '['tmux', 'ls']' died with <Signals.SIGKILL: 9>." /\
  exc_str (CalledProcessError (-40) ["tmux"; "ls"] EmptyString false) =
    "Command '['tmux', 'ls']' died with unknown signal 40.".
Proof. vm_compute. split; reflexivity. Qed.

Example sessions_scenario :
  fst (handle_request Demo.tmux Demo.clock wrapper_orchestrator (Demo.req 1 "get_tmux_sessions" []) Demo.st0)
  = Ok (response_ok (PInt 1)
         (PList [PDict [("name", PStr "main"); ("attached", PBool true);
                        ("windows", PList [PDict [("sessionName", PStr "main"); ("windowIndex", PInt 0);
                                                  ("windowName", PStr "shell"); ("active", PBool true)]])]])).
Proof. vm_compute. reflexivity. Qed.

(* ------------------------------------------------------------------ *)
(** ** Lemmas on computations *)

Section Preservation.

Variable R : St -> St -> Prop.
Hypothesis R_refl : forall st, R st st.
Hypothesis R_trans : forall a b c, R a b -> R b c -> R a c.

Lemma pres_ret {A} (a : A) : Preserves R (ret a).
Proof using R_refl R_trans. intros st; apply R_refl. Qed.

Lemma pres_raise {A} (e : exc) : Preserves R (A := A) (raise e).
Proof using R_refl R_trans. intros st; apply R_refl. Qed.

Lemma pres_bind {A B} (m : M A) (k : A -> M B) :
  Preserves R m -> (forall a, Preserves R (k a)) -> Preserves R (bind m k).
Proof using R_refl R_trans.
  intros Hm Hk st. unfold bind. specialize (Hm st).
  destruct (m st) as [[a|e] st'] eqn:E; simpl in *; [|exact Hm].
  eapply R_trans; [exact Hm | apply Hk].
Qed.

Lemma pres_handle {A} (hs : list ((exc -> bool) * (exc -> M A))) e :
  Forall (fun h => forall e, Preserves R (snd h e)) hs -> Preserves R (handle hs e).
Proof using R_refl R_trans.
  induction hs as [|[sel h] r IH]; intros Hf; simpl.
  - apply pres_raise.
  - inversion Hf; subst. destruct (sel e); [apply H1 | apply IH; assumption].
Qed.

Lemma pres_try_except {A} (m : M A) hs :
  Preserves R m -> Forall (fun h => forall e, Preserves R (snd h e)) hs -> Preserves R (try_except m hs).
Proof using R_refl R_trans.
  intros Hm Hh st. unfold try_except. specialize (Hm st).
  destruct (m st) as [[a|e] st'] eqn:E; simpl in *; [exact Hm|].
  eapply R_trans; [exact Hm | apply pres_handle; exact Hh].
Qed.

Lemma pres_catch {A} sel (m : M A) h :
  Preserves R m -> (forall e, Preserves R (h e)) -> Preserves R (catch sel m h).
Proof using R_refl R_trans. intros; apply pres_try_except; [assumption | constructor; [assumption | constructor]]. Qed.

Lemma pres_forM_opt {A B} (f : A -> M (option B)) l :
  (forall x, Preserves R (f x)) -> Preserves R (forM_opt f l).
Proof using R_refl R_trans.
  intros Hf; induction l as [|x r IH]; simpl.
  - apply pres_ret.
  - apply pres_bind; [apply Hf|]. intros o. apply pres_bind; [exact IH|]. intros; apply pres_ret.
Qed.

Lemma pres_mapM {A B} (f : A -> M B) l :
  (forall x, Preserves R (f x)) -> Preserves R (mapM f l).
Proof using R_refl R_trans.
  intros Hf; induction l as [|x r IH]; simpl.
  - apply pres_ret.
  - apply pres_bind; [apply Hf|]. intros o. apply pres_bind; [exact IH|]. intros; apply pres_ret.
Qed.

End Preservation.

Lemma quiet_refl st : quiet_step st st.
Proof.
  split; [reflexivity|split; exists []; rewrite app_nil_r; split; auto].
Qed.

Lemma quiet_trans a b c : quiet_step a b -> quiet_step b c -> quiet_step a c.
Proof.
  intros (H1 & (o1 & Ho1 & Fo1) & (l1 & Hl1 & Fl1)) (H2 & (o2 & Ho2 & Fo2) & (l2 & Hl2 & Fl2)).
  split; [congruence|split].
  - exists (o1 ++ o2)%list. rewrite Ho2, Ho1, app_assoc. split; [reflexivity|apply Forall_app; auto].
  - exists (l1 ++ l2)%list. rewrite Hl2, Hl1, app_assoc. split; [reflexivity|apply Forall_app; auto].
Qed.

Lemma no_prompt_refl st : no_prompt_step st st.
Proof. exists []; rewrite app_nil_r; split; auto. Qed.

Lemma no_prompt_trans a b c : no_prompt_step a b -> no_prompt_step b c -> no_prompt_step a c.
Proof.
  intros (l1 & Hl1 & Fl1) (l2 & Hl2 & Fl2).
  exists (l1 ++ l2)%list. rewrite Hl2, Hl1, app_assoc. split; [reflexivity|apply Forall_app; auto].
Qed.

Lemma quiet_no_prompt st st' : quiet_step st st' -> no_prompt_step st st'.
Proof. intros (_ & _ & H); exact H. Qed.

Lemma quiet_print_text s : Preserves quiet_step (print_text s).
Proof.
  intros st; simpl. split; [reflexivity|split].
  - exists [OutText s]; split; [reflexivity|repeat constructor; eexists; reflexivity].
  - exists []; rewrite app_nil_r; split; auto.
Qed.

Lemma quiet_run tmux cmd text check : Preserves quiet_step (run tmux cmd text check).
Proof.
  intros st; unfold run.
  destruct (all_pstr cmd) as [args|]; [|apply quiet_refl].
  destruct (existsb _ args); [apply quiet_refl|].
  assert (Hq : quiet_step st (mkSt (st_in st) (st_out st) (st_log st ++ [EvRun args]))).
  { split; [reflexivity|split].
    - exists []; rewrite app_nil_r; split; auto.
    - exists [EvRun args]; split; [reflexivity|]. constructor; [|constructor]. intros p; discriminate. }
  destruct (tmux (st_log st) args) as [rc o e|m]; [destruct (_ && _)|]; exact Hq.
Qed.

Lemma quiet_now clock : Preserves quiet_step (now clock).
Proof.
  intros st; simpl. split; [reflexivity|split].
  - exists []; rewrite app_nil_r; split; auto.
  - exists [EvNow]; split; [reflexivity|]. constructor; [|constructor]. intros p; discriminate.
Qed.

Create HintDb quietdb.

Ltac quiet_step1 :=
  cbv beta; cbn [fst snd safety_mode max_lines_capture andb orb negb];
  match goal with
  | |- Preserves _ (bind _ _) => apply (pres_bind quiet_step quiet_refl quiet_trans); [|intro]
  | |- Preserves _ (ret _) => apply (pres_ret quiet_step quiet_refl quiet_trans)
  | |- Preserves _ (raise _) => apply (pres_raise quiet_step quiet_refl quiet_trans)
  | |- Preserves _ (catch _ _ _) => apply (pres_catch quiet_step quiet_refl quiet_trans); [|intro]
  | |- Preserves _ (try_except _ _) =>
      apply (pres_try_except quiet_step quiet_refl quiet_trans); [|repeat constructor; intro]
  | |- Preserves _ (forM_opt _ _) => apply (pres_forM_opt quiet_step quiet_refl quiet_trans); intro
  | |- Preserves _ (mapM _ _) => apply (pres_mapM quiet_step quiet_refl quiet_trans); intro
  | |- Preserves _ (print_text _) => apply quiet_print_text
  | |- Preserves _ (run _ _ _ _) => apply quiet_run
  | |- Preserves _ (now _) => apply quiet_now
  | |- Preserves _ (if ?b then _ else _) => destruct b
  | |- Preserves _ (match ?x with _ => _ end) => destruct x
  | |- forall _, _ => intro
  | |- Preserves quiet_step _ => solve [eauto with quietdb]
  end.

Ltac quiet_go := repeat quiet_step1.

Lemma quiet_py_int s : Preserves quiet_step (py_int s).
Proof. unfold py_int; destruct (PyStr.int_of_string s); quiet_go. Qed.

Lemma quiet_list_index l i : Preserves quiet_step (list_index l i).
Proof. unfold list_index; destruct (nth_error l i); quiet_go. Qed.

#[local] Hint Resolve quiet_py_int quiet_list_index : quietdb.

Lemma quiet_get_tmux_sessions tmux : Preserves quiet_step (get_tmux_sessions tmux).
Proof. unfold get_tmux_sessions, parse_session, parse_window; quiet_go. Qed.

#[local] Hint Resolve quiet_get_tmux_sessions : quietdb.

Lemma quiet_capture tmux self s w n : Preserves quiet_step (capture_window_content tmux self s w n).
Proof. unfold capture_window_content, py_le_int, py_gt_int; quiet_go. Qed.

#[local] Hint Resolve quiet_capture : quietdb.

Lemma quiet_get_window_info tmux self s w : Preserves quiet_step (get_window_info tmux self s w).
Proof. unfold get_window_info; quiet_go. Qed.

#[local] Hint Resolve quiet_get_window_info : quietdb.

Lemma quiet_send_keys tmux self s w k c :
  safety_mode self = false -> Preserves quiet_step (send_keys_to_window tmux self s w k c).
Proof. intros Hs. unfold send_keys_to_window, print_details; rewrite Hs; quiet_go. Qed.

#[local] Hint Resolve quiet_send_keys : quietdb.

Lemma quiet_send_command tmux self s w k c :
  safety_mode self = false -> Preserves quiet_step (send_command_to_window tmux self s w k c).
Proof. intros Hs. unfold send_command_to_window, print_details; quiet_go. Qed.

#[local] Hint Resolve quiet_send_command : quietdb.

Lemma quiet_get_all_windows_status tmux clock self :
  Preserves quiet_step (get_all_windows_status tmux clock self).
Proof. unfold get_all_windows_status, session_status, window_status; quiet_go. Qed.

#[local] Hint Resolve quiet_get_all_windows_status : quietdb.

Lemma quiet_find_window_by_name tmux self v : Preserves quiet_step (find_window_by_name tmux self v).
Proof. unfold find_window_by_name, py_lower; quiet_go. Qed.

Lemma quiet_snapshot tmux clock self : Preserves quiet_step (create_monitoring_snapshot tmux clock self).
Proof.
  unfold create_monitoring_snapshot, render_session, render_window, getitem, iter_list,
    py_contains, py_split_nl; quiet_go.
Qed.

Lemma quiet_status_request tmux clock self s w : Preserves quiet_step (handle_status_request tmux clock self s w).
Proof. unfold handle_status_request, generate_status_response; quiet_go. Qed.

#[local] Hint Resolve quiet_find_window_by_name quiet_snapshot quiet_status_request : quietdb.

Lemma quiet_py_index v i : Preserves quiet_step (py_index v i).
Proof. unfold py_index; quiet_go. Qed.

#[local] Hint Resolve quiet_py_index : quietdb.

Lemma quiet_dispatch tmux clock self m a :
  safety_mode self = false -> Preserves quiet_step (dispatch tmux clock self m a).
Proof.
  intros Hs. unfold dispatch, py_len, arg_or, py_startswith; quiet_go.
Qed.

#[local] Hint Resolve quiet_dispatch : quietdb.

Lemma quiet_handle_request tmux clock self req :
  safety_mode self = false -> Preserves quiet_step (handle_request tmux clock self req).
Proof. intros Hs. unfold handle_request, py_get; quiet_go. Qed.

#[local] Hint Resolve quiet_handle_request : quietdb.

Lemma quiet_to_no_prompt {A} (m : M A) : Preserves quiet_step m -> Preserves no_prompt_step m.
Proof. intros H st; apply quiet_no_prompt, H. Qed.

Lemma no_prompt_same_log st st' : st_log st' = st_log st -> no_prompt_step st st'.
Proof. intros H; exists []; rewrite app_nil_r; split; auto. Qed.

Lemma np_print_json v : Preserves no_prompt_step (print_json v).
Proof. intros st; apply no_prompt_same_log; reflexivity. Qed.

Lemma np_readline : Preserves no_prompt_step readline.
Proof. intros st; unfold readline; destruct (st_in st); apply no_prompt_same_log; reflexivity. Qed.

Create HintDb npdb.

Ltac np_step1 :=
  cbv beta; cbn [fst snd safety_mode max_lines_capture andb orb negb];
  match goal with
  | |- Preserves _ (bind _ _) => apply (pres_bind no_prompt_step no_prompt_refl no_prompt_trans); [|intro]
  | |- Preserves _ (ret _) => apply (pres_ret no_prompt_step no_prompt_refl no_prompt_trans)
  | |- Preserves _ (raise _) => apply (pres_raise no_prompt_step no_prompt_refl no_prompt_trans)
  | |- Preserves _ (catch _ _ _) => apply (pres_catch no_prompt_step no_prompt_refl no_prompt_trans); [|intro]
  | |- Preserves _ (try_except _ _) =>
      apply (pres_try_except no_prompt_step no_prompt_refl no_prompt_trans); [|repeat constructor; intro]
  | |- Preserves _ (print_json _) => apply np_print_json
  | |- Preserves _ readline => apply np_readline
  | |- Preserves _ (mapM _ _) => apply (pres_mapM no_prompt_step no_prompt_refl no_prompt_trans); intro
  | |- Preserves _ (if ?b then _ else _) => destruct b
  | |- Preserves _ (match ?x with _ => _ end) => destruct x
  | |- forall _, _ => intro
  | |- Preserves no_prompt_step _ => solve [apply quiet_to_no_prompt; eauto with quietdb]
  | |- Preserves no_prompt_step _ => solve [eauto with npdb]
  end.

Ltac np_go := repeat np_step1.

Lemma np_loop_body tmux clock json_loads self :
  safety_mode self = false -> Preserves no_prompt_step (loop_body tmux clock json_loads self).
Proof. intros Hs. unfold loop_body, json_loads_m; np_go. Qed.

#[local] Hint Resolve np_loop_body : npdb.

Lemma np_persistent_loop tmux clock json_loads self fuel :
  safety_mode self = false -> Preserves no_prompt_step (persistent_loop tmux clock json_loads self fuel).
Proof. intros Hs; induction fuel as [|f IH]; simpl; np_go. Qed.

#[local] Hint Resolve np_persistent_loop : npdb.

Lemma np_run_persistent tmux clock json_loads self :
  safety_mode self = false -> Preserves no_prompt_step (run_persistent tmux clock json_loads self).
Proof.
  intros Hs st. unfold run_persistent.
  generalize (S (List.length (st_in st))) as fuel; intros fuel.
  revert st. change (Preserves no_prompt_step
    (catch any_exc (_ <- persistent_loop tmux clock json_loads self fuel;; ret 0)
       (fun e => _ <- print_json (response_err PNone ("Persistent mode error: " ++ exc_str e));; ret 1))).
  np_go.
Qed.

#[local] Hint Resolve np_run_persistent : npdb.

Lemma np_run_legacy tmux clock self m args :
  safety_mode self = false -> Preserves no_prompt_step (run_legacy tmux clock self m args).
Proof. intros Hs. unfold run_legacy, py_contains, getitem; np_go. Qed.

#[local] Hint Resolve np_run_legacy : npdb.

Lemma np_parse_cli_arg json_loads a : Preserves no_prompt_step (parse_cli_arg json_loads a).
Proof. unfold parse_cli_arg, json_loads_m; np_go. Qed.

#[local] Hint Resolve np_parse_cli_arg : npdb.

Lemma np_main tmux clock json_loads p m argv :
  Preserves no_prompt_step (main tmux clock json_loads p m argv).
Proof. unfold main; assert (Hs : safety_mode wrapper_orchestrator = false) by reflexivity; np_go. Qed.


(* ------------------------------------------------------------------ *)
(** ** The persistent loop *)

Lemma json_out_app a b : json_out (a ++ b) = (json_out a ++ json_out b)%list.
Proof. unfold json_out; apply flat_map_app. Qed.

Lemma json_out_texts l : Forall is_text l -> json_out l = [].
Proof.
  induction 1 as [|o r [s Hs] _ IH]; [reflexivity|]. subst; simpl; exact IH.
Qed.

Lemma strip_empty : PyStr.strip EmptyString = EmptyString.
Proof. reflexivity. Qed.

Lemma persistent_loop_S tmux clock json_loads self f :
  persistent_loop tmux clock json_loads self (S f) =
  (continue <- loop_body tmux clock json_loads self;;
   if continue then persistent_loop tmux clock json_loads self f else ret tt).
Proof. reflexivity. Qed.

Lemma handle_request_dict tmux clock self d st :
  exists r, fst (handle_request tmux clock self (PDict d) st) = Ok r /\ response_for (PDict d) r.
Proof.
  unfold handle_request, catch, try_except, bind, py_get, ret. cbn.
  destruct (dispatch tmux clock self _ _ _) as [[r|e] st'].
  - eexists; split; [reflexivity|]. exists "result", r; split; [reflexivity|left; reflexivity].
  - eexists; split; [reflexivity|]. eexists "error", _; split; [reflexivity|right; reflexivity].
Qed.

Lemma handle_request_not_dict tmux clock self v st :
  (forall d, v <> PDict d) -> exists m, fst (handle_request tmux clock self v st) = Exc (AttributeError m).
Proof.
  intros Hv. unfold handle_request, catch, try_except, bind, py_get.
  destruct v; try (exfalso; eapply Hv; reflexivity); cbn; eexists; reflexivity.
Qed.

Lemma handle_request_no_ok tmux clock self v st r st' :
  (forall d, v <> PDict d) -> handle_request tmux clock self v st = (Ok r, st') -> False.
Proof.
  intros Hv Eh. destruct (handle_request_not_dict tmux clock self v st Hv) as [m He].
  rewrite Eh in He; discriminate.
Qed.

Lemma loop_body_request tmux clock json_loads self st l rest :
  safety_mode self = false ->
  st_in st = l :: rest -> well_formed_line json_loads l ->
  exists r st', loop_body tmux clock json_loads self st = (Ok true, st') /\
    st_in st' = rest /\ json_out (st_out st') = (json_out (st_out st) ++ [r])%list /\
    exists v, json_loads (PyStr.strip l) = inl v /\ response_for v r.
Proof.
  intros Hs Hin [Hne [v Hv]].
  assert (Hl : String.eqb l EmptyString = false).
  { apply String.eqb_neq. intros ->. apply Hne, strip_empty. }
  assert (Hl' : String.eqb (PyStr.strip l) EmptyString = false) by (apply String.eqb_neq; exact Hne).
  set (st1 := mkSt rest (st_out st) (st_log st)).
  pose proof (quiet_handle_request tmux clock self v Hs st1) as Hq.
  unfold loop_body, try_except, bind, readline. rewrite Hin, Hl. cbv beta iota. rewrite Hl'.
  unfold json_loads_m. rewrite Hv. unfold ret at 1. fold st1.
  destruct (handle_request tmux clock self v st1) as [[r|e] st2] eqn:Eh; simpl in Hq;
    destruct Hq as (Hin2 & (o & Ho & Fo) & _).
  - (* a response: the request is a dict *)
    assert (Hr : response_for v r).
    { destruct v as [| | | | | |d];
        try (exfalso; eapply (handle_request_no_ok tmux clock self); [|exact Eh];
             intros d' Hd'; discriminate).
      destruct (handle_request_dict tmux clock self d st1) as [r' [Hr' Hf]].
      rewrite Eh in Hr'; injection Hr' as <-; exact Hf. }
    do 2 eexists; split; [reflexivity|]. simpl. split; [exact Hin2|split].
    + rewrite json_out_app, Ho, json_out_app, (json_out_texts _ Fo), app_nil_r. reflexivity.
    + exists v; split; [reflexivity|exact Hr].
  - (* [handle_request] raised: the request is not a dict *)
    assert (Hnd : forall d, v <> PDict d).
    { intros d ->. destruct (handle_request_dict tmux clock self d st1) as [r' [Hr' _]].
      rewrite Eh in Hr'; discriminate. }
    destruct (handle_request_not_dict tmux clock self v st1 Hnd) as [m Hm].
    rewrite Eh in Hm; injection Hm as ->.
    do 2 eexists; split; [reflexivity|]. simpl. split; [exact Hin2|split].
    + rewrite json_out_app, Ho, json_out_app, (json_out_texts _ Fo), app_nil_r. reflexivity.
    + exists v; split; [reflexivity|].
      exists "error", (PStr ("Request handling error: " ++ m)). split; [|right; reflexivity].
      destruct v; try reflexivity. exfalso; eapply Hnd; reflexivity.
Qed.

Lemma persistent_loop_requests tmux clock json_loads self :
  safety_mode self = false ->
  forall lines st fuel, st_in st = lines -> Forall (well_formed_line json_loads) lines ->
  (List.length lines < fuel)%nat ->
  exists rs,
    fst (persistent_loop tmux clock json_loads self fuel st) = Ok tt /\
    st_in (snd (persistent_loop tmux clock json_loads self fuel st)) = [] /\
    json_out (st_out (snd (persistent_loop tmux clock json_loads self fuel st))) =
      (json_out (st_out st) ++ rs)%list /\
    Forall2 (fun l r => exists v, json_loads (PyStr.strip l) = inl v /\ response_for v r) lines rs.
Proof.
  intros Hs lines. induction lines as [|l rest IH]; intros st fuel Hin Hwf Hlen;
    (destruct fuel as [|f]; [simpl in Hlen; lia|]); rewrite persistent_loop_S.
  - exists []. unfold bind, loop_body, try_except, bind, readline. rewrite Hin. simpl.
    rewrite Hin, app_nil_r. auto.
  - inversion Hwf as [|? ? Hl Hrest]; subst.
    destruct (loop_body_request tmux clock json_loads self st l rest Hs Hin Hl)
      as (r & st' & Hb & Hin' & Hout & Hr).
    simpl in Hlen.
    destruct (IH st' f Hin' Hrest ltac:(lia)) as (rs & H1 & H2 & H3 & H4).
    assert (E : (continue <- loop_body tmux clock json_loads self;;
                 if continue then persistent_loop tmux clock json_loads self f else ret tt) st
                = persistent_loop tmux clock json_loads self f st')
      by (unfold bind; rewrite Hb; reflexivity).
    exists (r :: rs). rewrite E.
    split; [exact H1|split; [exact H2|split]].
    + rewrite H3, Hout, <- app_assoc. reflexivity.
    + constructor; assumption.
Qed.

Lemma loop_body_malformed tmux clock json_loads self l rest out lg e :
  PyStr.strip l <> EmptyString -> json_loads (PyStr.strip l) = inr e ->
  loop_body tmux clock json_loads self (mkSt (l :: rest) out lg) =
  (Ok true, mkSt rest (out ++ [OutJson (loop_error e)])%list lg).
Proof.
  intros Hne Hv.
  assert (Hl : String.eqb l EmptyString = false).
  { apply String.eqb_neq. intros ->. apply Hne, strip_empty. }
  assert (Hl' : String.eqb (PyStr.strip l) EmptyString = false) by (apply String.eqb_neq; exact Hne).
  unfold loop_body, try_except, bind, readline. cbn [st_in]. rewrite Hl. cbv beta iota.
  rewrite Hl'. unfold json_loads_m. rewrite Hv. unfold raise, loop_error. cbn [handle].
  destruct (is_json_decode_error e); reflexivity.
Qed.

(** The rest of a run after a turn of the loop that goes on. *)
Lemma run_persistent_step tmux clock json_loads self l rest out lg st' :
  loop_body tmux clock json_loads self (mkSt (l :: rest) out lg) = (Ok true, st') ->
  st_in st' = rest ->
  run_persistent tmux clock json_loads self (mkSt (l :: rest) out lg) =
  run_persistent tmux clock json_loads self st'.
Proof.
  intros Hb Hin.
  assert (E : persistent_loop tmux clock json_loads self (S (S (List.length rest))) (mkSt (l :: rest) out lg)
              = persistent_loop tmux clock json_loads self (S (List.length rest)) st').
  { rewrite persistent_loop_S. unfold bind. rewrite Hb. reflexivity. }
  unfold run_persistent, catch, try_except, bind. cbn [st_in List.length]. rewrite Hin, E. reflexivity.
Qed.

(** The run of [get_tmux_sessions] up to its [list-sessions] command. *)
Lemma get_tmux_sessions_unfold tmux st :
  get_tmux_sessions tmux st =
  catch is_called_process_error
    (fun st0 =>
       let args := ["tmux"; "list-sessions"; "-F"; "#{session_name}:#{session_attached}"] in
       let st1 := mkSt (st_in st0) (st_out st0) (st_log st0 ++ [EvRun args])%list in
       match tmux (st_log st0) args with
       | LaunchFailed m => (Exc (OSError m), st1)
       | Launched rc o e =>
           if negb (rc =? 0) then (Exc (CalledProcessError rc args e true), st1)
           else forM_opt (parse_session tmux) (PyStr.split nl (PyStr.strip o)) st1
       end)
    (fun e => _ <- print_text ("Error getting tmux sessions: " ++ exc_str e);; ret []) st.
Proof.
  unfold get_tmux_sessions, catch, try_except. f_equal.
  unfold bind, run, sessions_cmd. cbn -[PyStr.split PyStr.strip forM_opt].
  destruct (tmux (st_log st) _) as [rc o e|m]; [|reflexivity].
  destruct (rc =? 0); reflexivity.
Qed.

(* ------------------------------------------------------------------ *)
(** ** Commands free of NUL characters, capture, sending and window information *)

Lemma has_char_app c a b : PyStr.has_char c (a ++ b) = PyStr.has_char c a || PyStr.has_char c b.
Proof. induction a as [|d a IH]; simpl; [reflexivity|]. rewrite IH, orb_assoc. reflexivity. Qed.

Lemma digit_not_nul n : Ascii.eqb nul (PyStr.digit (n mod 10)) = false.
Proof.
  unfold PyStr.digit. pose proof (Z.mod_pos_bound n 10 ltac:(lia)) as Hb.
  assert (Hm : (Z.to_nat (n mod 10) < 10)%nat) by lia.
  generalize dependent (Z.to_nat (n mod 10)). intros m Hm.
  do 10 (destruct m as [|m]; [reflexivity|]). lia.
Qed.

Lemma digits_fuel_no_nul fuel n acc :
  PyStr.has_char nul acc = false -> PyStr.has_char nul (PyStr.digits_fuel fuel n acc) = false.
Proof.
  revert n acc; induction fuel as [|f IH]; intros n acc Hacc; cbn [PyStr.digits_fuel]; [exact Hacc|].
  assert (H : PyStr.has_char nul (String (PyStr.digit (n mod 10)) acc) = false)
    by (cbn [PyStr.has_char]; rewrite digit_not_nul, Hacc; reflexivity).
  destruct (n <? 10); [exact H|apply IH, H].
Qed.

Lemma of_Z_no_nul z : PyStr.has_char nul (PyStr.of_Z z) = false.
Proof.
  unfold PyStr.of_Z, PyStr.of_nonneg.
  destruct (z <? 0); [cbn [append PyStr.has_char]; change (Ascii.eqb nul "-"%char) with false; cbn [orb]|];
    apply digits_fuel_no_nul; reflexivity.
Qed.

Lemma target_no_nul sn wi :
  PyStr.has_char nul sn = false -> PyStr.has_char nul (target_of (PStr sn) (PInt wi)) = false.
Proof. intros H. unfold target_of; cbn [py_str py_repr]. rewrite !has_char_app, H, of_Z_no_nul. reflexivity. Qed.

Lemma capture_nonpositive tmux self s w n st :
  n <= 0 ->
  capture_window_content tmux self s w (PInt n) st =
  (Ok (if invalid_target s w then "Error: Invalid session name or window index: " ++ target_of s w
       else "Error: Number of lines must be positive"), st).
Proof.
  intros Hn. unfold capture_window_content.
  destruct (invalid_target s w); [reflexivity|].
  unfold bind, py_le_int. cbn [py_as_int]. rewrite (proj2 (Z.leb_le n 0) Hn). reflexivity.
Qed.

Lemma handle_request_capture tmux clock self i s w n st :
  handle_request tmux clock self
    (PDict [("id", i); ("method", PStr "capture_window_content"); ("args", PList [s; w; n])]) st =
  match capture_window_content tmux self s w n st with
  | (Ok t, st') => (Ok (response_ok i (PStr t)), st')
  | (Exc e, st') => (Ok (response_err i (exc_str e)), st')
  end.
Proof.
  unfold handle_request, catch, try_except. unfold bind at 1 2 3 4. cbn [py_get dict_lookup String.eqb].
  unfold ret at 1 2 3. cbv beta iota.
  unfold dispatch. cbn [py_eq_str String.eqb Ascii.eqb Bool.eqb andb].
  unfold bind at 1 2 3 4 5. cbn [py_len py_index nth_error arg_or]. unfold ret at 1 2 3 4. cbn.
  destruct (capture_window_content tmux self s w n st) as [[t|e] st']; reflexivity.
Qed.

Lemma all_pstr_map l : all_pstr (map PStr l) = Some l.
Proof. induction l as [|a l IH]; simpl; [reflexivity|]. rewrite IH. reflexivity. Qed.

(** [subprocess.run] on a list of strings free of NUL characters. *)
Lemma run_str tmux args text check st :
  existsb (PyStr.has_char nul) args = false ->
  run tmux (tmux_str args) text check st =
  (let st1 := mkSt (st_in st) (st_out st) (st_log st ++ [EvRun args])%list in
   match tmux (st_log st) args with
   | LaunchFailed m => (Exc (OSError m), st1)
   | Launched rc o e =>
       if check && negb (rc =? 0) then (Exc (CalledProcessError rc args e text), st1)
       else (Ok (mkCompleted rc o e), st1)
   end).
Proof. intros H. unfold run, tmux_str. rewrite all_pstr_map, H. reflexivity. Qed.

Lemma existsb_nul_cons a l :
  PyStr.has_char nul a = false -> existsb (PyStr.has_char nul) (a :: l) = existsb (PyStr.has_char nul) l.
Proof. intros H; simpl; rewrite H; reflexivity. Qed.

Lemma dash_int_no_nul k : PyStr.has_char nul ("-" ++ py_str (PInt k)) = false.
Proof. cbn [append PyStr.has_char py_str py_repr]. apply of_Z_no_nul. Qed.

Ltac nul_free :=
  repeat (rewrite existsb_nul_cons by first [reflexivity | assumption | apply dash_int_no_nul]);
  reflexivity.

Lemma startswith_app_r x y p : PyStr.startswith x p = true -> PyStr.startswith (x ++ y) p = true.
Proof.
  unfold PyStr.startswith. revert x. induction p as [|a p IH]; [intros x _; destruct (x ++ y); reflexivity|].
  intros [|b x]; cbn [String.prefix append]; [discriminate|].
  destruct (Ascii.ascii_dec a b); [apply IH|discriminate].
Qed.

Lemma startswith_cat a x b : PyStr.startswith x b = true -> PyStr.startswith (a ++ x) (a ++ b) = true.
Proof.
  unfold PyStr.startswith. induction a as [|c a IH]; [exact id|].
  intros H. cbn [String.prefix append]. destruct (Ascii.ascii_dec c c); [exact (IH H)|congruence].
Qed.

(** The text of the [except CalledProcessError] handler of
    [capture_window_content] begins with its fixed prefix. *)
Lemma startswith_handler target e :
  PyStr.startswith
    (match stderr_details e with
     | Some d => ("Error capturing content from " ++ target ++ ": " ++ exc_str e) ++ String nl "Details: " ++ d
     | None => "Error capturing content from " ++ target ++ ": " ++ exc_str e
     end)%string
    ("Error capturing content from " ++ target ++ ": ")%string = true.
Proof.
  assert (H : PyStr.startswith ("Error capturing content from " ++ target ++ ": " ++ exc_str e)
                ("Error capturing content from " ++ target ++ ": ") = true).
  { apply startswith_cat, startswith_cat. unfold PyStr.startswith. cbn. destruct (exc_str e); reflexivity. }
  destruct (stderr_details e); [apply startswith_app_r|]; exact H.
Qed.

Lemma capture_clamp tmux self s w st :
  max_lines_capture self = 1000 ->
  let r2 := capture_window_content tmux self s w (PInt 2000) st in
  let r1 := capture_window_content tmux self s w (PInt 1000) st in
  fst r2 = fst r1 /\ st_in (snd r2) = st_in (snd r1) /\ st_log (snd r2) = st_log (snd r1) /\
  st_out (snd r2) =
    (st_out (snd r1) ++ (if invalid_target s w then [] else [OutText "Warning: Limiting capture to 1000 lines"]))%list.
Proof.
  intros Hmax r2 r1. destruct st as [i o l]. unfold r2, r1, capture_window_content.
  destruct (invalid_target s w); [cbn; rewrite app_nil_r; auto|].
  unfold catch, try_except, bind, run, tmux_str, py_le_int, py_gt_int, print_text, ret.
  rewrite Hmax, !all_pstr_map. cbn.
  repeat match goal with
    | |- context [tmux ?lg ?a] => destruct (tmux lg a); cbn
    | |- context [existsb ?f ?a] => destruct (existsb f a); cbn
    | |- context [PyStr.has_char ?c ?a] => destruct (PyStr.has_char c a); cbn
    | |- context [?x =? 0] => destruct (x =? 0); cbn
    end; auto.
Qed.


Lemma get_tmux_sessions_cases tmux st :
  (forall rc o e, tmux (st_log st) list_sessions_args = Launched rc o e -> rc <> 0 ->
     get_tmux_sessions tmux st =
     (Ok [], mkSt (st_in st)
               (st_out st ++ [OutText ("Error getting tmux sessions: " ++
                                       exc_str (CalledProcessError rc list_sessions_args e true))])
               (st_log st ++ [EvRun list_sessions_args]))%list) /\
  (forall o e, tmux (st_log st) list_sessions_args = Launched 0 o e -> PyStr.strip o = EmptyString ->
     get_tmux_sessions tmux st = (Ok [], mkSt (st_in st) (st_out st) (st_log st ++ [EvRun list_sessions_args]))%list) /\
  (forall m, tmux (st_log st) list_sessions_args = LaunchFailed m ->
     get_tmux_sessions tmux st = (Exc (OSError m), mkSt (st_in st) (st_out st) (st_log st ++ [EvRun list_sessions_args]))%list).
Proof.
  rewrite get_tmux_sessions_unfold. unfold catch, try_except. cbv zeta. fold list_sessions_args.
  split; [|split].
  - intros rc o e H Hrc. rewrite H. apply Z.eqb_neq in Hrc. rewrite Hrc. reflexivity.
  - intros o e H Ho. rewrite H, Ho. reflexivity.
  - intros m H. rewrite H. reflexivity.
Qed.

Lemma get_tmux_sessions_no_cpe tmux st e :
  fst (get_tmux_sessions tmux st) = Exc e -> is_called_process_error e = false.
Proof.
  unfold get_tmux_sessions, catch, try_except.
  match goal with |- context [match ?m st with _ => _ end] => destruct (m st) as [[r|e'] st'] end;
    cbn [fst]; [discriminate|].
  cbn [handle]. destruct (is_called_process_error e') eqn:E.
  - unfold bind, print_text, ret. cbn. discriminate.
  - unfold raise. cbn. intros H; injection H as <-; exact E.
Qed.

Lemma send_command_first_failure tmux self s w command confirm st :
  py_truthy command = true ->
  fst (send_keys_to_window tmux self s w command confirm st) <> Ok true ->
  send_command_to_window tmux self s w command confirm st =
  send_keys_to_window tmux self s w command confirm st.
Proof.
  intros Hc Hf. unfold send_command_to_window. rewrite Hc. cbn [negb]. unfold bind at 1.
  destruct (send_keys_to_window tmux self s w command confirm st) as [[[|]|e] st1];
    [exfalso; apply Hf; reflexivity|reflexivity|reflexivity].
Qed.

Lemma send_command_submit tmux self s w command confirm st st1 :
  py_truthy command = true ->
  send_keys_to_window tmux self s w command confirm st = (Ok true, st1) ->
  PyStr.has_char nul (target_of s w) = false ->
  (forall rc o e, tmux (st_log st1) ["tmux"; "send-keys"; "-t"; target_of s w; "C-m"] = Launched rc o e ->
     rc <> 0 -> fst (send_command_to_window tmux self s w command confirm st) = Ok false) /\
  (forall m, tmux (st_log st1) ["tmux"; "send-keys"; "-t"; target_of s w; "C-m"] = LaunchFailed m ->
     fst (send_command_to_window tmux self s w command confirm st) = Exc (OSError m)).
Proof.
  intros Hc Hsk Ht. split; [intros rc o e H Hrc|intros m H];
    unfold send_command_to_window; rewrite Hc; cbn [negb]; unfold bind at 1;
    rewrite Hsk; cbv beta iota; cbn [negb]; unfold catch, try_except, bind at 1, submit_cmd;
    rewrite run_str by nul_free; cbv zeta; rewrite H.
  - apply Z.eqb_neq in Hrc. rewrite Hrc. cbn [andb negb handle is_called_process_error].
    unfold bind, print_text, print_details. destruct (stderr_details _); reflexivity.
  - reflexivity.
Qed.

Lemma handle_request_send_command tmux clock self i s w c confirm st :
  PyStr.startswith c "STATUS REQUEST:" = false ->
  handle_request tmux clock self
    (PDict [("id", i); ("method", PStr "send_command_to_window"); ("args", PList [s; w; PStr c; confirm])]) st =
  match send_command_to_window tmux self s w (PStr c) confirm st with
  | (Ok b, st') => (Ok (response_ok i (PBool b)), st')
  | (Exc e, st') => (Ok (response_err i (exc_str e)), st')
  end.
Proof.
  intros Hst.
  unfold handle_request, catch, try_except. unfold bind at 1 2 3 4. cbn [py_get dict_lookup String.eqb].
  unfold ret at 1 2 3. cbv beta iota.
  unfold dispatch. cbn [py_eq_str String.eqb Ascii.eqb Bool.eqb andb].
  unfold bind at 1 2 3 4 5 6 7. cbn [py_len py_index nth_error arg_or py_startswith]. unfold ret at 1 2 3 4 5.
  cbn -[send_command_to_window PyStr.startswith]. rewrite Hst.
  destruct (send_command_to_window tmux self s w (PStr c) confirm st) as [[b|e] st']; reflexivity.
Qed.

Lemma get_window_info_blank tmux self s w st o e :
  PyStr.has_char nul (target_of s w) = false ->
  tmux (st_log st) ["tmux"; "display-message"; "-t"; target_of s w; "-p";
                    "#{window_name}:#{window_active}:#{window_panes}:#{window_layout}"] = Launched 0 o e ->
  PyStr.strip o = EmptyString ->
  get_window_info tmux self s w st =
  (Ok PNone, mkSt (st_in st) (st_out st)
               (st_log st ++ [EvRun ["tmux"; "display-message"; "-t"; target_of s w; "-p";
                                     "#{window_name}:#{window_active}:#{window_panes}:#{window_layout}"]])%list).
Proof.
  intros Ht H Ho. unfold get_window_info, catch, try_except, bind at 1.
  rewrite run_str by nul_free. cbv zeta. rewrite H. cbn -[PyStr.strip]. rewrite Ho. reflexivity.
Qed.

Lemma prompted_app a b : prompted (a ++ b) = prompted a || prompted b.
Proof. unfold prompted. apply existsb_app. Qed.

Lemma send_keys_prompts tmux s w keys confirm st o e :
  invalid_target s w = false -> py_truthy keys = true -> py_truthy confirm = true ->
  PyStr.has_char nul (target_of s w) = false ->
  tmux (st_log st) ["tmux"; "list-panes"; "-t"; target_of s w] = Launched 0 o e ->
  prompted (st_log (snd (send_keys_to_window tmux TmuxOrchestrator_init s w keys confirm st))) = true.
Proof.
  intros Hi Hk Hc Ht H. destruct st as [i0 o0 l0]. unfold send_keys_to_window. rewrite Hi, Hk. cbn [negb].
  unfold catch, try_except. unfold bind at 1 2. rewrite run_str by nul_free. cbv zeta. cbn [st_log] in *.
  rewrite H. cbn [andb negb Z.eqb]. unfold ret at 1. cbv beta iota. cbn [safety_mode TmuxOrchestrator_init andb].
  rewrite Hc. unfold input, bind, print_text, ret, catch, try_except, run, print_details.
  destruct keys; cbn in Hk; try discriminate Hk; cbn -[PyStr.lower rstrip_newline prompted];
  repeat match goal with
    | |- context [match ?x with [] => _ | _ :: _ => _ end] => destruct x; cbn -[PyStr.lower rstrip_newline prompted]
    | |- context [String.eqb ?a ?b] => destruct (String.eqb a b); cbn -[PyStr.lower rstrip_newline prompted]
    | |- context [existsb ?f ?a] => destruct (existsb f a); cbn -[PyStr.lower rstrip_newline prompted]
    | |- context [PyStr.has_char ?c ?a] => destruct (PyStr.has_char c a); cbn -[PyStr.lower rstrip_newline prompted]
    | |- context [tmux ?lg ?a] => destruct (tmux lg a); cbn -[PyStr.lower rstrip_newline prompted]
    | |- context [?x =? 0] => destruct (x =? 0); cbn -[PyStr.lower rstrip_newline prompted]
    | |- context [stderr_details ?x] => destruct (stderr_details x); cbn -[PyStr.lower rstrip_newline prompted]
    end;
  rewrite !prompted_app; cbn [prompted existsb orb]; rewrite ?orb_true_r; reflexivity.
Qed.

Lemma window_status_blank tmux self session window st o e :
  PyStr.has_char nul (name session) = false ->
  tmux (st_log st) ["tmux"; "display-message"; "-t"; target_of (PStr (name session)) (PInt (window_index window));
                    "-p"; "#{window_name}:#{window_active}:#{window_panes}:#{window_layout}"] = Launched 0 o e ->
  PyStr.strip o = EmptyString ->
  fst (window_status tmux self session window st) =
  Ok (PDict [("index", PInt (window_index window)); ("name", PStr (window_name window));
             ("active", PBool (active window)); ("info", PNone)]).
Proof.
  intros Hn H Ho. unfold window_status, bind.
  rewrite (get_window_info_blank tmux self _ _ st o e (target_no_nul _ _ Hn) H Ho). reflexivity.
Qed.

(* ------------------------------------------------------------------ *)
(** ** Lemmas on listings, requests, sending and the snapshot *)

Lemma append_empty_r s : (s ++ EmptyString)%string = s.
Proof. induction s as [|c s IH]; simpl; [reflexivity|rewrite IH; reflexivity]. Qed.

Lemma str_app_assoc a b c : (a ++ (b ++ c))%string = ((a ++ b) ++ c)%string.
Proof. induction a as [|x a IH]; simpl; [reflexivity|rewrite IH; reflexivity]. Qed.

Lemma rev_str_acc s acc : PyStr.rev_str s acc = (PyStr.rev_str s EmptyString ++ acc)%string.
Proof.
  revert acc; induction s as [|c s IH]; intros acc; [reflexivity|].
  cbn [PyStr.rev_str]. rewrite (IH (String c acc)), (IH (String c EmptyString)), <- str_app_assoc. reflexivity.
Qed.

Lemma rev_str_app a b acc : PyStr.rev_str (a ++ b) acc = PyStr.rev_str b (PyStr.rev_str a acc).
Proof. revert acc; induction a as [|c a IH]; intros acc; [reflexivity|]. cbn. apply IH. Qed.

Lemma rev_str_involutive s : PyStr.rev_str (PyStr.rev_str s EmptyString) EmptyString = s.
Proof.
  induction s as [|c s IH]; [reflexivity|]. cbn [PyStr.rev_str].
  rewrite (rev_str_acc s (String c EmptyString)), rev_str_app. cbn. rewrite IH. reflexivity.
Qed.

Lemma lstrip_hd_ok s : hd_ok s = true -> PyStr.lstrip s = s.
Proof. destruct s as [|c r]; cbn; [discriminate|]. intros H; apply negb_true_iff in H; rewrite H; reflexivity. Qed.

Lemma hd_ok_app a b : hd_ok a = true -> hd_ok (a ++ b) = true.
Proof. destruct a; [discriminate|exact (fun H => H)]. Qed.

Lemma strip_line s : hd_ok s = true -> hd_ok (PyStr.rev_str s EmptyString) = true ->
  PyStr.strip (s ++ nls) = s.
Proof.
  intros H1 H2. unfold PyStr.strip. rewrite (lstrip_hd_ok (s ++ nls)) by (apply hd_ok_app, H1).
  rewrite rev_str_app. cbn [nls PyStr.rev_str PyStr.lstrip nl PyStr.is_space nat_of_ascii].
  change (PyStr.is_space nl) with true. cbv iota. rewrite (lstrip_hd_ok _ H2). apply rev_str_involutive.
Qed.

Lemma split_nonempty c s : PyStr.split c s <> [].
Proof.
  destruct s as [|d s]; cbn; [discriminate|].
  destruct (Ascii.eqb d c); [discriminate|]. destruct (PyStr.split c s); discriminate.
Qed.

Lemma split_prefix c a s : PyStr.has_char c a = false ->
  PyStr.split c (a ++ s) = (a ++ hd EmptyString (PyStr.split c s))%string :: tl (PyStr.split c s).
Proof.
  induction a as [|d a IH]; intros H.
  - cbn. destruct (PyStr.split c s) eqn:E; [exfalso; exact (split_nonempty c s E)|reflexivity].
  - cbn in H. apply orb_false_iff in H as [H1 H2]. cbn [append PyStr.split].
    rewrite IH by exact H2. rewrite Ascii.eqb_sym, H1. reflexivity.
Qed.

Lemma split_sep c a s : PyStr.has_char c a = false ->
  PyStr.split c (a ++ String c s) = a :: PyStr.split c s.
Proof.
  intros H. rewrite split_prefix by exact H. cbn [PyStr.split]. rewrite Ascii.eqb_refl.
  cbn. rewrite append_empty_r. reflexivity.
Qed.

Lemma split_single c a : PyStr.has_char c a = false -> PyStr.split c a = [a].
Proof.
  intros H. rewrite <- (append_empty_r a) at 1. rewrite split_prefix by exact H. cbn. rewrite append_empty_r. reflexivity.
Qed.

Lemma split_join c ls : ls <> [] -> Forall (fun l => PyStr.has_char c l = false) ls ->
  PyStr.split c (PyStr.join (String c EmptyString) ls) = ls.
Proof.
  induction ls as [|l r IH]; intros Hne Hf; [congruence|]. inversion Hf as [|? ? Hl Hr]; subst.
  destruct r as [|l2 r].
  - cbn [PyStr.join]. apply split_single, Hl.
  - change (PyStr.join (String c EmptyString) (l :: l2 :: r)) with
      (l ++ String c EmptyString ++ PyStr.join (String c EmptyString) (l2 :: r))%string.
    cbn [append]. rewrite split_sep by exact Hl. rewrite IH by (discriminate || exact Hr). reflexivity.
Qed.

Lemma tmux_listing_cons l r : tmux_listing (l :: r) = ((l ++ nls) ++ tmux_listing r)%string.
Proof. unfold tmux_listing. destruct r; cbn [map String.concat]; [rewrite append_empty_r|]; reflexivity. Qed.

Lemma tmux_listing_join ls : ls <> [] -> tmux_listing ls = (PyStr.join nls ls ++ nls)%string.
Proof.
  induction ls as [|l r IH]; intros Hne; [congruence|]. destruct r as [|l2 r].
  - reflexivity.
  - rewrite tmux_listing_cons, IH by discriminate. cbn [PyStr.join]. rewrite <- !str_app_assoc. reflexivity.
Qed.

Lemma digit_facts n : let c := PyStr.digit (n mod 10) in
  PyStr.digit_val c = Some (n mod 10) /\ PyStr.is_space c = false /\ Ascii.eqb c colon = false /\
  Ascii.eqb c nl = false /\ Ascii.eqb c "-" = false /\ Ascii.eqb c "+" = false.
Proof.
  pose proof (Z.mod_pos_bound n 10 ltac:(lia)) as Hb.
  cbv zeta. unfold PyStr.digit.
  rewrite <- (Z2Nat.id (n mod 10)) at 2 by lia.
  assert (Hm : (Z.to_nat (n mod 10) < 10)%nat) by lia.
  generalize dependent (Z.to_nat (n mod 10)). intros m Hm.
  do 10 (destruct m as [|m]; [vm_compute; repeat split; reflexivity|]). lia.
Qed.

Lemma digits_fuel_S f n acc : PyStr.digits_fuel (S f) n acc =
  if n <? 10 then String (PyStr.digit (n mod 10)) acc
  else PyStr.digits_fuel f (n / 10) (String (PyStr.digit (n mod 10)) acc).
Proof. reflexivity. Qed.

Lemma digits_fuel_parse f : forall n acc b, 0 <= n < 10 ^ Z.of_nat (S f) ->
  PyStr.parse_digits (PyStr.digits_fuel (S f) n acc) 0 b = PyStr.parse_digits acc n true.
Proof.
  induction f as [|f IH]; intros n acc b Hn; rewrite digits_fuel_S.
  - assert (H10 : n < 10) by (cbn in Hn; lia). rewrite (proj2 (Z.ltb_lt n 10) H10).
    cbn [PyStr.parse_digits]. rewrite (proj1 (digit_facts n)). f_equal. rewrite Z.mod_small; lia.
  - destruct (n <? 10) eqn:E.
    + apply Z.ltb_lt in E. cbn [PyStr.parse_digits]. rewrite (proj1 (digit_facts n)). f_equal. rewrite Z.mod_small; lia.
    + apply Z.ltb_ge in E. rewrite IH.
      * cbn [PyStr.parse_digits]. rewrite (proj1 (digit_facts n)). f_equal.
        pose proof (Z.div_mod n 10 ltac:(lia)). lia.
      * split; [apply Z.div_pos; lia|]. apply Z.div_lt_upper_bound; [lia|].
        rewrite Nat2Z.inj_succ, Z.pow_succ_r in Hn by lia. lia.
Qed.

Lemma digits_fuel_head f n acc : exists m r, PyStr.digits_fuel (S f) n acc = String (PyStr.digit (m mod 10)) r.
Proof.
  revert n acc; induction f as [|f IH]; intros n acc; rewrite digits_fuel_S.
  - destruct (n <? 10); cbn [PyStr.digits_fuel]; eauto.
  - destruct (n <? 10); [eauto|apply IH].
Qed.

Lemma of_nonneg_fuel n : 0 <= n ->
  n < 10 ^ Z.of_nat (S (Z.to_nat (Z.log2 (Z.max n 1)))).
Proof.
  intros Hn. pose proof (Z.log2_spec (Z.max n 1) ltac:(lia)) as [_ H2].
  rewrite Nat2Z.inj_succ, Z2Nat.id by (apply Z.log2_nonneg).
  assert (Hp : 2 ^ Z.succ (Z.log2 (Z.max n 1)) <= 10 ^ Z.succ (Z.log2 (Z.max n 1))).
  { apply Z.pow_le_mono_l. lia. }
  lia.
Qed.

Lemma parse_of_nonneg n : 0 <= n -> PyStr.parse_digits (PyStr.of_nonneg n) 0 false = Some n.
Proof. intros Hn. unfold PyStr.of_nonneg. rewrite digits_fuel_parse by (split; [lia|apply of_nonneg_fuel, Hn]). reflexivity. Qed.

Lemma digits_fuel_chars (f : ascii -> bool) fuel n acc :
  (forall m, f (PyStr.digit (m mod 10)) = true) -> str_forall f acc = true ->
  str_forall f (PyStr.digits_fuel fuel n acc) = true.
Proof.
  intros Hd; revert n acc; induction fuel as [|fu IH]; intros n acc Ha; cbn [PyStr.digits_fuel]; [exact Ha|].
  assert (H : str_forall f (String (PyStr.digit (n mod 10)) acc) = true) by (cbn [str_forall]; rewrite Hd, Ha; reflexivity).
  destruct (n <? 10); [exact H|apply IH, H].
Qed.

Lemma of_Z_chars (f : ascii -> bool) z :
  (forall m, f (PyStr.digit (m mod 10)) = true) -> f "-"%char = true -> str_forall f (PyStr.of_Z z) = true.
Proof.
  intros Hd Hm. unfold PyStr.of_Z, PyStr.of_nonneg.
  destruct (z <? 0); [cbn [append str_forall]; rewrite Hm; cbn [andb]|]; apply digits_fuel_chars; auto.
Qed.

Lemma str_forall_rev f s acc : str_forall f (PyStr.rev_str s acc) = str_forall f s && str_forall f acc.
Proof.
  revert acc; induction s as [|c s IH]; intros acc; [reflexivity|]. cbn. rewrite IH. cbn.
  destruct (f c), (str_forall f s), (str_forall f acc); reflexivity.
Qed.

Lemma lstrip_nospace s : str_forall (fun c => negb (PyStr.is_space c)) s = true -> PyStr.lstrip s = s.
Proof. destruct s as [|c r]; [reflexivity|]. cbn. destruct (PyStr.is_space c); [discriminate|reflexivity]. Qed.

Lemma strip_nospace s : str_forall (fun c => negb (PyStr.is_space c)) s = true -> PyStr.strip s = s.
Proof.
  intros H. unfold PyStr.strip. rewrite (lstrip_nospace s H), lstrip_nospace.
  - apply rev_str_involutive.
  - rewrite str_forall_rev, H. reflexivity.
Qed.

Lemma int_of_string_of_Z z : PyStr.int_of_string (PyStr.of_Z z) = Some z.
Proof.
  unfold PyStr.int_of_string. rewrite strip_nospace.
  2: { apply of_Z_chars; [intros m; rewrite (proj1 (proj2 (digit_facts m))); reflexivity|reflexivity]. }
  unfold PyStr.of_Z. destruct (z <? 0) eqn:E.
  - cbn [append]. change (Ascii.eqb "-" "-") with true. cbv iota.
    rewrite parse_of_nonneg by lia. cbn. f_equal. lia.
  - apply Z.ltb_ge in E. unfold PyStr.of_nonneg at 1.
    destruct (digits_fuel_head (Z.to_nat (Z.log2 (Z.max z 1))) z EmptyString) as (m & r & Hh).
    rewrite Hh. pose proof (digit_facts m) as (_ & _ & _ & _ & H1 & H2). cbv zeta in H1, H2.
    rewrite H1, H2, <- Hh. apply parse_of_nonneg, E.
Qed.

Lemma has_char_forall c s : PyStr.has_char c s = negb (str_forall (fun d => negb (Ascii.eqb c d)) s).
Proof. induction s as [|d s IH]; [reflexivity|]. cbn. rewrite IH. destruct (Ascii.eqb c d); reflexivity. Qed.

Lemma of_Z_no_colon z : PyStr.has_char colon (PyStr.of_Z z) = false.
Proof.
  rewrite has_char_forall, of_Z_chars; [reflexivity| |reflexivity].
  intros m. rewrite Ascii.eqb_sym, (proj1 (proj2 (proj2 (digit_facts m)))). reflexivity.
Qed.

Lemma of_Z_no_nl z : PyStr.has_char nl (PyStr.of_Z z) = false.
Proof.
  rewrite has_char_forall, of_Z_chars; [reflexivity| |reflexivity].
  intros m. rewrite Ascii.eqb_sym, (proj1 (proj2 (proj2 (proj2 (digit_facts m))))). reflexivity.
Qed.

Lemma of_Z_hd_ok z : hd_ok (PyStr.of_Z z) = true.
Proof.
  unfold PyStr.of_Z, PyStr.of_nonneg. destruct (z <? 0); [reflexivity|].
  destruct (digits_fuel_head (Z.to_nat (Z.log2 (Z.max z 1))) z EmptyString) as (m & r & ->).
  cbn [hd_ok]. rewrite (proj1 (proj2 (digit_facts m))). reflexivity.
Qed.

Lemma plain_flag_no c f : plain_flag f = true -> (PyStr.is_space c = true \/ c = colon) -> PyStr.has_char c f = false.
Proof.
  intros Hf Hc. induction f as [|d f IH]; [reflexivity|]. cbn in Hf |- *.
  apply andb_true_iff in Hf as [Hd Hf]. rewrite (IH Hf), orb_false_r.
  apply andb_true_iff in Hd as [H1 H2]. apply Ascii.eqb_neq. intros <-.
  destruct Hc as [Hc| ->]; [rewrite Hc in H1; discriminate|rewrite Ascii.eqb_refl in H2; discriminate].
Qed.

Lemma plain_flag_rev f acc : plain_flag f = true -> hd_ok acc = true -> hd_ok (PyStr.rev_str f acc) = true.
Proof.
  revert acc; induction f as [|d f IH]; intros acc Hf Ha; [exact Ha|]. cbn in Hf |- *.
  apply andb_true_iff in Hf as [Hd Hf]. apply IH; [exact Hf|]. cbn. apply andb_true_iff in Hd as [H1 _]; exact H1.
Qed.

(** A listed line: a prefix, then [:] and a plain flag. *)

Lemma flag_line_last l acc : flag_line l -> hd_ok (PyStr.rev_str l acc) = true.
Proof.
  intros (_ & x & f & -> & Hf). rewrite rev_str_app. cbn [PyStr.rev_str]. apply plain_flag_rev; [exact Hf|reflexivity].
Qed.

Lemma join_last ls acc : ls <> [] -> Forall flag_line ls -> hd_ok (PyStr.rev_str (PyStr.join nls ls) acc) = true.
Proof.
  revert acc; induction ls as [|l r IH]; intros acc Hne Hf; [congruence|]. inversion Hf as [|? ? Hl Hr]; subst.
  destruct r as [|l2 r].
  - apply flag_line_last, Hl.
  - change (PyStr.join nls (l :: l2 :: r)) with (l ++ nls ++ PyStr.join nls (l2 :: r))%string.
    rewrite rev_str_app, rev_str_app. apply IH; [discriminate|exact Hr].
Qed.

Lemma split_strip_listing ls :
  Forall flag_line ls -> (ls <> [] -> hd_ok (hd EmptyString ls) = true) ->
  PyStr.split nl (PyStr.strip (tmux_listing ls)) = match ls with [] => [EmptyString] | _ => ls end.
Proof.
  intros Hf Hh. destruct ls as [|l r]; [reflexivity|]. specialize (Hh ltac:(discriminate)).
  rewrite tmux_listing_join by discriminate. rewrite strip_line.
  - apply split_join; [discriminate|]. eapply Forall_impl; [|exact Hf]. intros a [Ha _]; exact Ha.
  - destruct r; [exact Hh|]. cbn [PyStr.join]. apply hd_ok_app, Hh.
  - apply join_last; [discriminate|exact Hf].
Qed.

Lemma forM_opt_some {A B} (f : A -> M (option B)) (g : A -> B) (h : A -> St -> St) l :
  (forall x st, In x l -> f x st = (Ok (Some (g x)), h x st)) ->
  forall st, forM_opt f l st = (Ok (map g l), fold_left (fun st x => h x st) l st).
Proof.
  induction l as [|x r IH]; intros Hx st; [reflexivity|]. cbn [forM_opt]. unfold bind at 1.
  rewrite Hx by (left; reflexivity). unfold bind. rewrite IH by (intros; apply Hx; right; assumption). reflexivity.
Qed.

Lemma eqb_app_sep x c f : String.eqb (x ++ String c f) EmptyString = false.
Proof. destruct x; reflexivity. Qed.

Lemma parse_window_line sn w st :
  PyStr.has_char colon (lw_name w) = false -> plain_flag (lw_active w) = true ->
  parse_window sn (PyStr.of_Z (lw_index w) ++ ":" ++ lw_name w ++ ":" ++ lw_active w) st =
  (Ok (Some (mkTmuxWindow sn (lw_index w) (lw_name w) (String.eqb (lw_active w) "1"))), st).
Proof.
  intros Hn Hf. unfold parse_window.
  change (PyStr.of_Z (lw_index w) ++ ":" ++ lw_name w ++ ":" ++ lw_active w)%string
    with (PyStr.of_Z (lw_index w) ++ String colon (lw_name w ++ String colon (lw_active w)))%string.
  rewrite eqb_app_sep. cbv iota.
  change ":"%char with colon.
  rewrite split_sep by apply of_Z_no_colon. rewrite split_sep by exact Hn.
  rewrite split_single by (apply plain_flag_no; [exact Hf|right; reflexivity]).
  unfold bind, py_int. rewrite int_of_string_of_Z. reflexivity.
Qed.

Lemma window_line_flag w : PyStr.has_char nl (lw_name w) = false -> plain_flag (lw_active w) = true ->
  flag_line (PyStr.of_Z (lw_index w) ++ ":" ++ lw_name w ++ ":" ++ lw_active w).
Proof.
  intros Hn Hf. split.
  - change (PyStr.of_Z (lw_index w) ++ ":" ++ lw_name w ++ ":" ++ lw_active w)%string
      with (PyStr.of_Z (lw_index w) ++ String colon (lw_name w ++ String colon (lw_active w)))%string.
    rewrite has_char_app. cbn [PyStr.has_char]. rewrite has_char_app. cbn [PyStr.has_char].
    rewrite of_Z_no_nl, Hn, (plain_flag_no nl _ Hf) by (left; reflexivity). reflexivity.
  - exists (PyStr.of_Z (lw_index w) ++ ":" ++ lw_name w)%string, (lw_active w). split; [|exact Hf].
    rewrite <- str_app_assoc. reflexivity.
Qed.

Lemma split_strip_listing_ne ls :
  ls <> [] -> Forall flag_line ls -> hd_ok (hd EmptyString ls) = true ->
  PyStr.split nl (PyStr.strip (tmux_listing ls)) = ls.
Proof.
  intros Hne Hf Hh. rewrite split_strip_listing by (assumption || (intros _; assumption)).
  destruct ls; [congruence|reflexivity].
Qed.

Lemma fold_left_id {A} (l : list A) (st : St) : fold_left (fun st _ => st) l st = st.
Proof. revert st; induction l; intros st; [reflexivity|apply IHl]. Qed.

Lemma forM_opt_map {A A' B} (f : A' -> M (option B)) (k : A -> A') l :
  forM_opt f (map k l) = forM_opt (fun x => f (k x)) l.
Proof. induction l as [|x r IH]; [reflexivity|]. cbn. rewrite IH. reflexivity. Qed.

Lemma windows_read sn ws st :
  forallb (fun w => negb (PyStr.has_char nl (lw_name w)) && negb (PyStr.has_char colon (lw_name w)) &&
                    plain_flag (lw_active w)) ws = true ->
  forM_opt (parse_window sn) (PyStr.split nl (PyStr.strip (window_listing ws))) st =
  (Ok (map (fun w => mkTmuxWindow sn (lw_index w) (lw_name w) (String.eqb (lw_active w) "1")) ws), st).
Proof.
  intros Hw. rewrite forallb_forall in Hw. destruct ws as [|w0 ws0]; [reflexivity|].
  unfold window_listing. rewrite split_strip_listing_ne.
  - rewrite forM_opt_map.
    rewrite (forM_opt_some _
               (fun w => mkTmuxWindow sn (lw_index w) (lw_name w) (String.eqb (lw_active w) "1"))
               (fun _ st => st)).
    + rewrite fold_left_id. reflexivity.
    + intros w st' Hin.
      specialize (Hw w Hin). apply andb_true_iff in Hw as [Hw Hf]. apply andb_true_iff in Hw as [_ Hc].
      apply negb_true_iff in Hc. apply parse_window_line; assumption.
  - discriminate.
  - apply Forall_forall. intros x Hx. apply in_map_iff in Hx as (w & <- & Hin).
    specialize (Hw w Hin). apply andb_true_iff in Hw as [Hw Hf]. apply andb_true_iff in Hw as [Hn _].
    apply negb_true_iff in Hn. apply window_line_flag; assumption.
  - cbn [map hd]. apply hd_ok_app, of_Z_hd_ok.
Qed.

Lemma fold_left_log {A} (ev : A -> event) l i o lg :
  fold_left (fun st x => mkSt (st_in st) (st_out st) (st_log st ++ [ev x])%list) l (mkSt i o lg) =
  mkSt i o (lg ++ map ev l)%list.
Proof.
  revert lg; induction l as [|x r IH]; intros lg; cbn; [rewrite app_nil_r; reflexivity|].
  rewrite IH, <- app_assoc. reflexivity.
Qed.

Lemma plain_session_name_facts n : plain_session_name n = true ->
  PyStr.has_char colon n = false /\ PyStr.has_char nl n = false /\ PyStr.has_char nul n = false /\
  (n <> EmptyString -> hd_ok n = true).
Proof.
  unfold plain_session_name. intros H. repeat (apply andb_true_iff in H as [H ?]).
  repeat match goal with Hn : negb _ = true |- _ => apply negb_true_iff in Hn end.
  split; [assumption|split; [assumption|split; [assumption|]]].
  destruct n; [congruence|]. intros _. assumption.
Qed.

Lemma parse_session_line tmux s st e :
  plain_session_name (ls_name s) = true -> plain_flag (ls_attached s) = true ->
  forallb (fun w => negb (PyStr.has_char nl (lw_name w)) && negb (PyStr.has_char colon (lw_name w)) &&
                    plain_flag (lw_active w)) (ls_windows s) = true ->
  tmux (st_log st) (list_windows_args (ls_name s)) = Launched 0 (window_listing (ls_windows s)) e ->
  parse_session tmux (ls_name s ++ ":" ++ ls_attached s) st =
  (Ok (Some (listed_to_session s)),
   mkSt (st_in st) (st_out st) (st_log st ++ [EvRun (list_windows_args (ls_name s))])%list).
Proof.
  intros Hn Ha Hw Ht. destruct (plain_session_name_facts _ Hn) as (Hc & _ & Hz & _).
  unfold parse_session.
  change (ls_name s ++ ":" ++ ls_attached s)%string with (ls_name s ++ String colon (ls_attached s))%string.
  rewrite eqb_app_sep. cbv iota. change ":"%char with colon.
  rewrite split_sep by exact Hc. rewrite split_single by (apply plain_flag_no; [exact Ha|right; reflexivity]).
  unfold bind at 1. change (windows_cmd (ls_name s)) with (tmux_str (list_windows_args (ls_name s))).
  rewrite run_str by (unfold list_windows_args; nul_free). cbv zeta. rewrite Ht. cbn [andb negb Z.eqb].
  unfold bind. cbn [cp_stdout]. rewrite windows_read by exact Hw. reflexivity.
Qed.

Lemma plain_listing_parts ss s : plain_listing true ss = true -> In s ss ->
  plain_session_name (ls_name s) = true /\ plain_flag (ls_attached s) = true /\
  forallb (fun w => negb (PyStr.has_char nl (lw_name w)) && negb (PyStr.has_char colon (lw_name w)) &&
                    plain_flag (lw_active w)) (ls_windows s) = true.
Proof.
  intros Hp Hin. unfold plain_listing in Hp. rewrite forallb_forall in Hp. specialize (Hp s Hin).
  apply andb_true_iff in Hp as [Hp Hws]. apply andb_true_iff in Hp as [Hn Ha]. auto.
Qed.

Lemma split_app_sep c a b : PyStr.split c (a ++ String c b) = (PyStr.split c a ++ PyStr.split c b)%list.
Proof.
  induction a as [|d a IH]; cbn [append PyStr.split].
  - rewrite Ascii.eqb_refl. reflexivity.
  - rewrite IH. destruct (Ascii.eqb d c); [reflexivity|].
    destruct (PyStr.split c a) eqn:E; [exfalso; exact (split_nonempty c a E)|reflexivity].
Qed.

Lemma split_length_colon c s : PyStr.has_char c s = true -> (2 <= List.length (PyStr.split c s))%nat.
Proof.
  induction s as [|d s IH]; cbn; [discriminate|]. rewrite Ascii.eqb_sym.
  destruct (Ascii.eqb d c) eqn:E; cbn [orb List.length].
  - intros _. destruct (PyStr.split c s) eqn:Es; [exfalso; exact (split_nonempty c s Es)|cbn; lia].
  - intros H. specialize (IH H). destruct (PyStr.split c s); cbn in *; lia.
Qed.

Lemma parse_window_colon sn w st :
  PyStr.has_char colon (lw_name w) = true ->
  parse_window sn (PyStr.of_Z (lw_index w) ++ ":" ++ lw_name w ++ ":" ++ lw_active w) st = (Exc too_many_3, st).
Proof.
  intros Hc. unfold parse_window.
  change (PyStr.of_Z (lw_index w) ++ ":" ++ lw_name w ++ ":" ++ lw_active w)%string
    with (PyStr.of_Z (lw_index w) ++ String colon (lw_name w ++ String colon (lw_active w)))%string.
  rewrite eqb_app_sep. cbv iota. change ":"%char with colon.
  rewrite split_sep by apply of_Z_no_colon. rewrite split_app_sep.
  pose proof (split_length_colon _ _ Hc) as Hl.
  destruct (PyStr.split colon (lw_name w)) as [|a [|b r]]; cbn in Hl; try lia.
  destruct (PyStr.split colon (lw_active w)) eqn:E; [exfalso; exact (split_nonempty _ _ E)|].
  destruct r; reflexivity.
Qed.

Lemma forM_opt_raise {A B} (f : A -> M (option B)) (bad : A -> bool) (E : exc) l :
  (forall x st, In x l -> bad x = false -> exists b st', f x st = (Ok b, st')) ->
  (forall x st, In x l -> bad x = true -> exists st', f x st = (Exc E, st')) ->
  existsb bad l = true ->
  forall st, exists st', forM_opt f l st = (Exc E, st').
Proof.
  intros Hg Hb. induction l as [|x r IH]; intros Hex st; [discriminate|]. cbn [forM_opt]. unfold bind at 1.
  destruct (bad x) eqn:Ex.
  - destruct (Hb x st (or_introl eq_refl) Ex) as (st1 & ->). eauto.
  - destruct (Hg x st (or_introl eq_refl) Ex) as (b & st1 & ->). cbn [existsb] in Hex. rewrite Ex in Hex.
    cbn [orb] in Hex.
    destruct (IH (fun y st i => Hg y st (or_intror i)) (fun y st i => Hb y st (or_intror i)) Hex st1)
      as (st2 & H2).
    unfold bind. rewrite H2. eauto.
Qed.

Lemma windows_colon sn ws st :
  forallb (fun w => negb (PyStr.has_char nl (lw_name w)) && plain_flag (lw_active w)) ws = true ->
  existsb (fun w => PyStr.has_char colon (lw_name w)) ws = true ->
  exists st', forM_opt (parse_window sn) (PyStr.split nl (PyStr.strip (window_listing ws))) st = (Exc too_many_3, st').
Proof.
  intros Hw Hex. rewrite forallb_forall in Hw. destruct ws as [|w0 ws0]; [discriminate|].
  unfold window_listing. rewrite split_strip_listing_ne.
  - rewrite forM_opt_map. apply (forM_opt_raise _ (fun w => PyStr.has_char colon (lw_name w))); [| |exact Hex].
    + intros w st' Hin Hc. specialize (Hw w Hin). apply andb_true_iff in Hw as [_ Hf].
      eexists; eexists. apply parse_window_line; assumption.
    + intros w st' _ Hc. eexists. apply parse_window_colon, Hc.
  - discriminate.
  - apply Forall_forall. intros x Hx. apply in_map_iff in Hx as (w & <- & Hin).
    specialize (Hw w Hin). apply andb_true_iff in Hw as [Hn Hf].
    apply negb_true_iff in Hn. apply window_line_flag; assumption.
  - cbn [map hd]. apply hd_ok_app, of_Z_hd_ok.
Qed.

Lemma plain_listing_any_parts ss s : plain_listing false ss = true -> In s ss ->
  plain_session_name (ls_name s) = true /\ plain_flag (ls_attached s) = true /\
  forallb (fun w => negb (PyStr.has_char nl (lw_name w)) && plain_flag (lw_active w)) (ls_windows s) = true.
Proof.
  intros Hp Hin. unfold plain_listing in Hp. rewrite forallb_forall in Hp. specialize (Hp s Hin).
  apply andb_true_iff in Hp as [Hp Hws]. apply andb_true_iff in Hp as [Hn Ha]. split; [exact Hn|split; [exact Ha|]].
  rewrite forallb_forall in Hws |- *. intros w Hw. specialize (Hws w Hw).
  apply andb_true_iff in Hws as [Hws Hf]. apply andb_true_iff in Hws as [Hnl _]. rewrite Hnl, Hf. reflexivity.
Qed.

Lemma colon_free_windows ws :
  forallb (fun w => negb (PyStr.has_char nl (lw_name w)) && plain_flag (lw_active w)) ws = true ->
  existsb (fun w => PyStr.has_char colon (lw_name w)) ws = false ->
  forallb (fun w => negb (PyStr.has_char nl (lw_name w)) && negb (PyStr.has_char colon (lw_name w)) &&
                    plain_flag (lw_active w)) ws = true.
Proof.
  induction ws as [|w ws IH]; intros H1 H2; [reflexivity|]. cbn in H1, H2 |- *.
  apply andb_true_iff in H1 as [H1 H1']. apply orb_false_iff in H2 as [H2 H2'].
  apply andb_true_iff in H1 as [Hn Hf]. rewrite Hn, H2, Hf, IH by assumption. reflexivity.
Qed.

Lemma parse_session_colon tmux s st e :
  plain_session_name (ls_name s) = true -> plain_flag (ls_attached s) = true ->
  forallb (fun w => negb (PyStr.has_char nl (lw_name w)) && plain_flag (lw_active w)) (ls_windows s) = true ->
  existsb (fun w => PyStr.has_char colon (lw_name w)) (ls_windows s) = true ->
  tmux (st_log st) (list_windows_args (ls_name s)) = Launched 0 (window_listing (ls_windows s)) e ->
  exists st', parse_session tmux (ls_name s ++ ":" ++ ls_attached s) st = (Exc too_many_3, st').
Proof.
  intros Hn Ha Hw Hx Ht. destruct (plain_session_name_facts _ Hn) as (Hc & _ & Hz & _).
  unfold parse_session.
  change (ls_name s ++ ":" ++ ls_attached s)%string with (ls_name s ++ String colon (ls_attached s))%string.
  rewrite eqb_app_sep. cbv iota. change ":"%char with colon.
  rewrite split_sep by exact Hc. rewrite split_single by (apply plain_flag_no; [exact Ha|right; reflexivity]).
  unfold bind at 1. change (windows_cmd (ls_name s)) with (tmux_str (list_windows_args (ls_name s))).
  rewrite run_str by (unfold list_windows_args; nul_free). cbv zeta. rewrite Ht. cbn [andb negb Z.eqb].
  unfold bind. cbn [cp_stdout].
  destruct (windows_colon (ls_name s) (ls_windows s)
              (mkSt (st_in st) (st_out st) (st_log st ++ [EvRun (list_windows_args (ls_name s))])%list) Hw Hx)
    as (st' & ->).
  eauto.
Qed.

Lemma dispatch_unknown tmux clock self m args st :
  (forall s, m = PStr s -> ~ In s rpc_methods) ->
  dispatch tmux clock self m args st = (Exc (ValueError ("Unknown method: " ++ py_str m)), st).
Proof.
  intros Hm. unfold dispatch.
  destruct m as [| | | |s| |]; try reflexivity.
  specialize (Hm s eq_refl). unfold rpc_methods in Hm. cbn [py_eq_str].
  repeat match goal with
  | |- context [String.eqb s ?k] =>
      let E := fresh in destruct (String.eqb s k) eqn:E;
      [apply String.eqb_eq in E; subst; exfalso; apply Hm; simpl; tauto|]
  end.
  reflexivity.
Qed.

Lemma handle_request_non_dict tmux clock self v st :
  (forall d, v <> PDict d) ->
  handle_request tmux clock self v st =
  (Exc (AttributeError ("'" ++ py_type_name v ++ "' object has no attribute 'get'")), st).
Proof.
  intros Hv. destruct v; try (exfalso; eapply Hv; reflexivity); reflexivity.
Qed.

Lemma handle_request_legacy tmux clock self m args st :
  exists key body st1,
    handle_request tmux clock self (PDict [("id", PStr "legacy"); ("method", PStr m); ("args", PList args)]) st =
    (Ok (PDict [("id", PStr "legacy"); (key, body)]), st1) /\ (key = "result" \/ key = "error").
Proof.
  unfold handle_request, catch, try_except. unfold bind at 1 2 3 4. cbn [py_get dict_lookup String.eqb Ascii.eqb Bool.eqb andb].
  unfold ret at 1 2 3. cbv beta iota. unfold bind.
  destruct (dispatch tmux clock self (PStr m) (PList args) st) as [[r|e] st1].
  - exists "result", r, st1. auto.
  - exists "error", (PStr (exc_str e)), st1. auto.
Qed.

Lemma repeat_no_nul s k : PyStr.has_char nul s = false -> PyStr.has_char nul (PyStr.repeat s k) = false.
Proof. intros H. induction k as [|k IH]; [reflexivity|]. cbn [PyStr.repeat]. rewrite has_char_app, H, IH. reflexivity. Qed.

Lemma pad_no_nul w n : PyStr.has_char nul (PyStr.pad w n) = false.
Proof.
  unfold PyStr.pad, PyStr.of_nonneg. rewrite has_char_app, repeat_no_nul by reflexivity.
  apply digits_fuel_no_nul. reflexivity.
Qed.

Lemma strftime_no_nul d : PyStr.has_char nul (strftime_hms d) = false.
Proof. unfold strftime_hms. rewrite !has_char_app, !pad_no_nul. reflexivity. Qed.

Lemma generate_status_response_run clock role st :
  exists t, generate_status_response clock role st = (Ok t, mkSt (st_in st) (st_out st) (st_log st ++ [EvNow])%list) /\
            PyStr.has_char nul t = false.
Proof.
  unfold generate_status_response, bind, now, ret. cbn [st_log].
  eexists; split; [reflexivity|].
  repeat match goal with |- context [if ?b then _ else _] => destruct b end;
    rewrite has_char_app, has_char_app, strftime_no_nul; reflexivity.
Qed.

Lemma capture_prefix tmux self sn wi n st :
  invalid_target (PStr sn) (PInt wi) = false -> 0 < n ->
  capture_window_content tmux self (PStr sn) (PInt wi) (PInt n) st =
  catch is_called_process_error
    (_ <- run tmux (tmux_str ["tmux"; "list-panes"; "-t"; target_of (PStr sn) (PInt wi)]) false true;;
     result <- run tmux (tmux_str ["tmux"; "capture-pane"; "-t"; target_of (PStr sn) (PInt wi); "-p"; "-S";
                                   "-" ++ PyStr.of_Z (Z.min n (max_lines_capture self))]) true true;;
     ret (cp_stdout result))
    (fun e =>
       let error_msg := "Error capturing content from " ++ target_of (PStr sn) (PInt wi) ++ ": " ++ exc_str e in
       ret (match stderr_details e with
            | Some d => error_msg ++ String nl "Details: " ++ d
            | None => error_msg
            end))
    (mkSt (st_in st) (st_out st ++ capture_warning self n) (st_log st))%list.
Proof.
  intros Hi Hn. unfold capture_window_content. rewrite Hi.
  unfold bind at 1, py_le_int. cbn [py_as_int]. rewrite (proj2 (Z.leb_gt n 0) Hn).
  unfold py_gt_int. cbn [py_as_int]. unfold ret at 1. cbv beta iota. unfold capture_warning.
  destruct (max_lines_capture self <? n) eqn:E.
  - apply Z.ltb_lt in E. rewrite Z.min_r by lia. unfold bind at 1 2, print_text. cbv beta iota. reflexivity.
  - apply Z.ltb_ge in E. rewrite Z.min_l by lia. unfold bind at 1, ret at 1. rewrite app_nil_r.
    destruct st; reflexivity.
Qed.

Lemma send_keys_checked tmux self s w keys confirm st o e :
  invalid_target s w = false -> py_truthy keys = true ->
  PyStr.has_char nul (target_of s w) = false ->
  tmux (st_log st) ["tmux"; "list-panes"; "-t"; target_of s w] = Launched 0 o e ->
  send_keys_to_window tmux self s w keys confirm st =
  (go <- (if safety_mode self && py_truthy confirm then
            _ <- print_text ("SAFETY CHECK: About to send '" ++ py_str keys ++ "' to " ++ target_of s w);;
            response <- input "Confirm? (yes/no): ";;
            if negb (String.eqb (PyStr.lower response) "yes") then
              _ <- print_text "Operation cancelled";; ret false
            else ret true
          else ret true);;
   if negb go then ret false
   else
     catch is_called_process_error
       (_ <- run tmux [PStr "tmux"; PStr "send-keys"; PStr "-t"; PStr (target_of s w); keys] true true;; ret true)
       (fun e => _ <- print_text ("Error sending keys to " ++ target_of s w ++ ": " ++ exc_str e);;
                 _ <- print_details e;;
                 ret false))
    (mkSt (st_in st) (st_out st) (st_log st ++ [EvRun ["tmux"; "list-panes"; "-t"; target_of s w]]))%list.
Proof.
  intros Hi Hk Ht H. unfold send_keys_to_window. rewrite Hi, Hk. cbn [negb].
  unfold catch at 1, try_except at 1. unfold bind at 1 2. rewrite run_str by nul_free. cbv zeta.
  rewrite H. reflexivity.
Qed.

Lemma forM_opt_pure {A B} (f : A -> M (option B)) (g : A -> option B) l st :
  (forall x st, f x st = (Ok (g x), st)) ->
  forM_opt f l st = (Ok (flat_map (fun x => match g x with Some b => [b] | None => [] end) l), st).
Proof.
  intros Hf. induction l as [|x l IH]; [reflexivity|]. cbn [forM_opt flat_map].
  unfold bind at 1. rewrite Hf. unfold bind. rewrite IH. unfold ret. destruct (g x); reflexivity.
Qed.

Lemma find_in_windows_str (n sname : string) (ws : list TmuxWindow) st :
  forM_opt (fun window =>
      needle <- py_lower (PStr n);;
      ret (if PyStr.contains needle (PyStr.lower (window_name window))
           then Some (sname, window_index window) else None)) ws st =
  (Ok (map (fun w => (sname, window_index w))
        (filter (fun w => PyStr.contains (PyStr.lower n) (PyStr.lower (window_name w))) ws)), st).
Proof.
  rewrite (forM_opt_pure _ (fun w => if PyStr.contains (PyStr.lower n) (PyStr.lower (window_name w))
                                     then Some (sname, window_index w) else None)) by reflexivity.
  f_equal. f_equal. induction ws as [|w ws IH]; [reflexivity|]. cbn [flat_map filter].
  destruct (PyStr.contains (PyStr.lower n) (PyStr.lower (window_name w))); cbn; rewrite IH; reflexivity.
Qed.

Lemma loop_body_blank tmux clock json_loads self l rest out lg :
  l <> EmptyString -> blank l = true ->
  loop_body tmux clock json_loads self (mkSt (l :: rest) out lg) = (Ok true, mkSt rest out lg).
Proof.
  intros Hne Hb. apply String.eqb_neq in Hne.
  unfold loop_body, try_except, bind, readline. cbn [st_in]. rewrite Hne. cbv beta iota.
  unfold blank in Hb. rewrite Hb. reflexivity.
Qed.

Lemma loop_body_answers tmux clock json_loads self l rest st :
  safety_mode self = false -> st_in st = l :: rest -> l <> EmptyString -> blank l = false ->
  exists r st', loop_body tmux clock json_loads self st = (Ok true, st') /\
    st_in st' = rest /\ json_out (st_out st') = (json_out (st_out st) ++ [r])%list /\ answers json_loads l r.
Proof.
  intros Hs Hin Hne Hb. unfold blank in Hb. apply String.eqb_neq in Hb.
  unfold answers. destruct (json_loads (PyStr.strip l)) as [v|msg] eqn:Hv.
  - destruct (loop_body_request tmux clock json_loads self st l rest Hs Hin (conj Hb (ex_intro _ v Hv)))
      as (r & st' & H1 & H2 & H3 & v' & Hv' & Hr).
    rewrite Hv in Hv'. injection Hv' as <-. eauto 7.
  - destruct st as [i o lg]. cbn [st_in] in Hin. subst i.
    rewrite (loop_body_malformed tmux clock json_loads self l rest o lg msg Hb Hv).
    do 2 eexists; split; [reflexivity|split; [reflexivity|split; [|reflexivity]]].
    cbn [st_out]. rewrite json_out_app. reflexivity.
Qed.

Lemma persistent_loop_answers tmux clock json_loads self :
  safety_mode self = false ->
  forall lines st fuel, st_in st = lines -> Forall (fun l => l <> EmptyString) lines ->
  (List.length lines < fuel)%nat ->
  exists rs,
    fst (persistent_loop tmux clock json_loads self fuel st) = Ok tt /\
    st_in (snd (persistent_loop tmux clock json_loads self fuel st)) = [] /\
    json_out (st_out (snd (persistent_loop tmux clock json_loads self fuel st))) =
      (json_out (st_out st) ++ rs)%list /\
    Forall2 (answers json_loads) (filter (fun l => negb (blank l)) lines) rs.
Proof.
  intros Hs lines. induction lines as [|l rest IH]; intros st fuel Hin Hne Hlen;
    (destruct fuel as [|f]; [simpl in Hlen; lia|]); rewrite persistent_loop_S.
  - exists []. unfold bind, loop_body, try_except, bind, readline. rewrite Hin. simpl.
    rewrite Hin, app_nil_r. auto.
  - inversion Hne as [|? ? Hl Hrest]; subst. cbn [List.length] in Hlen. cbn [filter].
    destruct (blank l) eqn:Hb; cbn [negb].
    + destruct st as [i o lg]. cbn [st_in] in Hin. subst i.
      destruct (IH (mkSt rest o lg) f eq_refl Hrest ltac:(lia)) as (rs & H1 & H2 & H3 & H4).
      exists rs.
      assert (E : (continue <- loop_body tmux clock json_loads self;;
                   if continue then persistent_loop tmux clock json_loads self f else ret tt) (mkSt (l :: rest) o lg)
                  = persistent_loop tmux clock json_loads self f (mkSt rest o lg))
        by (unfold bind; rewrite loop_body_blank by assumption; reflexivity).
      rewrite E. auto.
    + destruct (loop_body_answers tmux clock json_loads self l rest st Hs Hin Hl Hb)
        as (r & st' & Hbody & Hin' & Hout & Hr).
      destruct (IH st' f Hin' Hrest ltac:(lia)) as (rs & H1 & H2 & H3 & H4).
      exists (r :: rs).
      assert (E : (continue <- loop_body tmux clock json_loads self;;
                   if continue then persistent_loop tmux clock json_loads self f else ret tt) st
                  = persistent_loop tmux clock json_loads self f st')
        by (unfold bind; rewrite Hbody; reflexivity).
      rewrite E.
      split; [exact H1|split; [exact H2|split]].
      * rewrite H3, Hout, <- app_assoc. reflexivity.
      * constructor; assumption.
Qed.

Lemma bind_ok {A B} (m : M A) (k : A -> M B) st v st' :
  (x <- m;; k x) st = (Ok v, st') -> exists a st1, m st = (Ok a, st1) /\ k a st1 = (Ok v, st').
Proof. unfold bind. destruct (m st) as [[a|e] st1]; intros H; [eauto|discriminate]. Qed.

Ltac bind_inv H :=
  let a := fresh "a" in let s := fresh "s" in let H1 := fresh "H" in
  apply bind_ok in H as (a & s & H1 & H).

Lemma get_window_info_shape tmux self s w st v st' :
  get_window_info tmux self s w st = (Ok v, st') -> info_shape v.
Proof.
  unfold get_window_info, catch, try_except.
  match goal with |- context [match ?m st with _ => _ end] => destruct (m st) as [[r|e] st1] eqn:Eb end.
  - intros H; injection H as <- <-. bind_inv Eb. cbv zeta in Eb.
    destruct (String.eqb _ EmptyString).
    + unfold ret in Eb. injection Eb as <- <-. left; reflexivity.
    + do 6 bind_inv Eb. unfold ret in Eb. injection Eb as <- <-. right; right; eauto 6.
  - cbn [handle]. destruct (is_called_process_error e).
    + unfold ret. intros H; injection H as <- <-. right; left; eauto.
    + unfold raise. discriminate.
Qed.

Lemma mapM_ok_forall {A B} (f : A -> M B) (P : B -> Prop) l st vs st' :
  (forall x st v st', f x st = (Ok v, st') -> P v) ->
  mapM f l st = (Ok vs, st') -> Forall P vs.
Proof.
  intros Hf. revert st vs st'. induction l as [|x l IH]; intros st vs st' H.
  - cbn in H. injection H as <- _. constructor.
  - cbn [mapM] in H. bind_inv H. bind_inv H. unfold ret in H. injection H as <- _.
    constructor; [eapply Hf; eassumption|eapply IH; eassumption].
Qed.

Lemma get_all_windows_status_shape tmux clock self st status st' :
  get_all_windows_status tmux clock self st = (Ok status, st') ->
  exists t ss, status = PDict [("timestamp", PStr t); ("sessions", PList ss)] /\ Forall session_shape ss.
Proof.
  unfold get_all_windows_status. intros H. do 3 bind_inv H. unfold ret in H. injection H as <- _.
  do 2 eexists; split; [reflexivity|].
  eapply mapM_ok_forall; [|eassumption].
  intros sess st1 v st2 Hs. unfold session_status in Hs. bind_inv Hs. unfold ret in Hs. injection Hs as <- _.
  do 3 eexists; split; [reflexivity|].
  eapply mapM_ok_forall; [|eassumption].
  intros win st3 v st4 Hw. unfold window_status in Hw. bind_inv Hw. unfold ret in Hw. injection Hw as <- _.
  do 4 eexists; split; [reflexivity|]. eapply get_window_info_shape; eassumption.
Qed.

Lemma mapM_pure {A B} (f : A -> M B) (bad : A -> bool) E l st :
  (forall x, In x l -> bad x = true -> f x st = (Exc E, st)) ->
  (forall x, In x l -> bad x = false -> exists v, f x st = (Ok v, st)) ->
  (existsb bad l = true -> mapM f l st = (Exc E, st)) /\
  (existsb bad l = false -> exists vs, mapM f l st = (Ok vs, st)).
Proof.
  intros Hb Hg. induction l as [|x l IH]; [split; [discriminate|eexists; reflexivity]|].
  destruct IH as [IH1 IH2]; [intros; apply Hb; auto with datatypes|intros; apply Hg; auto with datatypes|].
  change (mapM f (x :: l)) with (b <- f x;; rest <- mapM f l;; ret (b :: rest)).
  cbn [existsb]. unfold bind. destruct (bad x) eqn:Ex; cbn [orb].
  - rewrite (Hb x (or_introl eq_refl) Ex). split; [reflexivity|discriminate].
  - destruct (Hg x (or_introl eq_refl) Ex) as [v Hfx]. rewrite Hfx. split.
    + intros H. rewrite (IH1 H). reflexivity.
    + intros H. destruct (IH2 H) as [vs Hv]. exists (v :: vs). rewrite Hv. reflexivity.
Qed.

Lemma render_window_shape w st :
  window_shape w ->
  (bad_window w = true -> render_window w st = (Exc none_not_iterable, st)) /\
  (bad_window w = false -> exists t, render_window w st = (Ok t, st)).
Proof.
  intros (i & n & b & info & -> & Hinfo).
  destruct Hinfo as [->|[[m ->]|(n' & a & p & l & c & ->)]]; cbn [bad_window dict_lookup String.eqb Ascii.eqb Bool.eqb andb].
  - split; [intros _; reflexivity|discriminate].
  - split; [discriminate|intros _; eexists; reflexivity].
  - split; [discriminate|intros _; eexists; reflexivity].
Qed.

Lemma render_session_shape s st :
  session_shape s ->
  (bad_session s = true -> render_session s st = (Exc none_not_iterable, st)) /\
  (bad_session s = false -> exists t, render_session s st = (Ok t, st)).
Proof.
  intros (n & b & ws & -> & Hws). cbn [bad_session dict_lookup String.eqb Ascii.eqb Bool.eqb andb].
  rewrite Forall_forall in Hws.
  destruct (mapM_pure render_window bad_window none_not_iterable ws st) as [H1 H2].
  - intros x Hx Hb. apply (proj1 (render_window_shape x st (Hws x Hx)) Hb).
  - intros x Hx Hb. apply (proj2 (render_window_shape x st (Hws x Hx)) Hb).
  - unfold render_session, bind, getitem, iter_list, ret. cbn [dict_lookup String.eqb Ascii.eqb Bool.eqb andb].
    split.
    + intros Hb. rewrite (H1 Hb). reflexivity.
    + intros Hb. destruct (H2 Hb) as [vs Hv]. rewrite Hv. eexists; reflexivity.
Qed.

Lemma infos_bad_window ws :
  Forall window_shape ws ->
  (In PNone (flat_map (fun w => match w with
                                | PDict wd => match dict_lookup wd "info" with Some i => [i] | None => [] end
                                | _ => []
                                end) ws) <-> existsb bad_window ws = true).
Proof.
  induction 1 as [|w ws (i & n & b & info & -> & Hinfo) _ IH]; [cbn; split; [tauto|discriminate]|].
  cbn [flat_map dict_lookup String.eqb Ascii.eqb Bool.eqb andb existsb bad_window]. rewrite in_app_iff, orb_true_iff, IH.
  cbn [In]. destruct info; intuition congruence.
Qed.

Lemma infos_bad_session t ss :
  Forall session_shape ss ->
  (In PNone (status_infos (PDict [("timestamp", PStr t); ("sessions", PList ss)])) <-> existsb bad_session ss = true).
Proof.
  intros Hss. unfold status_infos. cbn [dict_lookup String.eqb Ascii.eqb Bool.eqb andb].
  induction Hss as [|s ss (n & b & ws & -> & Hws) _ IH]; [cbn; split; [tauto|discriminate]|].
  cbn [flat_map dict_lookup String.eqb Ascii.eqb Bool.eqb andb existsb bad_session].
  rewrite in_app_iff, orb_true_iff, IH, infos_bad_window by exact Hws. tauto.
Qed.

(* ------------------------------------------------------------------ *)
(** ** Properties of the specification *)

(** C1 (run_persistent, handle_request), as amended.  Fed a standard
    input made of request lines that are not blank once stripped and that
    [json.loads] decodes without raising, the persistent mode of the wrapper reads all of it and exits with
    status 0, and the JSON lines it prints are exactly one response per
    request, in the order the requests were read.  Each response is
    [{"id": ..., "result": ...}] or [{"id": ..., "error": ...}] and carries
    the identifier of its request, [request.get('id')] ([None] for a request
    that is not a JSON object).  Plain text lines printed by the orchestrator
    (a capture warning, a tmux error) are not JSON and may come between the
    responses. *)
Theorem run_persistent_one_response_per_request tmux clock json_loads lines out lg :
  Forall (well_formed_line json_loads) lines ->
  exists rs,
    fst (run_persistent tmux clock json_loads wrapper_orchestrator (mkSt lines out lg)) = Ok 0 /\
    st_in (snd (run_persistent tmux clock json_loads wrapper_orchestrator (mkSt lines out lg))) = [] /\
    json_out (st_out (snd (run_persistent tmux clock json_loads wrapper_orchestrator (mkSt lines out lg)))) =
      (json_out out ++ rs)%list /\
    Forall2 (fun l r => exists v, json_loads (PyStr.strip l) = inl v /\ response_for v r) lines rs.
Proof.
  intros Hwf.
  destruct (persistent_loop_requests tmux clock json_loads wrapper_orchestrator eq_refl lines
              (mkSt lines out lg) (S (List.length lines)) eq_refl Hwf (Nat.lt_succ_diag_r _))
    as (rs & H1 & H2 & H3 & H4).
  exists rs. unfold run_persistent, catch, try_except, bind. cbn [st_in].
  destruct (persistent_loop tmux clock json_loads wrapper_orchestrator (S (List.length lines)) (mkSt lines out lg))
    as [[[]|e] st'];
    cbn [fst snd] in H1, H2, H3; [|discriminate].
  cbn [fst snd ret handle]. auto.
Qed.

(** C2 (get_tmux_sessions), as amended.  [get_tmux_sessions] never raises
    [CalledProcessError].  When [tmux list-sessions] exits with a non-zero
    status (no server running, say) it prints
    [Error getting tmux sessions: ...] and returns the empty list, the same
    value as for a host without sessions; when it exits with status 0 and a
    blank output it returns the empty list; a failure to launch [tmux] at
    all raises [OSError].  (A listing it cannot unpack, such as a window
    named [a:b], raises [ValueError]: see X2.) *)
Theorem get_tmux_sessions_failures tmux st :
  (forall e, fst (get_tmux_sessions tmux st) = Exc e -> is_called_process_error e = false) /\
  (forall rc o e, tmux (st_log st) list_sessions_args = Launched rc o e -> rc <> 0 ->
     get_tmux_sessions tmux st =
     (Ok [], mkSt (st_in st)
               (st_out st ++ [OutText ("Error getting tmux sessions: " ++
                                       exc_str (CalledProcessError rc list_sessions_args e true))])
               (st_log st ++ [EvRun list_sessions_args]))%list) /\
  (forall o e, tmux (st_log st) list_sessions_args = Launched 0 o e -> PyStr.strip o = EmptyString ->
     get_tmux_sessions tmux st = (Ok [], mkSt (st_in st) (st_out st) (st_log st ++ [EvRun list_sessions_args]))%list) /\
  (forall m, tmux (st_log st) list_sessions_args = LaunchFailed m ->
     get_tmux_sessions tmux st =
     (Exc (OSError m), mkSt (st_in st) (st_out st) (st_log st ++ [EvRun list_sessions_args]))%list).
Proof.
  split; [intros e; apply get_tmux_sessions_no_cpe|apply get_tmux_sessions_cases].
Qed.

(** C3 (run_persistent), as amended.  A line that is not blank once
    stripped and that [json.loads] rejects, whatever the exception, makes
    the persistent loop print exactly one JSON line, an error response
    whose identifier is [None]: [{"id": None, "error": "Invalid JSON
    request: ..."}] for a [JSONDecodeError], [{"id": None, "error":
    "Request handling error: ..."}] for another exception (a
    [RecursionError] on deep nesting).  Nothing else is printed, and the
    run goes on with the rest of the input exactly as a run started on
    that rest would. *)
Theorem run_persistent_malformed_line tmux clock json_loads self l rest out lg e :
  PyStr.strip l <> EmptyString -> json_loads (PyStr.strip l) = inr e ->
  run_persistent tmux clock json_loads self (mkSt (l :: rest) out lg) =
  run_persistent tmux clock json_loads self
    (mkSt rest (out ++ [OutJson (response_err PNone
                                   ((if is_json_decode_error e then "Invalid JSON request: "
                                     else "Request handling error: ") ++ exc_str e))])%list lg).
Proof.
  intros Hne Hv. apply run_persistent_step; [apply loop_body_malformed; assumption|reflexivity].
Qed.

(** C4 (PersistentTmuxWrapper.__init__, handle_request,
    send_keys_to_window), as amended.  The wrapper turns confirmation off
    for both of its entry points: its orchestrator has [safety_mode] set to
    [False], and [main], persistent or legacy, never prompts the operator,
    whatever the input and whatever [confirm] a request passes.  The prompt
    is only reachable through a [TmuxOrchestrator] used directly, whose
    [safety_mode] is [True] by default: there, sending non-empty keys to an
    existing window with a truthy [confirm] prompts the operator. *)
Theorem confirmation_outside_wrapper_only :
  safety_mode wrapper_orchestrator = false /\ safety_mode TmuxOrchestrator_init = true /\
  (forall tmux clock json_loads persistent method argv,
     Preserves no_prompt_step (main tmux clock json_loads persistent method argv)) /\
  (forall tmux s w keys confirm st o e,
     invalid_target s w = false -> py_truthy keys = true -> py_truthy confirm = true ->
     PyStr.has_char nul (target_of s w) = false ->
     tmux (st_log st) ["tmux"; "list-panes"; "-t"; target_of s w] = Launched 0 o e ->
     prompted (st_log (snd (send_keys_to_window tmux TmuxOrchestrator_init s w keys confirm st))) = true).
Proof.
  split; [reflexivity|split; [reflexivity|split]].
  - intros; apply np_main.
  - intros tmux s w keys confirm st o e Hi Hk Hc Ht H. exact (send_keys_prompts tmux s w keys confirm st o e Hi Hk Hc Ht H).
Qed.

(** C5 (capture_window_content), as amended.  For a line count [n <= 0],
    [capture_window_content] makes no tmux call, prints nothing and leaves
    the state as it was, and returns normally the text
    [Error: Number of lines must be positive] (or, when the session name or
    window index is invalid, which is checked first, the text
    [Error: Invalid session name or window index: ...]).  Over the RPC
    protocol this is a success response whose result is that text, not an
    error response. *)
Theorem capture_nonpositive_no_call tmux clock self s w n i st :
  n <= 0 ->
  capture_window_content tmux self s w (PInt n) st =
    (Ok (if invalid_target s w then "Error: Invalid session name or window index: " ++ target_of s w
         else "Error: Number of lines must be positive"), st) /\
  handle_request tmux clock self
    (PDict [("id", i); ("method", PStr "capture_window_content"); ("args", PList [s; w; PInt n])]) st =
    (Ok (response_ok i (PStr (if invalid_target s w
                              then "Error: Invalid session name or window index: " ++ target_of s w
                              else "Error: Number of lines must be positive"))), st).
Proof.
  intros Hn. pose proof (capture_nonpositive tmux self s w n st Hn) as H.
  split; [exact H|]. rewrite handle_request_capture, H. reflexivity.
Qed.

(** C6 (send_command_to_window), as amended.  When the text step succeeded
    and the [C-m] step then exits with a non-zero status,
    [send_command_to_window] prints [Error sending Enter key to ...] and
    returns [False], the value it returns for every other failure, without
    raising; over the RPC protocol the client gets a success response with
    result [false].  Only a failure to launch [tmux] for the [C-m] step
    propagates, as [OSError]. *)
Theorem send_command_submit_failure tmux clock self s w c confirm i st st1 :
  PyStr.startswith c "STATUS REQUEST:" = false -> c <> EmptyString ->
  send_keys_to_window tmux self s w (PStr c) confirm st = (Ok true, st1) ->
  PyStr.has_char nul (target_of s w) = false ->
  (forall rc o e, tmux (st_log st1) ["tmux"; "send-keys"; "-t"; target_of s w; "C-m"] = Launched rc o e ->
     rc <> 0 ->
     fst (send_command_to_window tmux self s w (PStr c) confirm st) = Ok false /\
     fst (handle_request tmux clock self
            (PDict [("id", i); ("method", PStr "send_command_to_window");
                    ("args", PList [s; w; PStr c; confirm])]) st) = Ok (response_ok i (PBool false))) /\
  (forall m, tmux (st_log st1) ["tmux"; "send-keys"; "-t"; target_of s w; "C-m"] = LaunchFailed m ->
     fst (send_command_to_window tmux self s w (PStr c) confirm st) = Exc (OSError m)).
Proof.
  intros Hst Hc Hsk Ht.
  assert (Htr : py_truthy (PStr c) = true) by (cbn; rewrite (proj2 (String.eqb_neq c EmptyString) Hc); reflexivity).
  destruct (send_command_submit tmux self s w (PStr c) confirm st st1 Htr Hsk Ht) as [Ha Hb].
  split; [|exact Hb].
  intros rc o e H Hrc. pose proof (Ha rc o e H Hrc) as Hf. split; [exact Hf|].
  rewrite handle_request_send_command by exact Hst.
  destruct (send_command_to_window tmux self s w (PStr c) confirm st) as [r st']. cbn in Hf |- *.
  rewrite Hf. reflexivity.
Qed.

(** C7 (send_command_to_window).  For a non-empty command, when the text
    step [send_keys_to_window] does not succeed (it returns [False] or
    raises), [send_command_to_window] ends exactly as that step does: same
    result or exception, same output, and no further tmux call, so the
    [C-m] step is never attempted. *)
Theorem send_command_first_step_failure tmux self s w command confirm st :
  py_truthy command = true ->
  fst (send_keys_to_window tmux self s w command confirm st) <> Ok true ->
  send_command_to_window tmux self s w command confirm st =
  send_keys_to_window tmux self s w command confirm st.
Proof. apply send_command_first_failure. Qed.

(** C8 (capture_window_content).  With [max_lines_capture] at 1000, a
    capture of 2000 lines returns the same result as a capture of 1000
    lines, reads the same input and makes the same tmux calls with the same
    arguments ([-S -1000]); it differs only by the printed warning
    [Warning: Limiting capture to 1000 lines] (none when the target is
    invalid and nothing is captured). *)
Theorem capture_clamp_same_call tmux self s w st :
  max_lines_capture self = 1000 ->
  fst (capture_window_content tmux self s w (PInt 2000) st) =
    fst (capture_window_content tmux self s w (PInt 1000) st) /\
  st_in (snd (capture_window_content tmux self s w (PInt 2000) st)) =
    st_in (snd (capture_window_content tmux self s w (PInt 1000) st)) /\
  st_log (snd (capture_window_content tmux self s w (PInt 2000) st)) =
    st_log (snd (capture_window_content tmux self s w (PInt 1000) st)) /\
  st_out (snd (capture_window_content tmux self s w (PInt 2000) st)) =
    (st_out (snd (capture_window_content tmux self s w (PInt 1000) st)) ++
     (if invalid_target s w then [] else [OutText "Warning: Limiting capture to 1000 lines"]))%list.
Proof. intros H. exact (capture_clamp tmux self s w st H). Qed.

(** C9 (capture_window_content, handle_request), as amended.  For a session
    name without NUL character, an integer window index and an integer line
    count, each failure the claim lists is reported in-band, as returned
    text beginning with [Error]: an invalid session name or window index,
    a line count that is not positive, a [list-panes] that exits with a
    non-zero status (missing target) and a [capture-pane] that exits with a
    non-zero status.  A [tmux] that cannot be launched is not reported
    in-band: [capture_window_content] raises [OSError].  Over the RPC
    protocol a returned text is the result of a success response and an
    exception the error of an error response. *)
Theorem capture_failures_in_band tmux clock self sn wi ni i st :
  PyStr.has_char nul sn = false ->
  let target := target_of (PStr sn) (PInt wi) in
  let lp := ["tmux"; "list-panes"; "-t"; target] in
  let cp := ["tmux"; "capture-pane"; "-t"; target; "-p"; "-S";
             "-" ++ PyStr.of_Z (Z.min ni (max_lines_capture self))] in
  let prefix := ("Error capturing content from " ++ target ++ ": ")%string in
  let r := fst (capture_window_content tmux self (PStr sn) (PInt wi) (PInt ni) st) in
  (invalid_target (PStr sn) (PInt wi) = true ->
     r = Ok ("Error: Invalid session name or window index: " ++ target)) /\
  (invalid_target (PStr sn) (PInt wi) = false -> ni <= 0 ->
     r = Ok "Error: Number of lines must be positive") /\
  (forall rc o e, invalid_target (PStr sn) (PInt wi) = false -> 0 < ni ->
     tmux (st_log st) lp = Launched rc o e -> rc <> 0 ->
     exists t, r = Ok t /\ PyStr.startswith t prefix = true) /\
  (forall o e rc' o' e', invalid_target (PStr sn) (PInt wi) = false -> 0 < ni ->
     tmux (st_log st) lp = Launched 0 o e ->
     tmux (st_log st ++ [EvRun lp])%list cp = Launched rc' o' e' -> rc' <> 0 ->
     exists t, r = Ok t /\ PyStr.startswith t prefix = true) /\
  (forall m, invalid_target (PStr sn) (PInt wi) = false -> 0 < ni ->
     tmux (st_log st) lp = LaunchFailed m -> r = Exc (OSError m)) /\
  handle_request tmux clock self
    (PDict [("id", i); ("method", PStr "capture_window_content"); ("args", PList [PStr sn; PInt wi; PInt ni])]) st =
  (match r with
   | Ok t => Ok (response_ok i (PStr t))
   | Exc e => Ok (response_err i (exc_str e))
   end, snd (capture_window_content tmux self (PStr sn) (PInt wi) (PInt ni) st)).
Proof.
  intros Hs target lp cp prefix r. pose proof (target_no_nul sn wi Hs) as Ht. unfold r.
  split; [intros Hi; unfold capture_window_content; rewrite Hi; reflexivity|].
  split; [intros Hi Hn; rewrite capture_nonpositive by exact Hn; rewrite Hi; reflexivity|].
  split.
  { intros rc o e Hi Hn H1 Hrc. rewrite capture_prefix by assumption. unfold catch, try_except, bind.
    rewrite run_str by nul_free. cbv zeta. cbn [st_log]. fold target lp. rewrite H1.
    apply Z.eqb_neq in Hrc. rewrite Hrc. cbn [andb negb handle is_called_process_error].
    eexists; split; [reflexivity|]. apply startswith_handler. }
  split.
  { intros o e rc' o' e' Hi Hn H1 H2 Hrc. rewrite capture_prefix by assumption.
    unfold catch, try_except, bind.
    rewrite run_str by nul_free. cbv zeta. cbn [st_log]. fold target lp. rewrite H1. cbn [andb negb Z.eqb].
    rewrite run_str by nul_free. cbv zeta. cbn [st_log]. fold target lp cp. rewrite H2.
    apply Z.eqb_neq in Hrc. rewrite Hrc. cbn [andb negb handle is_called_process_error].
    eexists; split; [reflexivity|]. apply startswith_handler. }
  split.
  { intros m Hi Hn H1. rewrite capture_prefix by assumption. unfold catch, try_except, bind.
    rewrite run_str by nul_free. cbv zeta. cbn [st_log]. fold target lp. rewrite H1. reflexivity. }
  rewrite handle_request_capture.
  destruct (capture_window_content tmux self (PStr sn) (PInt wi) (PInt ni) st) as [[t|e] st']; reflexivity.
Qed.

(** C10 (get_window_info, get_all_windows_status).  When [display-message]
    for a window exits with status 0 and a blank output,
    [get_window_info] returns [None] (the [if] has no [else]): no info
    record and no error record, and no capture is made.  The window entry
    [get_all_windows_status] builds for that window then holds
    ["info": None]. *)
Theorem get_window_info_blank_none tmux self session window st o e :
  PyStr.has_char nul (name session) = false ->
  tmux (st_log st) ["tmux"; "display-message"; "-t"; target_of (PStr (name session)) (PInt (window_index window));
                    "-p"; "#{window_name}:#{window_active}:#{window_panes}:#{window_layout}"] = Launched 0 o e ->
  PyStr.strip o = EmptyString ->
  get_window_info tmux self (PStr (name session)) (PInt (window_index window)) st =
    (Ok PNone, mkSt (st_in st) (st_out st)
                 (st_log st ++ [EvRun ["tmux"; "display-message"; "-t";
                                       target_of (PStr (name session)) (PInt (window_index window)); "-p";
                                       "#{window_name}:#{window_active}:#{window_panes}:#{window_layout}"]])%list) /\
  fst (window_status tmux self session window st) =
    Ok (PDict [("index", PInt (window_index window)); ("name", PStr (window_name window));
               ("active", PBool (active window)); ("info", PNone)]).
Proof.
  intros Hn H Ho. split.
  - exact (get_window_info_blank tmux self _ _ st o e (target_no_nul _ _ Hn) H Ho).
  - exact (window_status_blank tmux self session window st o e Hn H Ho).
Qed.

(* ------------------------------------------------------------------ *)
(** ** Further properties of the code *)

(** X1 (get_tmux_sessions).  On a tmux server that lists the sessions [ss]
    and their windows, with plain session names and flags and window names
    free of newlines and [:], [get_tmux_sessions] reads the listing back:
    it returns exactly the sessions and windows listed, in order, with the
    flags ["1"] read as true, prints nothing, and runs [list-sessions] and
    then one [list-windows] per session. *)
Theorem get_tmux_sessions_reads_listing tmux ss st :
  tmux_lists tmux ss -> plain_listing true ss = true ->
  get_tmux_sessions tmux st =
  (Ok (map listed_to_session ss),
   mkSt (st_in st) (st_out st)
     (st_log st ++ EvRun list_sessions_args :: map (fun s => EvRun (list_windows_args (ls_name s))) ss)%list).
Proof.
  intros [Hs Hw] Hp.
  rewrite get_tmux_sessions_unfold. unfold catch, try_except. cbv zeta. fold list_sessions_args.
  destruct (Hs (st_log st)) as [e0 H0]. rewrite H0. cbn [negb Z.eqb].
  destruct ss as [|s0 ss0]; [reflexivity|].
  unfold session_listing. rewrite split_strip_listing_ne.
  - rewrite forM_opt_map.
    rewrite (forM_opt_some _ listed_to_session
               (fun s st => mkSt (st_in st) (st_out st) (st_log st ++ [EvRun (list_windows_args (ls_name s))])%list)).
    + rewrite fold_left_log, <- app_assoc. reflexivity.
    + intros s st' Hin. destruct (plain_listing_parts _ s Hp Hin) as (Hn & Ha & Hws).
      destruct (Hw (st_log st') s Hin) as [e He].
      apply parse_session_line with (e := e); assumption.
  - discriminate.
  - apply Forall_forall. intros x Hx. apply in_map_iff in Hx as (s & <- & Hin).
    destruct (plain_listing_parts _ s Hp Hin) as (Hpn & Ha & _).
    destruct (plain_session_name_facts _ Hpn) as (_ & Hn & _ & _). split.
    + change (ls_name s ++ ":" ++ ls_attached s)%string with (ls_name s ++ String colon (ls_attached s))%string.
      rewrite has_char_app. cbn [PyStr.has_char]. rewrite Hn, (plain_flag_no nl _ Ha) by (left; reflexivity).
      reflexivity.
    + exists (ls_name s), (ls_attached s). split; [reflexivity|assumption].
  - cbn [map hd]. destruct (plain_listing_parts _ s0 Hp (or_introl eq_refl)) as (Hpn & _ & _).
    destruct (plain_session_name_facts _ Hpn) as (_ & _ & _ & Hh).
    destruct (ls_name s0) eqn:En; [reflexivity|]. apply hd_ok_app, Hh. discriminate.
Qed.

(** X2 (get_tmux_sessions).  If a listed window name contains [:],
    [get_tmux_sessions] raises [ValueError] (too many values to unpack):
    the error is not caught, so no session list is returned. *)
Theorem get_tmux_sessions_colon_in_window_name tmux ss st :
  tmux_lists tmux ss -> plain_listing false ss = true ->
  existsb (fun s => existsb (fun w => PyStr.has_char colon (lw_name w)) (ls_windows s)) ss = true ->
  fst (get_tmux_sessions tmux st) = Exc too_many_3.
Proof.
  intros [Hs Hw] Hp Hex.
  rewrite get_tmux_sessions_unfold. unfold catch, try_except. cbv zeta. fold list_sessions_args.
  destruct (Hs (st_log st)) as [e0 H0]. rewrite H0. cbn [negb Z.eqb].
  destruct ss as [|s0 ss0]; [discriminate|].
  unfold session_listing. rewrite split_strip_listing_ne.
  - rewrite forM_opt_map.
    assert (Hg : forall s st', In s (s0 :: ss0) ->
              existsb (fun w => PyStr.has_char colon (lw_name w)) (ls_windows s) = false ->
              exists b st'', parse_session tmux (ls_name s ++ ":" ++ ls_attached s) st' = (Ok b, st'')).
    { intros s st' Hin Hc. destruct (plain_listing_any_parts _ s Hp Hin) as (Hn & Ha & Hws).
      destruct (Hw (st_log st') s Hin) as [e He].
      eexists; eexists. apply parse_session_line with (e := e); try assumption.
      apply colon_free_windows; assumption. }
    assert (Hb : forall s st', In s (s0 :: ss0) ->
              existsb (fun w => PyStr.has_char colon (lw_name w)) (ls_windows s) = true ->
              exists st'', parse_session tmux (ls_name s ++ ":" ++ ls_attached s) st' = (Exc too_many_3, st'')).
    { intros s st' Hin Hc. destruct (plain_listing_any_parts _ s Hp Hin) as (Hn & Ha & Hws).
      destruct (Hw (st_log st') s Hin) as [e He].
      apply parse_session_colon with (e := e); assumption. }
    destruct (forM_opt_raise (fun s => parse_session tmux (ls_name s ++ ":" ++ ls_attached s))
                (fun s => existsb (fun w => PyStr.has_char colon (lw_name w)) (ls_windows s))
                too_many_3 (s0 :: ss0) Hg Hb Hex
                (mkSt (st_in st) (st_out st) (st_log st ++ [EvRun list_sessions_args])%list)) as [st' Hst'].
    rewrite Hst'. reflexivity.
  - discriminate.
  - apply Forall_forall. intros x Hx. apply in_map_iff in Hx as (s & <- & Hin).
    destruct (plain_listing_any_parts _ s Hp Hin) as (Hpn & Ha & _).
    destruct (plain_session_name_facts _ Hpn) as (_ & Hn & _ & _). split.
    + change (ls_name s ++ ":" ++ ls_attached s)%string with (ls_name s ++ String colon (ls_attached s))%string.
      rewrite has_char_app. cbn [PyStr.has_char]. rewrite Hn, (plain_flag_no nl _ Ha) by (left; reflexivity).
      reflexivity.
    + exists (ls_name s), (ls_attached s). split; [reflexivity|assumption].
  - cbn [map hd]. destruct (plain_listing_any_parts _ s0 Hp (or_introl eq_refl)) as (Hpn & _ & _).
    destruct (plain_session_name_facts _ Hpn) as (_ & _ & _ & Hh).
    destruct (ls_name s0) eqn:En; [reflexivity|]. apply hd_ok_app, Hh. discriminate.
Qed.

(** X3 (capture_window_content).  For a valid target and a positive line
    count, when [list-panes] and [capture-pane] succeed, the result is the
    output of [capture-pane], which is asked for [min n max_lines_capture]
    lines; the only text printed is the warning for a count above the
    limit, and exactly these two tmux commands are run. *)
Theorem capture_success tmux self sn wi n st o1 e1 o2 e2 :
  PyStr.has_char nul sn = false -> invalid_target (PStr sn) (PInt wi) = false -> 0 < n ->
  let lp := ["tmux"; "list-panes"; "-t"; target_of (PStr sn) (PInt wi)] in
  let cp := ["tmux"; "capture-pane"; "-t"; target_of (PStr sn) (PInt wi); "-p"; "-S";
             "-" ++ PyStr.of_Z (Z.min n (max_lines_capture self))] in
  tmux (st_log st) lp = Launched 0 o1 e1 ->
  tmux (st_log st ++ [EvRun lp])%list cp = Launched 0 o2 e2 ->
  capture_window_content tmux self (PStr sn) (PInt wi) (PInt n) st =
  (Ok o2, mkSt (st_in st) (st_out st ++ capture_warning self n) (st_log st ++ [EvRun lp; EvRun cp]))%list.
Proof.
  intros Hs Hi Hn lp cp H1 H2. pose proof (target_no_nul sn wi Hs) as Ht.
  rewrite capture_prefix by assumption. unfold catch, try_except, bind.
  rewrite run_str by (unfold lp; nul_free). cbv zeta. cbn [st_log]. fold lp. rewrite H1. cbn [andb negb Z.eqb].
  rewrite run_str.
  2: { rewrite !existsb_nul_cons by first [reflexivity|assumption]. cbn [existsb append PyStr.has_char].
       change (Ascii.eqb nul "-"%char) with false. rewrite of_Z_no_nul. reflexivity. }
  cbv zeta. cbn [st_log st_in st_out]. fold cp. rewrite H2. cbn [andb negb Z.eqb].
  rewrite <- app_assoc. reflexivity.
Qed.

(** X4 (capture_window_content).  For a valid target and a positive line
    count, when [list-panes] exits with a non-zero status, the content is
    never captured: the result is the text
    [Error capturing content from <target>: <error>], followed by the
    details of tmux's error output when there is any. *)
Theorem capture_missing_target tmux self sn wi n st rc o1 e1 :
  PyStr.has_char nul sn = false -> invalid_target (PStr sn) (PInt wi) = false -> 0 < n ->
  let lp := ["tmux"; "list-panes"; "-t"; target_of (PStr sn) (PInt wi)] in
  tmux (st_log st) lp = Launched rc o1 e1 -> rc <> 0 ->
  capture_window_content tmux self (PStr sn) (PInt wi) (PInt n) st =
  (Ok ("Error capturing content from " ++ target_of (PStr sn) (PInt wi) ++ ": " ++
       exc_str (CalledProcessError rc lp e1 false) ++
       (if String.eqb e1 EmptyString then EmptyString
        else String nl "Details: " ++ PyStr.bytes_repr e1))%string,
   mkSt (st_in st) (st_out st ++ capture_warning self n) (st_log st ++ [EvRun lp]))%list.
Proof.
  intros Hs Hi Hn lp H1 Hrc. pose proof (target_no_nul sn wi Hs) as Ht.
  rewrite capture_prefix by assumption. unfold catch, try_except, bind.
  rewrite run_str by (unfold lp; nul_free). cbv zeta. cbn [st_log]. fold lp. rewrite H1.
  apply Z.eqb_neq in Hrc. rewrite Hrc. cbn [andb negb handle is_called_process_error stderr_details].
  unfold ret. destruct (String.eqb e1 EmptyString).
  - rewrite append_empty_r. reflexivity.
  - rewrite <- !str_app_assoc. reflexivity.
Qed.

(** X5 (capture_window_content, send_keys_to_window,
    send_command_to_window).  For an invalid target (empty session name, or
    window index not a non-negative integer), none of the three runs a tmux
    command: capture returns the error text without printing, the other two
    print it and return [False]. *)
Theorem invalid_target_no_launch tmux self s w n keys command confirm st :
  invalid_target s w = true ->
  capture_window_content tmux self s w n st =
    (Ok ("Error: Invalid session name or window index: " ++ target_of s w), st) /\
  send_keys_to_window tmux self s w keys confirm st =
    (Ok false, mkSt (st_in st) (st_out st ++ [OutText ("Error: Invalid session name or window index: " ++
                                                       target_of s w)]) (st_log st))%list /\
  (py_truthy command = true ->
   send_command_to_window tmux self s w command confirm st =
    (Ok false, mkSt (st_in st) (st_out st ++ [OutText ("Error: Invalid session name or window index: " ++
                                                       target_of s w)]) (st_log st))%list).
Proof.
  intros Hi.
  assert (Hk : send_keys_to_window tmux self s w keys confirm st =
    (Ok false, mkSt (st_in st) (st_out st ++ [OutText ("Error: Invalid session name or window index: " ++
                                                       target_of s w)]) (st_log st))%list)
    by (unfold send_keys_to_window; rewrite Hi; reflexivity).
  split; [unfold capture_window_content; rewrite Hi; reflexivity|split; [exact Hk|]].
  intros Hc. unfold send_command_to_window. rewrite Hc. cbn [negb]. unfold bind at 1.
  assert (Hk' : send_keys_to_window tmux self s w command confirm st =
    (Ok false, mkSt (st_in st) (st_out st ++ [OutText ("Error: Invalid session name or window index: " ++
                                                       target_of s w)]) (st_log st))%list)
    by (unfold send_keys_to_window; rewrite Hi; reflexivity).
  rewrite Hk'. reflexivity.
Qed.

(** X6 (get_window_info).  When [display-message] succeeds with a non-blank
    reply that has fewer than four [:]-separated fields, [get_window_info]
    raises [IndexError] or [ValueError]; the exception is not caught and no
    content is captured. *)
Theorem get_window_info_short_reply tmux self s w st o e :
  PyStr.has_char nul (target_of s w) = false ->
  let dm := ["tmux"; "display-message"; "-t"; target_of s w; "-p";
             "#{window_name}:#{window_active}:#{window_panes}:#{window_layout}"] in
  tmux (st_log st) dm = Launched 0 o e ->
  PyStr.strip o <> EmptyString ->
  (List.length (PyStr.split ":" (PyStr.strip o)) < 4)%nat ->
  exists ex,
    get_window_info tmux self s w st = (Exc ex, mkSt (st_in st) (st_out st) (st_log st ++ [EvRun dm]))%list /\
    (ex = IndexError "list index out of range" \/ exists m, ex = ValueError m).
Proof.
  intros Ht dm H Hne Hlen. unfold get_window_info, catch, try_except, bind at 1.
  rewrite run_str by nul_free. cbv zeta. fold dm. rewrite H. cbn [andb negb Z.eqb cp_stdout].
  apply String.eqb_neq in Hne. rewrite Hne.
  pose proof (split_nonempty ":" (PyStr.strip o)) as Hsne.
  destruct (PyStr.split ":" (PyStr.strip o)) as [|a [|b [|c [|d r]]]]; cbn [List.length] in Hlen;
    [exfalso; apply Hsne; reflexivity| | | |lia].
  - eexists; split; [reflexivity|left; reflexivity].
  - eexists; split; [reflexivity|left; reflexivity].
  - unfold bind, list_index, py_int. cbn [nth_error]. unfold ret. cbv beta iota.
    destruct (PyStr.int_of_string c).
    + eexists; split; [reflexivity|left; reflexivity].
    + eexists; split; [reflexivity|right; eexists; reflexivity].
Qed.

(** X7 (send_keys_to_window).  With confirmation off, truthy keys that are
    not a string (a number, say) pass the validation and the existence
    check, then make [send-keys] raise [TypeError] when the command is
    built: the keys are never sent. *)
Theorem send_keys_non_string_keys tmux self s w keys confirm st o e :
  safety_mode self = false -> invalid_target s w = false -> py_truthy keys = true ->
  (forall k, keys <> PStr k) ->
  PyStr.has_char nul (target_of s w) = false ->
  tmux (st_log st) ["tmux"; "list-panes"; "-t"; target_of s w] = Launched 0 o e ->
  send_keys_to_window tmux self s w keys confirm st =
  (Exc (TypeError ("expected str, bytes or os.PathLike object, not " ++ py_type_name keys)),
   mkSt (st_in st) (st_out st) (st_log st ++ [EvRun ["tmux"; "list-panes"; "-t"; target_of s w]])%list).
Proof.
  intros Hs Hi Hk Hstr Ht H. unfold send_keys_to_window. rewrite Hi, Hk. cbn [negb].
  unfold catch, try_except. unfold bind at 1 2. rewrite run_str by nul_free. cbv zeta.
  rewrite H. cbn [andb negb Z.eqb]. unfold ret at 1. cbv beta iota. rewrite Hs. cbn [andb].
  unfold ret at 1, bind. cbn [negb]. unfold run. cbn [all_pstr].
  destruct keys; try (exfalso; eapply Hstr; reflexivity); reflexivity.
Qed.

(** X8 (send_keys_to_window).  With [safety_mode] on and a truthy
    [confirm], the orchestrator shows the keys and asks for confirmation
    after checking the target: at end of input it raises [EOFError];
    an answer other than [yes] (any case) prints [Operation cancelled] and
    returns [False] without sending; [yes] sends the keys and returns
    [True]. *)
Theorem send_keys_confirmation tmux self s w keys confirm st o e :
  safety_mode self = true -> invalid_target s w = false -> py_truthy keys = true -> py_truthy confirm = true ->
  PyStr.has_char nul (target_of s w) = false ->
  let lp := ["tmux"; "list-panes"; "-t"; target_of s w] in
  let shown := [OutText ("SAFETY CHECK: About to send '" ++ py_str keys ++ "' to " ++ target_of s w);
                OutText "Confirm? (yes/no): "] in
  tmux (st_log st) lp = Launched 0 o e ->
  (st_in st = [] ->
   send_keys_to_window tmux self s w keys confirm st =
   (Exc (EOFError "EOF when reading a line"),
    mkSt [] (st_out st ++ shown) (st_log st ++ [EvRun lp; EvInput "Confirm? (yes/no): "])))%list /\
  (forall a rest, st_in st = a :: rest -> PyStr.lower (rstrip_newline a) <> "yes" ->
   send_keys_to_window tmux self s w keys confirm st =
   (Ok false, mkSt rest (st_out st ++ shown ++ [OutText "Operation cancelled"])
                        (st_log st ++ [EvRun lp; EvInput "Confirm? (yes/no): "])))%list /\
  (forall a rest k o2 e2, st_in st = a :: rest -> PyStr.lower (rstrip_newline a) = "yes" ->
   keys = PStr k -> PyStr.has_char nul k = false ->
   let sk := ["tmux"; "send-keys"; "-t"; target_of s w; k] in
   tmux (st_log st ++ [EvRun lp; EvInput "Confirm? (yes/no): "])%list sk = Launched 0 o2 e2 ->
   send_keys_to_window tmux self s w keys confirm st =
   (Ok true, mkSt rest (st_out st ++ shown) (st_log st ++ [EvRun lp; EvInput "Confirm? (yes/no): "; EvRun sk])))%list.
Proof.
  intros Hs Hi Hk Hc Ht lp shown H.
  rewrite (send_keys_checked tmux self s w keys confirm st o e Hi Hk Ht H), Hs, Hc. cbn [andb].
  split; [|split].
  - intros Hin. unfold bind, print_text, input. cbn [st_in st_out st_log]. rewrite Hin.
    rewrite <- !app_assoc. reflexivity.
  - intros a rest Hin Hno. apply String.eqb_neq in Hno.
    unfold bind, print_text, input, ret. cbn [st_in st_out st_log]. rewrite Hin. cbv beta iota.
    rewrite Hno. cbn [negb st_in st_out st_log]. rewrite <- !app_assoc. reflexivity.
  - intros a rest k o2 e2 Hin Hyes -> Hnk H2. unfold lp in H2.
    unfold bind at 1 2 3 4 5, print_text, input, ret. cbn [st_in st_out st_log]. rewrite Hin. cbv beta iota.
    rewrite Hyes. cbn [String.eqb Ascii.eqb Bool.eqb andb negb].
    unfold catch, try_except, bind.
    change [PStr "tmux"; PStr "send-keys"; PStr "-t"; PStr (target_of s w); PStr k]
      with (tmux_str ["tmux"; "send-keys"; "-t"; target_of s w; k]).
    rewrite run_str by nul_free. cbv zeta. cbn [st_log st_in st_out].
    rewrite <- !app_assoc. cbn [app]. rewrite H2. reflexivity.
Qed.

(** X9 (send_command_to_window).  With confirmation off, when every tmux call
    succeeds, a non-empty command is sent by exactly three calls, in order:
    [list-panes], [send-keys] with the text, [send-keys C-m]; the result is
    [True] and nothing is printed. *)
Theorem send_command_success tmux self s w c confirm st o1 e1 o2 e2 o3 e3 :
  safety_mode self = false -> invalid_target s w = false -> c <> EmptyString ->
  PyStr.has_char nul c = false -> PyStr.has_char nul (target_of s w) = false ->
  let lp := ["tmux"; "list-panes"; "-t"; target_of s w] in
  let sk := ["tmux"; "send-keys"; "-t"; target_of s w; c] in
  let cm := ["tmux"; "send-keys"; "-t"; target_of s w; "C-m"] in
  tmux (st_log st) lp = Launched 0 o1 e1 ->
  tmux (st_log st ++ [EvRun lp])%list sk = Launched 0 o2 e2 ->
  tmux (st_log st ++ [EvRun lp; EvRun sk])%list cm = Launched 0 o3 e3 ->
  send_command_to_window tmux self s w (PStr c) confirm st =
  (Ok true, mkSt (st_in st) (st_out st) (st_log st ++ [EvRun lp; EvRun sk; EvRun cm]))%list.
Proof.
  intros Hs Hi Hc Hnc Ht lp sk cm H1 H2 H3.
  assert (Hk : py_truthy (PStr c) = true)
    by (cbn; rewrite (proj2 (String.eqb_neq c EmptyString) Hc); reflexivity).
  unfold send_command_to_window. rewrite Hk. cbn [negb]. unfold bind at 1.
  rewrite (send_keys_checked tmux self s w (PStr c) confirm st o1 e1 Hi Hk Ht H1), Hs. cbn [andb].
  unfold bind at 1, ret at 1. cbv beta iota. cbn [negb]. unfold catch at 1, try_except at 1, bind at 1.
  change [PStr "tmux"; PStr "send-keys"; PStr "-t"; PStr (target_of s w); PStr c] with (tmux_str sk).
  rewrite run_str by (unfold sk; nul_free). cbv zeta. cbn [st_log st_in st_out]. fold lp. rewrite H2.
  cbn [andb negb Z.eqb]. unfold ret. cbv beta iota. cbn [negb].
  unfold catch, try_except, bind, submit_cmd. fold cm.
  rewrite run_str by (unfold cm; nul_free). cbv zeta. cbn [st_log st_in st_out].
  rewrite <- app_assoc. cbn [app]. rewrite H3. cbn [andb negb Z.eqb]. rewrite <- app_assoc. reflexivity.
Qed.

(** X10 (get_all_windows_status).  When [list-sessions] exits with a
    non-zero status, the status is a time stamp with an empty session list;
    the only output is the error line of [get_tmux_sessions]. *)
Theorem get_all_windows_status_no_server tmux clock self st rc o e :
  tmux (st_log st) list_sessions_args = Launched rc o e -> rc <> 0 ->
  get_all_windows_status tmux clock self st =
  (Ok (PDict [("timestamp", PStr (isoformat (clock (st_log st ++ [EvRun list_sessions_args]))));
              ("sessions", PList [])]),
   mkSt (st_in st)
     (st_out st ++ [OutText ("Error getting tmux sessions: " ++
                             exc_str (CalledProcessError rc list_sessions_args e true))])
     (st_log st ++ [EvRun list_sessions_args; EvNow]))%list.
Proof.
  intros H Hrc. unfold get_all_windows_status, bind at 1.
  rewrite (proj1 (get_tmux_sessions_cases tmux st) rc o e H Hrc).
  unfold bind, now, ret. cbn. rewrite <- app_assoc. reflexivity.
Qed.

(** X11 (find_window_by_name).  For a string name, the result lists
    [(session name, window index)] for every window whose name contains the
    name, case-insensitively, in the order of sessions and windows; no
    command is run besides those of [get_tmux_sessions]. *)
Theorem find_window_by_name_matches tmux self n st ss st1 :
  get_tmux_sessions tmux st = (Ok ss, st1) ->
  find_window_by_name tmux self (PStr n) st =
  (Ok (flat_map (fun s => map (fun w => (name s, window_index w))
                             (filter (fun w => PyStr.contains (PyStr.lower n) (PyStr.lower (window_name w)))
                                     (windows s))) ss), st1).
Proof.
  intros Hg. unfold find_window_by_name, bind at 1. rewrite Hg. unfold bind.
  assert (E : forall st', mapM (fun session =>
      forM_opt (fun window =>
          needle <- py_lower (PStr n);;
          ret (if PyStr.contains needle (PyStr.lower (window_name window))
               then Some (name session, window_index window) else None))
        (windows session)) ss st' =
      (Ok (map (fun s => map (fun w => (name s, window_index w))
                             (filter (fun w => PyStr.contains (PyStr.lower n) (PyStr.lower (window_name w)))
                                     (windows s))) ss), st')).
  { clear Hg. induction ss as [|s ss IH]; intros st'; [reflexivity|]. cbn [mapM]. unfold bind at 1.
    rewrite find_in_windows_str. unfold bind. rewrite IH. reflexivity. }
  rewrite E. unfold ret. rewrite flat_map_concat_map. reflexivity.
Qed.

(** X12 (find_window_by_name).  A name that is not a string raises
    [AttributeError] ([.lower]) as soon as there is a window to compare; with
    no window at all the result is the empty list. *)
Theorem find_window_by_name_non_string tmux self v st ss st1 :
  get_tmux_sessions tmux st = (Ok ss, st1) -> (forall k, v <> PStr k) ->
  find_window_by_name tmux self v st =
  (if existsb (fun s => match windows s with [] => false | _ :: _ => true end) ss
   then Exc (AttributeError ("'" ++ py_type_name v ++ "' object has no attribute 'lower'"))
   else Ok [], st1).
Proof.
  intros Hg Hv. unfold find_window_by_name, bind at 1. rewrite Hg.
  assert (Hl : forall st', py_lower v st' = (Exc (AttributeError ("'" ++ py_type_name v ++ "' object has no attribute 'lower'")), st'))
    by (intros st'; destruct v; try (exfalso; eapply Hv; reflexivity); reflexivity).
  clear Hg. revert st1. induction ss as [|s ss IH]; intros st1; [reflexivity|].
  cbn [mapM existsb]. unfold bind at 1 2.
  destruct (windows s) as [|w ws] eqn:Ew; cbn [forM_opt orb].
  - unfold ret at 1. cbv beta iota. specialize (IH st1).
    unfold bind at 1 in IH. unfold bind at 1.
    destruct (mapM _ ss st1) as [[r|e] st2] eqn:Em; cbn [fst snd] in IH |- *;
      destruct (existsb _ ss); unfold ret in IH |- *; injection IH; intros; subst; try discriminate; try reflexivity; cbn [concat app]; congruence.
  - unfold bind. rewrite Hl. reflexivity.
Qed.

(** X13 (create_monitoring_snapshot).  The snapshot fails with [TypeError]
    exactly when some window info of the status is [None] (a blank
    [display-message] reply); otherwise it returns a text.  Rendering
    neither prints nor runs anything beyond [get_all_windows_status]. *)
Theorem snapshot_none_info tmux clock self st status st1 :
  get_all_windows_status tmux clock self st = (Ok status, st1) ->
  (In PNone (status_infos status) ->
   create_monitoring_snapshot tmux clock self st = (Exc (TypeError "argument of type 'NoneType' is not iterable"), st1)) /\
  (~ In PNone (status_infos status) -> exists text, create_monitoring_snapshot tmux clock self st = (Ok text, st1)).
Proof.
  intros H. destruct (get_all_windows_status_shape tmux clock self st status st1 H) as (t & ss & -> & Hss).
  rewrite (infos_bad_session t ss Hss). rewrite Forall_forall in Hss.
  destruct (mapM_pure render_session bad_session none_not_iterable ss st1) as [H1 H2].
  - intros x Hx Hb. apply (proj1 (render_session_shape x st1 (Hss x Hx)) Hb).
  - intros x Hx Hb. apply (proj2 (render_session_shape x st1 (Hss x Hx)) Hb).
  - unfold create_monitoring_snapshot, bind. rewrite H.
    unfold getitem, iter_list, ret. cbn [dict_lookup String.eqb Ascii.eqb Bool.eqb andb].
    split.
    + intros Hb. rewrite (H1 Hb). reflexivity.
    + intros Hb. apply not_true_is_false in Hb. destruct (H2 Hb) as [vs Hv]. rewrite Hv.
      eexists; reflexivity.
Qed.

(** X14 (handle_status_request).  When no session has the given name, or
    it has no window with the given index, [handle_status_request] returns
    [False] after listing the sessions, without sending anything. *)
Theorem handle_status_request_no_target tmux clock self s w st ss st1 :
  get_tmux_sessions tmux st = (Ok ss, st1) ->
  (find (fun x => py_eq_str s (name x)) ss = None \/
   exists x, find (fun x => py_eq_str s (name x)) ss = Some x /\
             find (fun y => py_eq_int w (window_index y)) (windows x) = None) ->
  handle_status_request tmux clock self s w st = (Ok false, st1).
Proof.
  intros Hg Hf. unfold handle_status_request, catch, try_except, bind at 1. rewrite Hg.
  destruct Hf as [->|(x & -> & ->)]; reflexivity.
Qed.

(** X15 (handle_status_request).  For an existing window, the orchestrator
    reads the clock once, sends [C-c] whatever its exit status, then sends
    [echo '<status>'] with [C-m]; the result is [True] when this last call
    exits with status 0, otherwise an error line is printed and the result
    is [False]. *)
Theorem handle_status_request_sends tmux clock self s w st ss st1 x y rc o e rc2 o2 e2 :
  get_tmux_sessions tmux st = (Ok ss, st1) ->
  find (fun x => py_eq_str s (name x)) ss = Some x ->
  find (fun y => py_eq_int w (window_index y)) (windows x) = Some y ->
  PyStr.has_char nul (target_of s w) = false ->
  (forall lg, tmux lg ["tmux"; "send-keys"; "-t"; target_of s w; "C-c"] = Launched rc o e) ->
  (forall lg t, tmux lg ["tmux"; "send-keys"; "-t"; target_of s w; "echo '" ++ t ++ "'"; "C-m"] = Launched rc2 o2 e2) ->
  exists t,
    let echo := ["tmux"; "send-keys"; "-t"; target_of s w; "echo '" ++ t ++ "'"; "C-m"] in
    handle_status_request tmux clock self s w st =
    (Ok (rc2 =? 0),
     mkSt (st_in st1)
       (st_out st1 ++ (if rc2 =? 0 then []
                       else [OutText ("Error handling status request: " ++
                                      exc_str (CalledProcessError rc2 echo e2 true))]))
       (st_log st1 ++ [EvNow; EvRun ["tmux"; "send-keys"; "-t"; target_of s w; "C-c"]; EvRun echo]))%list.
Proof.
  intros Hg Hs Hw Ht Hc He.
  destruct (generate_status_response_run clock (detect_window_role (window_name y) w) st1) as (t & Hgen & Hn).
  exists t. cbv zeta. unfold handle_status_request, catch, try_except, bind at 1. rewrite Hg.
  cbv beta iota. rewrite Hs, Hw. unfold bind at 1. rewrite Hgen. cbv beta iota.
  unfold bind at 1. rewrite run_str by nul_free. cbv zeta. rewrite Hc. cbn [andb].
  unfold bind. rewrite run_str.
  2: { cbn [existsb]. rewrite Ht. cbn [PyStr.has_char orb append Ascii.eqb].
       rewrite has_char_app, Hn. reflexivity. }
  cbv zeta. rewrite He. cbn [st_log st_in st_out]. rewrite <- !app_assoc. cbn [app].
  destruct (rc2 =? 0); cbn [andb negb]; [rewrite app_nil_r; reflexivity|].
  reflexivity.
Qed.

(** X16 (_detect_window_role, _generate_status_response).  The status
    generated for a detected role is ["[" ^ time ^ body] with [body] one of
    the project manager, QA and developer texts: the [AGENT STATUS] text is
    never produced this way.  The clock is read once. *)
Theorem status_response_of_detected_role clock n w st :
  exists body, In body status_bodies /\
    generate_status_response clock (detect_window_role n w) st =
    (Ok ("[" ++ strftime_hms (clock (st_log st)) ++ body),
     mkSt (st_in st) (st_out st) (st_log st ++ [EvNow])%list).
Proof.
  unfold generate_status_response, detect_window_role, bind, now, ret. cbn [st_log].
  destruct (_ || _ || _); [exists (hd EmptyString status_bodies); split; [left; reflexivity|reflexivity]|].
  destruct (_ || _ || _); [exists (nth 1 status_bodies EmptyString); split; [right; left; reflexivity|reflexivity]|].
  destruct (_ || _ || _); exists (nth 2 status_bodies EmptyString); (split; [right; right; left; reflexivity|reflexivity]).
Qed.

(** X17 (tmux_utils.py [__main__]).  The script exits with status 0 or 1:
    1 with [Unexpected error: ...] when [tmux] cannot be launched, 1 with
    the two installation hints when [tmux -V] fails, and 0 after printing
    the JSON status when [tmux -V] succeeds and the status is built. *)
Theorem utils_main_exit_status tmux clock st :
  let st1 := mkSt (st_in st) (st_out st) (st_log st ++ [EvRun ["tmux"; "-V"]])%list in
  (fst (utils_main tmux clock st) = Ok 0 \/ fst (utils_main tmux clock st) = Ok 1) /\
  (forall m, tmux (st_log st) ["tmux"; "-V"] = LaunchFailed m ->
     utils_main tmux clock st = (Ok 1, mkSt (st_in st1) (st_out st1 ++ [OutText ("Unexpected error: " ++ m)]) (st_log st1))%list) /\
  (forall rc o e, tmux (st_log st) ["tmux"; "-V"] = Launched rc o e -> rc <> 0 ->
     utils_main tmux clock st =
     (Ok 1, mkSt (st_in st1) (st_out st1 ++ [OutText "Error: tmux is not installed or not accessible";
                                              OutText "Please install tmux to use this utility"]) (st_log st1))%list) /\
  (forall o e status st2, tmux (st_log st) ["tmux"; "-V"] = Launched 0 o e ->
     get_all_windows_status tmux clock TmuxOrchestrator_init st1 = (Ok status, st2) ->
     utils_main tmux clock st = (Ok 0, mkSt (st_in st2) (st_out st2 ++ [OutJson status]) (st_log st2))%list).
Proof.
  intros st1.
  assert (E : utils_main tmux clock st =
    match tmux (st_log st) ["tmux"; "-V"] with
    | LaunchFailed m => (Ok 1, mkSt (st_in st1) (st_out st1 ++ [OutText ("Unexpected error: " ++ m)]) (st_log st1))%list
    | Launched rc o e =>
        if negb (rc =? 0) then
          (Ok 1, mkSt (st_in st1) (st_out st1 ++ [OutText "Error: tmux is not installed or not accessible";
                                                   OutText "Please install tmux to use this utility"]) (st_log st1))%list
        else match get_all_windows_status tmux clock TmuxOrchestrator_init st1 with
             | (Ok status, st2) => (Ok 0, mkSt (st_in st2) (st_out st2 ++ [OutJson status]) (st_log st2))%list
             | (Exc ex, st2) =>
                 if is_called_process_error ex then
                   (Ok 1, mkSt (st_in st2) (st_out st2 ++ [OutText "Error: tmux is not installed or not accessible";
                                                           OutText "Please install tmux to use this utility"]) (st_log st2))%list
                 else (Ok 1, mkSt (st_in st2) (st_out st2 ++ [OutText ("Unexpected error: " ++ exc_str ex)]) (st_log st2))%list
             end
    end).
  { unfold utils_main, try_except. unfold bind at 1. rewrite run_str by reflexivity. cbv zeta. fold st1.
    destruct (tmux (st_log st) ["tmux"; "-V"]) as [rc o e|m]; [|cbn; reflexivity].
    cbn [andb]. destruct (negb (rc =? 0)); [cbn; rewrite <- app_assoc; reflexivity|].
    unfold bind. destruct (get_all_windows_status tmux clock TmuxOrchestrator_init st1) as [[s|ex] st2]; cbn.
    - reflexivity.
    - destruct (is_called_process_error ex); cbn; rewrite <- ?app_assoc; reflexivity. }
  rewrite E. split; [|split; [|split]].
  - destruct (tmux (st_log st) ["tmux"; "-V"]) as [rc o e|m]; [|right; reflexivity].
    destruct (negb (rc =? 0)); [right; reflexivity|].
    destruct (get_all_windows_status tmux clock TmuxOrchestrator_init st1) as [[s|ex] st2]; auto.
    destruct (is_called_process_error ex); auto.
  - intros m H. rewrite H. reflexivity.
  - intros rc o e H Hrc. rewrite H. apply Z.eqb_neq in Hrc. rewrite Hrc. reflexivity.
  - intros o e status st2 H Hs. rewrite H. cbn [negb Z.eqb]. rewrite Hs. reflexivity.
Qed.

(** X18 (handle_request).  A request object whose method is not one of the
    nine names (missing, not a string, or unknown) gets the error response
    [Unknown method: <method>] with the request's [id], and nothing is run
    or printed. *)
Theorem handle_request_unknown_method tmux clock self d st :
  (forall s, dict_get d "method" PNone = PStr s -> ~ In s rpc_methods) ->
  handle_request tmux clock self (PDict d) st =
  (Ok (response_err (dict_get d "id" PNone) ("Unknown method: " ++ py_str (dict_get d "method" PNone))), st).
Proof.
  intros Hm. unfold handle_request, catch, try_except, bind, py_get, ret. fold (dict_get d "method" PNone).
  fold (dict_get d "args" (PList [])). fold (dict_get d "id" PNone).
  rewrite dispatch_unknown by exact Hm. reflexivity.
Qed.

(** X19 (handle_request).  With fewer arguments than a method needs (two for
    capture and window info, three for sending keys or a command, one for
    [find_window_by_name]) the response is the error
    [Missing arguments for <method>] (resp. [Missing window name argument]),
    and nothing is run or printed. *)
Theorem handle_request_missing_args tmux clock self i m k l st :
  In (m, k) [("capture_window_content", 2%nat); ("get_window_info", 2%nat);
             ("send_keys_to_window", 3%nat); ("send_command_to_window", 3%nat)] ->
  (List.length l < k)%nat ->
  handle_request tmux clock self (PDict [("id", i); ("method", PStr m); ("args", PList l)]) st =
  (Ok (response_err i ("Missing arguments for " ++ m)), st) /\
  handle_request tmux clock self (PDict [("id", i); ("method", PStr "find_window_by_name"); ("args", PList [])]) st =
  (Ok (response_err i "Missing window name argument"), st).
Proof.
  intros Hin Hl. split; [|reflexivity].
  destruct Hin as [E|[E|[E|[E|[]]]]]; injection E as <- <-;
    (destruct l as [|a [|b [|c l]]]; cbn in Hl; try lia; reflexivity).
Qed.

(** X20 (run_persistent, handle_request).  A line that decodes to JSON
    that is not an object gets the response
    [{"id": None, "error": "Request handling error: '<type>' object has no attribute 'get'"}]:
    [handle_request]'s own handler fails on [request.get('id')].  The
    run then goes on with the rest of the input. *)
Theorem run_persistent_non_object_request tmux clock json_loads self l rest out lg v :
  PyStr.strip l <> EmptyString -> json_loads (PyStr.strip l) = inl v -> (forall d, v <> PDict d) ->
  run_persistent tmux clock json_loads self (mkSt (l :: rest) out lg) =
  run_persistent tmux clock json_loads self
    (mkSt rest (out ++ [OutJson (response_err PNone
       ("Request handling error: '" ++ py_type_name v ++ "' object has no attribute 'get'"))])%list lg).
Proof.
  intros Hne Hv Hnd. apply run_persistent_step; [|reflexivity].
  assert (Hl : String.eqb l EmptyString = false).
  { apply String.eqb_neq. intros ->. apply Hne, strip_empty. }
  assert (Hl' : String.eqb (PyStr.strip l) EmptyString = false) by (apply String.eqb_neq; exact Hne).
  unfold loop_body, try_except, bind, readline. cbn [st_in]. rewrite Hl. cbv beta iota.
  rewrite Hl'. unfold json_loads_m. rewrite Hv. unfold ret at 1.
  rewrite handle_request_non_dict by exact Hnd. reflexivity.
Qed.

(** X21 (run_persistent).  Fed any lines (none empty, as [readline] returns
    them before end of input), the persistent mode reads everything and
    exits with status 0; its JSON output is one line per non-blank input
    line, in order: the response to the decoded request, or, for a line
    [json.loads] rejects, an error response with identifier [None]
    ([Invalid JSON request: ...] for a [JSONDecodeError],
    [Request handling error: ...] for another exception). *)
Theorem run_persistent_answers tmux clock json_loads lines out lg :
  Forall (fun l => l <> EmptyString) lines ->
  exists rs,
    fst (run_persistent tmux clock json_loads wrapper_orchestrator (mkSt lines out lg)) = Ok 0 /\
    st_in (snd (run_persistent tmux clock json_loads wrapper_orchestrator (mkSt lines out lg))) = [] /\
    json_out (st_out (snd (run_persistent tmux clock json_loads wrapper_orchestrator (mkSt lines out lg)))) =
      (json_out out ++ rs)%list /\
    Forall2 (answers json_loads) (filter (fun l => negb (blank l)) lines) rs.
Proof.
  intros Hne.
  destruct (persistent_loop_answers tmux clock json_loads wrapper_orchestrator eq_refl lines
              (mkSt lines out lg) (S (List.length lines)) eq_refl Hne (Nat.lt_succ_diag_r _))
    as (rs & H1 & H2 & H3 & H4).
  exists rs. unfold run_persistent, catch, try_except, bind. cbn [st_in].
  destruct (persistent_loop tmux clock json_loads wrapper_orchestrator (S (List.length lines)) (mkSt lines out lg))
    as [[[]|e] st'];
    cbn [fst snd] in H1, H2, H3; [|discriminate].
  cbn [fst snd ret handle]. auto.
Qed.

(** X22 (run_legacy).  The legacy mode prints exactly one JSON line more than
    [handle_request] does: the result, with exit status 0, or
    [{"error": ...}], with exit status 1. *)
Theorem run_legacy_one_json_line tmux clock self m args st :
  exists key body st1,
    handle_request tmux clock self (PDict [("id", PStr "legacy"); ("method", PStr m); ("args", PList args)]) st =
    (Ok (PDict [("id", PStr "legacy"); (key, body)]), st1) /\
    ((key = "result" /\
      run_legacy tmux clock self m args st = (Ok 0, mkSt (st_in st1) (st_out st1 ++ [OutJson body]) (st_log st1))%list) \/
     (key = "error" /\
      run_legacy tmux clock self m args st =
      (Ok 1, mkSt (st_in st1) (st_out st1 ++ [OutJson (PDict [("error", body)])]) (st_log st1))%list)).
Proof.
  destruct (handle_request_legacy tmux clock self m args st) as (key & body & st1 & H & Hk).
  exists key, body, st1. split; [exact H|].
  unfold run_legacy, bind. rewrite H.
  destruct Hk as [->| ->]; [left|right]; split; reflexivity.
Qed.

(* ------------------------------------------------------------------ *)
(** ** Witnesses: the properties at concrete inputs *)

Lemma run_persistent_one_response_per_request_witness :
  Forall (well_formed_line Demo.json_loads) ["REQ1"; "REQ2"] /\
  exists rs,
    fst (run_persistent Demo.tmux Demo.clock Demo.json_loads wrapper_orchestrator (mkSt ["REQ1"; "REQ2"] [] [])) = Ok 0 /\
    st_in (snd (run_persistent Demo.tmux Demo.clock Demo.json_loads wrapper_orchestrator (mkSt ["REQ1"; "REQ2"] [] []))) = [] /\
    json_out (st_out (snd (run_persistent Demo.tmux Demo.clock Demo.json_loads wrapper_orchestrator
                             (mkSt ["REQ1"; "REQ2"] [] [])))) = (json_out [] ++ rs)%list /\
    Forall2 (fun l r => exists v, Demo.json_loads (PyStr.strip l) = inl v /\ response_for v r) ["REQ1"; "REQ2"] rs.
Proof.
  assert (W1 : well_formed_line Demo.json_loads "REQ1")
    by (split; [vm_compute; discriminate|eexists; vm_compute; reflexivity]).
  assert (W2 : well_formed_line Demo.json_loads "REQ2")
    by (split; [vm_compute; discriminate|eexists; vm_compute; reflexivity]).
  assert (H : Forall (well_formed_line Demo.json_loads) ["REQ1"; "REQ2"])
    by (apply Forall_cons; [exact W1|apply Forall_cons; [exact W2|apply Forall_nil]]).
  split; [exact H|].
  exact (run_persistent_one_response_per_request Demo.tmux Demo.clock Demo.json_loads ["REQ1"; "REQ2"] [] [] H).
Defined.

Lemma run_persistent_malformed_line_witness :
  PyStr.strip "bad" <> EmptyString /\ Demo.json_loads (PyStr.strip "bad") = inr (JSONDecodeError Demo.malformed) /\
  run_persistent Demo.tmux Demo.clock Demo.json_loads wrapper_orchestrator (mkSt ["bad"; "REQ1"] [] []) =
  run_persistent Demo.tmux Demo.clock Demo.json_loads wrapper_orchestrator
    (mkSt ["REQ1"] [OutJson (response_err PNone ("Invalid JSON request: " ++ Demo.malformed))] []).
Proof.
  assert (H1 : PyStr.strip "bad" <> EmptyString) by (vm_compute; discriminate).
  assert (H2 : Demo.json_loads (PyStr.strip "bad") = inr (JSONDecodeError Demo.malformed))
    by (vm_compute; reflexivity).
  split; [exact H1|split; [exact H2|]].
  exact (run_persistent_malformed_line Demo.tmux Demo.clock Demo.json_loads wrapper_orchestrator
           "bad" ["REQ1"] [] [] (JSONDecodeError Demo.malformed) H1 H2).
Defined.

Lemma capture_nonpositive_no_call_witness :
  0 <= 0 /\
  capture_window_content Demo.tmux wrapper_orchestrator (PStr "main") (PInt 0) (PInt 0) Demo.st0 =
    (Ok "Error: Number of lines must be positive", Demo.st0).
Proof.
  assert (H : 0 <= 0) by lia. split; [exact H|].
  exact (proj1 (capture_nonpositive_no_call Demo.tmux Demo.clock wrapper_orchestrator
                  (PStr "main") (PInt 0) 0 (PInt 3) Demo.st0 H)).
Defined.

Lemma send_command_submit_failure_witness :
  fst (send_command_to_window Demo.no_enter wrapper_orchestrator (PStr "main") (PInt 0) (PStr "ls") (PBool false)
         Demo.st0) = Ok false /\
  fst (handle_request Demo.no_enter Demo.clock wrapper_orchestrator
         (PDict [("id", PInt 2); ("method", PStr "send_command_to_window");
                 ("args", PList [PStr "main"; PInt 0; PStr "ls"; PBool false])]) Demo.st0)
    = Ok (response_ok (PInt 2) (PBool false)).
Proof.
  assert (H1 : PyStr.startswith "ls" "STATUS REQUEST:" = false) by reflexivity.
  assert (H2 : "ls" <> EmptyString) by discriminate.
  assert (H3 : send_keys_to_window Demo.no_enter wrapper_orchestrator (PStr "main") (PInt 0) (PStr "ls") (PBool false)
                 Demo.st0 =
               (Ok true, mkSt [] [] [EvRun ["tmux"; "list-panes"; "-t"; "main:0"];
                                     EvRun ["tmux"; "send-keys"; "-t"; "main:0"; "ls"]]))
    by (vm_compute; reflexivity).
  assert (H4 : PyStr.has_char nul (target_of (PStr "main") (PInt 0)) = false) by reflexivity.
  assert (H5 : Demo.no_enter [EvRun ["tmux"; "list-panes"; "-t"; "main:0"];
                              EvRun ["tmux"; "send-keys"; "-t"; "main:0"; "ls"]]
                 ["tmux"; "send-keys"; "-t"; target_of (PStr "main") (PInt 0); "C-m"]
               = Launched 1 EmptyString "not a terminal") by reflexivity.
  assert (H6 : 1 <> 0) by discriminate.
  exact (proj1 (send_command_submit_failure Demo.no_enter Demo.clock wrapper_orchestrator (PStr "main") (PInt 0)
                  "ls" (PBool false) (PInt 2) Demo.st0 _ H1 H2 H3 H4) 1 EmptyString "not a terminal" H5 H6).
Defined.

Lemma send_command_first_step_failure_witness :
  py_truthy (PStr "ls") = true /\
  fst (send_keys_to_window Demo.tmux wrapper_orchestrator (PStr "main") (PInt 9) (PStr "ls") (PBool false) Demo.st0)
    = Ok false /\
  send_command_to_window Demo.tmux wrapper_orchestrator (PStr "main") (PInt 9) (PStr "ls") (PBool false) Demo.st0 =
  send_keys_to_window Demo.tmux wrapper_orchestrator (PStr "main") (PInt 9) (PStr "ls") (PBool false) Demo.st0.
Proof.
  assert (H1 : py_truthy (PStr "ls") = true) by reflexivity.
  assert (H2 : fst (send_keys_to_window Demo.tmux wrapper_orchestrator (PStr "main") (PInt 9) (PStr "ls")
                      (PBool false) Demo.st0) = Ok false) by (vm_compute; reflexivity).
  assert (H3 : fst (send_keys_to_window Demo.tmux wrapper_orchestrator (PStr "main") (PInt 9) (PStr "ls")
                      (PBool false) Demo.st0) <> Ok true) by (rewrite H2; discriminate).
  split; [exact H1|split; [exact H2|]].
  exact (send_command_first_step_failure Demo.tmux wrapper_orchestrator (PStr "main") (PInt 9) (PStr "ls")
           (PBool false) Demo.st0 H1 H3).
Defined.

Lemma capture_clamp_same_call_witness :
  max_lines_capture wrapper_orchestrator = 1000 /\
  fst (capture_window_content Demo.tmux wrapper_orchestrator (PStr "main") (PInt 0) (PInt 2000) Demo.st0) =
  fst (capture_window_content Demo.tmux wrapper_orchestrator (PStr "main") (PInt 0) (PInt 1000) Demo.st0).
Proof.
  assert (H : max_lines_capture wrapper_orchestrator = 1000) by reflexivity.
  split; [exact H|].
  exact (proj1 (capture_clamp_same_call Demo.tmux wrapper_orchestrator (PStr "main") (PInt 0) Demo.st0 H)).
Defined.

Lemma capture_failures_in_band_witness :
  PyStr.has_char nul "main" = false /\
  exists t, fst (capture_window_content Demo.tmux wrapper_orchestrator (PStr "main") (PInt 7) (PInt 50) Demo.st0)
              = Ok t /\
            PyStr.startswith t ("Error capturing content from " ++ target_of (PStr "main") (PInt 7) ++ ": ") = true.
Proof.
  assert (H : PyStr.has_char nul "main" = false) by reflexivity.
  split; [exact H|].
  assert (Hi : invalid_target (PStr "main") (PInt 7) = false) by reflexivity.
  assert (Hn : 0 < 50) by lia.
  assert (H1 : Demo.tmux [] ["tmux"; "list-panes"; "-t"; target_of (PStr "main") (PInt 7)]
               = Launched 1 EmptyString "can't find window") by reflexivity.
  assert (Hrc : 1 <> 0) by lia.
  exact (proj1 (proj2 (proj2 (capture_failures_in_band Demo.tmux Demo.clock wrapper_orchestrator
                                "main" 7 50 (PInt 5) Demo.st0 H)))
           1 EmptyString "can't find window" Hi Hn H1 Hrc).
Defined.

Lemma get_window_info_blank_none_witness :
  fst (window_status Demo.blank_info wrapper_orchestrator
         (mkTmuxSession "main" [mkTmuxWindow "main" 0 "shell" true] true) (mkTmuxWindow "main" 0 "shell" true)
         Demo.st0) =
  Ok (PDict [("index", PInt 0); ("name", PStr "shell"); ("active", PBool true); ("info", PNone)]).
Proof.
  assert (H1 : PyStr.has_char nul "main" = false) by reflexivity.
  assert (H2 : Demo.blank_info [] ["tmux"; "display-message"; "-t"; target_of (PStr "main") (PInt 0); "-p";
                                   "#{window_name}:#{window_active}:#{window_panes}:#{window_layout}"]
               = Launched 0 nls EmptyString) by reflexivity.
  assert (H3 : PyStr.strip nls = EmptyString) by reflexivity.
  exact (proj2 (get_window_info_blank_none Demo.blank_info wrapper_orchestrator
                  (mkTmuxSession "main" [mkTmuxWindow "main" 0 "shell" true] true)
                  (mkTmuxWindow "main" 0 "shell" true) Demo.st0 nls EmptyString H1 H2 H3)).
Defined.

(* ------------------------------------------------------------------ *)
(** ** Counterexamples *)

(** C2: with no tmux server running, [get_tmux_sessions] requested over the
    RPC protocol gets a success response with an empty list, not an error;
    on a server whose window is named [a:b], [get_tmux_sessions] raises
    [ValueError], not an error of the adapter. *)
Lemma get_tmux_sessions_no_server_cex :
  fst (handle_request Demo.no_server Demo.clock wrapper_orchestrator (Demo.req 1 "get_tmux_sessions" []) Demo.st0)
  = Ok (response_ok (PInt 1) (PList [])) /\
  fst (get_tmux_sessions Demo.colon_window Demo.st0)
  = Exc (ValueError "too many values to unpack (expected 3)").
Proof. split; vm_compute; reflexivity. Qed.

(** C1: the request [{"id": 7, "method": "ping", "args": [99...9]}], with
    an integer of 5000 digits, is a non-blank, well-formed JSON line, but
    [json.loads] raises [ValueError] on it: the loop answers with the
    identifier [None], not 7. *)
Lemma run_persistent_big_int_cex :
  run_persistent Demo.tmux Demo.clock Demo.json_loads wrapper_orchestrator
    (mkSt [Demo.big_int_line ++ nls] [] []) =
  (Ok 0, mkSt [] [OutJson (response_err PNone ("Request handling error: " ++ Demo.big_int_error))] []).
Proof. vm_compute. reflexivity. Qed.

(** C3: [{"id": 1, "method": "ping", "x": NaN}] is not valid JSON, yet
    [json.loads] decodes it and the loop answers it as a request with
    identifier 1; the line holding U+001C alone is not valid JSON either,
    but [str.strip] leaves it empty and it gets no response at all. *)
Lemma run_persistent_nan_line_cex :
  run_persistent Demo.tmux Demo.clock Demo.json_loads wrapper_orchestrator
    (mkSt [Demo.nan_line ++ nls; String "028"%char nls] [] []) =
  (Ok 0, mkSt [] [OutJson (response_ok (PInt 1) (PStr "pong"))] []).
Proof. vm_compute. reflexivity. Qed.

(** C4: the legacy entry [tmux_wrapper.py send_keys_to_window main 0 ls true]
    sends the keys without any prompt, although [confirm] is true. *)
Lemma legacy_entry_no_confirmation_cex :
  main Demo.tmux Demo.clock Demo.json_loads false (Some "send_keys_to_window") ["main"; "0"; "ls"; "true"] Demo.st0 =
  (Ok 0, mkSt [] [OutJson (PBool true)]
           [EvRun ["tmux"; "list-panes"; "-t"; "main:0"]; EvRun ["tmux"; "send-keys"; "-t"; "main:0"; "ls"]]).
Proof. vm_compute. reflexivity. Qed.

(** C5: a capture of 0 lines is answered by a success response whose result
    is the error text, with no tmux call. *)
Lemma capture_zero_lines_cex :
  handle_request Demo.tmux Demo.clock wrapper_orchestrator
    (Demo.req 3 "capture_window_content" [PStr "main"; PInt 0; PInt 0]) Demo.st0 =
  (Ok (response_ok (PInt 3) (PStr "Error: Number of lines must be positive")), Demo.st0).
Proof. vm_compute. reflexivity. Qed.

(** C6: the [C-m] step fails after the text was sent, and the client gets a
    success response with result [false]. *)
Lemma send_command_enter_fails_cex :
  fst (handle_request Demo.no_enter Demo.clock wrapper_orchestrator
         (Demo.req 2 "send_command_to_window" [PStr "main"; PInt 0; PStr "ls"]) Demo.st0) =
  Ok (response_ok (PInt 2) (PBool false)).
Proof. vm_compute. reflexivity. Qed.

(** C9: on a host without [tmux], [capture_window_content] raises [OSError],
    which the RPC protocol reports as an error response; a line count given
    as a string raises [TypeError]. *)
Lemma capture_raises_cex :
  fst (capture_window_content Demo.no_tmux wrapper_orchestrator (PStr "main") (PInt 0) (PInt 50) Demo.st0) =
    Exc (OSError "[Errno 2] No such file or directory: 'tmux'") /\
  fst (handle_request Demo.no_tmux Demo.clock wrapper_orchestrator
         (Demo.req 4 "capture_window_content" [PStr "main"; PInt 0; PInt 50]) Demo.st0) =
    Ok (response_err (PInt 4) "[Errno 2] No such file or directory: 'tmux'") /\
  fst (capture_window_content Demo.tmux wrapper_orchestrator (PStr "main") (PInt 0) (PStr "5") Demo.st0) =
    Exc (TypeError "'<=' not supported between instances of 'str' and 'int'").
Proof. vm_compute. split; [reflexivity|split; reflexivity]. Qed.

(* ------------------------------------------------------------------ *)
(** ** Witnesses of the further properties *)

Lemma get_tmux_sessions_reads_listing_witness :
  tmux_lists Demo.tmux Demo.main_listing /\ plain_listing true Demo.main_listing = true /\
  get_tmux_sessions Demo.tmux Demo.st0 =
  (Ok (map listed_to_session Demo.main_listing),
   mkSt (st_in Demo.st0) (st_out Demo.st0)
     (st_log Demo.st0 ++ EvRun list_sessions_args ::
        map (fun s => EvRun (list_windows_args (ls_name s))) Demo.main_listing)%list).
Proof.
  assert (H1 : tmux_lists Demo.tmux Demo.main_listing).
  { split.
    - intros lg. exists EmptyString. vm_compute. reflexivity.
    - intros lg s [<-|[]]. exists EmptyString. vm_compute. reflexivity. }
  assert (H2 : plain_listing true Demo.main_listing = true) by (vm_compute; reflexivity).
  split; [exact H1|split; [exact H2|]].
  exact (get_tmux_sessions_reads_listing Demo.tmux Demo.main_listing Demo.st0 H1 H2).
Defined.

Lemma get_tmux_sessions_colon_in_window_name_witness :
  tmux_lists Demo.colon_window Demo.colon_listing /\ plain_listing false Demo.colon_listing = true /\
  existsb (fun s => existsb (fun w => PyStr.has_char colon (lw_name w)) (ls_windows s)) Demo.colon_listing = true /\
  fst (get_tmux_sessions Demo.colon_window Demo.st0) = Exc too_many_3.
Proof.
  assert (H1 : tmux_lists Demo.colon_window Demo.colon_listing).
  { split.
    - intros lg. exists EmptyString. vm_compute. reflexivity.
    - intros lg s [<-|[]]. exists EmptyString. vm_compute. reflexivity. }
  assert (H2 : plain_listing false Demo.colon_listing = true) by (vm_compute; reflexivity).
  assert (H3 : existsb (fun s => existsb (fun w => PyStr.has_char colon (lw_name w)) (ls_windows s))
                 Demo.colon_listing = true) by (vm_compute; reflexivity).
  split; [exact H1|split; [exact H2|split; [exact H3|]]].
  exact (get_tmux_sessions_colon_in_window_name Demo.colon_window Demo.colon_listing Demo.st0 H1 H2 H3).
Defined.

Lemma capture_success_witness :
  PyStr.has_char nul "main" = false /\ invalid_target (PStr "main") (PInt 0) = false /\ 0 < 5 /\
  capture_window_content Demo.tmux wrapper_orchestrator (PStr "main") (PInt 0) (PInt 5) Demo.st0 =
  (Ok ("$ ls" ++ nls ++ "a.txt" ++ nls)%string,
   mkSt [] ([] ++ capture_warning wrapper_orchestrator 5)
     ([] ++ [EvRun ["tmux"; "list-panes"; "-t"; target_of (PStr "main") (PInt 0)];
             EvRun ["tmux"; "capture-pane"; "-t"; target_of (PStr "main") (PInt 0); "-p"; "-S";
                    ("-" ++ PyStr.of_Z (Z.min 5 (max_lines_capture wrapper_orchestrator)))%string]]))%list.
Proof.
  assert (H1 : PyStr.has_char nul "main" = false) by reflexivity.
  assert (H2 : invalid_target (PStr "main") (PInt 0) = false) by reflexivity.
  assert (H3 : 0 < 5) by lia.
  assert (H4 : Demo.tmux (st_log Demo.st0) ["tmux"; "list-panes"; "-t"; target_of (PStr "main") (PInt 0)] =
               Launched 0 ("0: [80x24]" ++ nls) EmptyString) by (vm_compute; reflexivity).
  assert (H5 : Demo.tmux (st_log Demo.st0 ++ [EvRun ["tmux"; "list-panes"; "-t"; target_of (PStr "main") (PInt 0)]])%list
                 ["tmux"; "capture-pane"; "-t"; target_of (PStr "main") (PInt 0); "-p"; "-S";
                  "-" ++ PyStr.of_Z (Z.min 5 (max_lines_capture wrapper_orchestrator))] =
               Launched 0 ("$ ls" ++ nls ++ "a.txt" ++ nls) EmptyString) by (vm_compute; reflexivity).
  split; [exact H1|split; [exact H2|split; [exact H3|]]].
  exact (capture_success Demo.tmux wrapper_orchestrator "main" 0 5 Demo.st0 _ _ _ _ H1 H2 H3 H4 H5).
Defined.

Lemma capture_missing_target_witness :
  PyStr.has_char nul "main" = false /\ invalid_target (PStr "main") (PInt 7) = false /\ 0 < 5 /\
  Demo.tmux [] ["tmux"; "list-panes"; "-t"; target_of (PStr "main") (PInt 7)] =
    Launched 1 EmptyString "can't find window" /\ 1 <> 0 /\
  capture_window_content Demo.tmux wrapper_orchestrator (PStr "main") (PInt 7) (PInt 5) Demo.st0 =
  (Ok ("Error capturing content from " ++ target_of (PStr "main") (PInt 7) ++ ": " ++
       exc_str (CalledProcessError 1 ["tmux"; "list-panes"; "-t"; target_of (PStr "main") (PInt 7)]
                  "can't find window" false) ++
       (if String.eqb "can't find window" EmptyString then EmptyString
        else String nl "Details: " ++ PyStr.bytes_repr "can't find window"))%string,
   mkSt [] ([] ++ capture_warning wrapper_orchestrator 5)
     ([] ++ [EvRun ["tmux"; "list-panes"; "-t"; target_of (PStr "main") (PInt 7)]]))%list.
Proof.
  assert (H1 : PyStr.has_char nul "main" = false) by reflexivity.
  assert (H2 : invalid_target (PStr "main") (PInt 7) = false) by reflexivity.
  assert (H3 : 0 < 5) by lia.
  assert (H4 : Demo.tmux [] ["tmux"; "list-panes"; "-t"; target_of (PStr "main") (PInt 7)] =
               Launched 1 EmptyString "can't find window") by (vm_compute; reflexivity).
  assert (H5 : 1 <> 0) by lia.
  split; [exact H1|split; [exact H2|split; [exact H3|split; [exact H4|split; [exact H5|]]]]].
  exact (capture_missing_target Demo.tmux wrapper_orchestrator "main" 7 5 Demo.st0 1 _ _ H1 H2 H3 H4 H5).
Defined.

Lemma invalid_target_no_launch_witness :
  invalid_target (PStr EmptyString) (PInt 0) = true /\
  capture_window_content Demo.tmux wrapper_orchestrator (PStr EmptyString) (PInt 0) (PInt 5) Demo.st0 =
    (Ok ("Error: Invalid session name or window index: " ++ target_of (PStr EmptyString) (PInt 0)), Demo.st0) /\
  send_keys_to_window Demo.tmux wrapper_orchestrator (PStr EmptyString) (PInt 0) (PStr "ls") (PBool false) Demo.st0 =
    (Ok false, mkSt (st_in Demo.st0)
                 (st_out Demo.st0 ++ [OutText ("Error: Invalid session name or window index: " ++
                                               target_of (PStr EmptyString) (PInt 0))]) (st_log Demo.st0))%list /\
  (py_truthy (PStr "ls") = true ->
   send_command_to_window Demo.tmux wrapper_orchestrator (PStr EmptyString) (PInt 0) (PStr "ls") (PBool false) Demo.st0 =
    (Ok false, mkSt (st_in Demo.st0)
                 (st_out Demo.st0 ++ [OutText ("Error: Invalid session name or window index: " ++
                                               target_of (PStr EmptyString) (PInt 0))]) (st_log Demo.st0))%list).
Proof.
  assert (H : invalid_target (PStr EmptyString) (PInt 0) = true) by reflexivity.
  split; [exact H|].
  exact (invalid_target_no_launch Demo.tmux wrapper_orchestrator (PStr EmptyString) (PInt 0) (PInt 5)
           (PStr "ls") (PStr "ls") (PBool false) Demo.st0 H).
Defined.

Lemma get_window_info_short_reply_witness :
  PyStr.has_char nul (target_of (PStr "main") (PInt 0)) = false /\
  Demo.short_info (st_log Demo.st0)
    ["tmux"; "display-message"; "-t"; target_of (PStr "main") (PInt 0); "-p";
     "#{window_name}:#{window_active}:#{window_panes}:#{window_layout}"] = Launched 0 ("shell:1" ++ nls) EmptyString /\
  PyStr.strip ("shell:1" ++ nls) <> EmptyString /\
  (List.length (PyStr.split ":" (PyStr.strip ("shell:1" ++ nls))) < 4)%nat /\
  exists ex,
    get_window_info Demo.short_info wrapper_orchestrator (PStr "main") (PInt 0) Demo.st0 =
      (Exc ex, mkSt (st_in Demo.st0) (st_out Demo.st0)
                 (st_log Demo.st0 ++ [EvRun ["tmux"; "display-message"; "-t"; target_of (PStr "main") (PInt 0); "-p";
                                             "#{window_name}:#{window_active}:#{window_panes}:#{window_layout}"]]))%list /\
    (ex = IndexError "list index out of range" \/ exists m, ex = ValueError m).
Proof.
  assert (H1 : PyStr.has_char nul (target_of (PStr "main") (PInt 0)) = false) by (vm_compute; reflexivity).
  assert (H2 : Demo.short_info (st_log Demo.st0)
                 ["tmux"; "display-message"; "-t"; target_of (PStr "main") (PInt 0); "-p";
                  "#{window_name}:#{window_active}:#{window_panes}:#{window_layout}"] =
               Launched 0 ("shell:1" ++ nls) EmptyString) by (vm_compute; reflexivity).
  assert (H3 : PyStr.strip ("shell:1" ++ nls) <> EmptyString) by (vm_compute; discriminate).
  assert (H4 : (List.length (PyStr.split ":" (PyStr.strip ("shell:1" ++ nls))) < 4)%nat)
    by (apply Nat.ltb_lt; vm_compute; reflexivity).
  split; [exact H1|split; [exact H2|split; [exact H3|split; [exact H4|]]]].
  exact (get_window_info_short_reply Demo.short_info wrapper_orchestrator (PStr "main") (PInt 0) Demo.st0 _ _
           H1 H2 H3 H4).
Defined.

Lemma send_keys_non_string_keys_witness :
  safety_mode wrapper_orchestrator = false /\ invalid_target (PStr "main") (PInt 0) = false /\
  py_truthy (PInt 5) = true /\ (forall k, PInt 5 <> PStr k) /\
  PyStr.has_char nul (target_of (PStr "main") (PInt 0)) = false /\
  Demo.tmux (st_log Demo.st0) ["tmux"; "list-panes"; "-t"; target_of (PStr "main") (PInt 0)] =
    Launched 0 ("0: [80x24]" ++ nls) EmptyString /\
  send_keys_to_window Demo.tmux wrapper_orchestrator (PStr "main") (PInt 0) (PInt 5) (PBool false) Demo.st0 =
  (Exc (TypeError ("expected str, bytes or os.PathLike object, not " ++ py_type_name (PInt 5))),
   mkSt (st_in Demo.st0) (st_out Demo.st0)
     (st_log Demo.st0 ++ [EvRun ["tmux"; "list-panes"; "-t"; target_of (PStr "main") (PInt 0)]])%list).
Proof.
  assert (H1 : safety_mode wrapper_orchestrator = false) by reflexivity.
  assert (H2 : invalid_target (PStr "main") (PInt 0) = false) by reflexivity.
  assert (H3 : py_truthy (PInt 5) = true) by reflexivity.
  assert (H4 : forall k, PInt 5 <> PStr k) by (intros k Hk; discriminate Hk).
  assert (H5 : PyStr.has_char nul (target_of (PStr "main") (PInt 0)) = false) by (vm_compute; reflexivity).
  assert (H6 : Demo.tmux (st_log Demo.st0) ["tmux"; "list-panes"; "-t"; target_of (PStr "main") (PInt 0)] =
               Launched 0 ("0: [80x24]" ++ nls) EmptyString) by (vm_compute; reflexivity).
  split; [exact H1|split; [exact H2|split; [exact H3|split; [exact H4|split; [exact H5|split; [exact H6|]]]]]].
  exact (send_keys_non_string_keys Demo.tmux wrapper_orchestrator (PStr "main") (PInt 0) (PInt 5) (PBool false)
           Demo.st0 _ _ H1 H2 H3 H4 H5 H6).
Defined.

Lemma send_keys_confirmation_witness :
  safety_mode TmuxOrchestrator_init = true /\ invalid_target (PStr "main") (PInt 0) = false /\
  py_truthy (PStr "ls") = true /\ py_truthy (PBool true) = true /\
  PyStr.has_char nul (target_of (PStr "main") (PInt 0)) = false /\
  Demo.tmux (st_log Demo.st0) ["tmux"; "list-panes"; "-t"; target_of (PStr "main") (PInt 0)] =
    Launched 0 ("0: [80x24]" ++ nls) EmptyString /\
  (st_in Demo.st0 = [] ->
   send_keys_to_window Demo.tmux TmuxOrchestrator_init (PStr "main") (PInt 0) (PStr "ls") (PBool true) Demo.st0 =
   (Exc (EOFError "EOF when reading a line"),
    mkSt [] (st_out Demo.st0 ++
             [OutText ("SAFETY CHECK: About to send '" ++ py_str (PStr "ls") ++ "' to " ++ target_of (PStr "main") (PInt 0));
              OutText "Confirm? (yes/no): "])
      (st_log Demo.st0 ++ [EvRun ["tmux"; "list-panes"; "-t"; target_of (PStr "main") (PInt 0)];
                           EvInput "Confirm? (yes/no): "])))%list.
Proof.
  assert (H1 : safety_mode TmuxOrchestrator_init = true) by reflexivity.
  assert (H2 : invalid_target (PStr "main") (PInt 0) = false) by reflexivity.
  assert (H3 : py_truthy (PStr "ls") = true) by reflexivity.
  assert (H4 : py_truthy (PBool true) = true) by reflexivity.
  assert (H5 : PyStr.has_char nul (target_of (PStr "main") (PInt 0)) = false) by (vm_compute; reflexivity).
  assert (H6 : Demo.tmux (st_log Demo.st0) ["tmux"; "list-panes"; "-t"; target_of (PStr "main") (PInt 0)] =
               Launched 0 ("0: [80x24]" ++ nls) EmptyString) by (vm_compute; reflexivity).
  split; [exact H1|split; [exact H2|split; [exact H3|split; [exact H4|split; [exact H5|split; [exact H6|]]]]]].
  exact (proj1 (send_keys_confirmation Demo.tmux TmuxOrchestrator_init (PStr "main") (PInt 0) (PStr "ls")
                  (PBool true) Demo.st0 _ _ H1 H2 H3 H4 H5 H6)).
Defined.

Lemma send_command_success_witness :
  safety_mode wrapper_orchestrator = false /\ invalid_target (PStr "main") (PInt 0) = false /\
  "ls" <> EmptyString /\ PyStr.has_char nul "ls" = false /\
  PyStr.has_char nul (target_of (PStr "main") (PInt 0)) = false /\
  send_command_to_window Demo.tmux wrapper_orchestrator (PStr "main") (PInt 0) (PStr "ls") (PBool false) Demo.st0 =
  (Ok true, mkSt (st_in Demo.st0) (st_out Demo.st0)
              (st_log Demo.st0 ++ [EvRun ["tmux"; "list-panes"; "-t"; target_of (PStr "main") (PInt 0)];
                                   EvRun ["tmux"; "send-keys"; "-t"; target_of (PStr "main") (PInt 0); "ls"];
                                   EvRun ["tmux"; "send-keys"; "-t"; target_of (PStr "main") (PInt 0); "C-m"]]))%list.
Proof.
  assert (H1 : safety_mode wrapper_orchestrator = false) by reflexivity.
  assert (H2 : invalid_target (PStr "main") (PInt 0) = false) by reflexivity.
  assert (H3 : "ls" <> EmptyString) by discriminate.
  assert (H4 : PyStr.has_char nul "ls" = false) by reflexivity.
  assert (H5 : PyStr.has_char nul (target_of (PStr "main") (PInt 0)) = false) by (vm_compute; reflexivity).
  assert (H6 : Demo.tmux (st_log Demo.st0) ["tmux"; "list-panes"; "-t"; target_of (PStr "main") (PInt 0)] =
               Launched 0 ("0: [80x24]" ++ nls) EmptyString) by (vm_compute; reflexivity).
  assert (H7 : Demo.tmux (st_log Demo.st0 ++ [EvRun ["tmux"; "list-panes"; "-t"; target_of (PStr "main") (PInt 0)]])%list
                 ["tmux"; "send-keys"; "-t"; target_of (PStr "main") (PInt 0); "ls"] = Launched 0 EmptyString EmptyString)
    by (vm_compute; reflexivity).
  assert (H8 : Demo.tmux (st_log Demo.st0 ++ [EvRun ["tmux"; "list-panes"; "-t"; target_of (PStr "main") (PInt 0)];
                                              EvRun ["tmux"; "send-keys"; "-t"; target_of (PStr "main") (PInt 0); "ls"]])%list
                 ["tmux"; "send-keys"; "-t"; target_of (PStr "main") (PInt 0); "C-m"] = Launched 0 EmptyString EmptyString)
    by (vm_compute; reflexivity).
  split; [exact H1|split; [exact H2|split; [exact H3|split; [exact H4|split; [exact H5|]]]]].
  exact (send_command_success Demo.tmux wrapper_orchestrator (PStr "main") (PInt 0) "ls" (PBool false) Demo.st0
           _ _ _ _ _ _ H1 H2 H3 H4 H5 H6 H7 H8).
Defined.

Lemma get_all_windows_status_no_server_witness :
  Demo.no_server (st_log Demo.st0) list_sessions_args =
    Launched 1 EmptyString ("no server running on /tmp/tmux-0/default" ++ nls) /\ 1 <> 0 /\
  get_all_windows_status Demo.no_server Demo.clock wrapper_orchestrator Demo.st0 =
  (Ok (PDict [("timestamp", PStr (isoformat (Demo.clock (st_log Demo.st0 ++ [EvRun list_sessions_args]))));
              ("sessions", PList [])]),
   mkSt (st_in Demo.st0)
     (st_out Demo.st0 ++ [OutText ("Error getting tmux sessions: " ++
                                   exc_str (CalledProcessError 1 list_sessions_args
                                              ("no server running on /tmp/tmux-0/default" ++ nls) true))])
     (st_log Demo.st0 ++ [EvRun list_sessions_args; EvNow]))%list.
Proof.
  assert (H1 : Demo.no_server (st_log Demo.st0) list_sessions_args =
               Launched 1 EmptyString ("no server running on /tmp/tmux-0/default" ++ nls)) by reflexivity.
  assert (H2 : 1 <> 0) by lia.
  split; [exact H1|split; [exact H2|]].
  exact (get_all_windows_status_no_server Demo.no_server Demo.clock wrapper_orchestrator Demo.st0 _ _ _ H1 H2).
Defined.

Lemma find_window_by_name_matches_witness :
  get_tmux_sessions Demo.tmux Demo.st0 = (Ok Demo.main_sessions, mkSt [] [] Demo.listing_log) /\
  find_window_by_name Demo.tmux wrapper_orchestrator (PStr "SH") Demo.st0 =
  (Ok (flat_map (fun s => map (fun w => (name s, window_index w))
                             (filter (fun w => PyStr.contains (PyStr.lower "SH") (PyStr.lower (window_name w)))
                                     (windows s))) Demo.main_sessions), mkSt [] [] Demo.listing_log).
Proof.
  assert (H : get_tmux_sessions Demo.tmux Demo.st0 = (Ok Demo.main_sessions, mkSt [] [] Demo.listing_log))
    by (vm_compute; reflexivity).
  split; [exact H|].
  exact (find_window_by_name_matches Demo.tmux wrapper_orchestrator "SH" Demo.st0 _ _ H).
Defined.

Lemma find_window_by_name_non_string_witness :
  get_tmux_sessions Demo.tmux Demo.st0 = (Ok Demo.main_sessions, mkSt [] [] Demo.listing_log) /\
  (forall k, PInt 3 <> PStr k) /\
  find_window_by_name Demo.tmux wrapper_orchestrator (PInt 3) Demo.st0 =
  (if existsb (fun s => match windows s with [] => false | _ :: _ => true end) Demo.main_sessions
   then Exc (AttributeError ("'" ++ py_type_name (PInt 3) ++ "' object has no attribute 'lower'"))
   else Ok [], mkSt [] [] Demo.listing_log).
Proof.
  assert (H1 : get_tmux_sessions Demo.tmux Demo.st0 = (Ok Demo.main_sessions, mkSt [] [] Demo.listing_log))
    by (vm_compute; reflexivity).
  assert (H2 : forall k, PInt 3 <> PStr k) by (intros k Hk; discriminate Hk).
  split; [exact H1|split; [exact H2|]].
  exact (find_window_by_name_non_string Demo.tmux wrapper_orchestrator (PInt 3) Demo.st0 _ _ H1 H2).
Defined.

Lemma snapshot_none_info_witness :
  let status := PDict [("timestamp", PStr (isoformat (Demo.clock [])));
                       ("sessions", PList [PDict [("name", PStr "main"); ("attached", PBool true);
                          ("windows", PList [PDict [("index", PInt 0); ("name", PStr "shell");
                                                    ("active", PBool true); ("info", PNone)]])]])] in
  let st1 := mkSt [] [] (Demo.listing_log ++
               [EvNow; EvRun ["tmux"; "display-message"; "-t"; "main:0"; "-p";
                              "#{window_name}:#{window_active}:#{window_panes}:#{window_layout}"]])%list in
  get_all_windows_status Demo.blank_info Demo.clock wrapper_orchestrator Demo.st0 = (Ok status, st1) /\
  In PNone (status_infos status) /\
  create_monitoring_snapshot Demo.blank_info Demo.clock wrapper_orchestrator Demo.st0 =
    (Exc (TypeError "argument of type 'NoneType' is not iterable"), st1).
Proof.
  intros status st1.
  assert (H1 : get_all_windows_status Demo.blank_info Demo.clock wrapper_orchestrator Demo.st0 = (Ok status, st1))
    by (vm_compute; reflexivity).
  assert (H2 : In PNone (status_infos status)) by (vm_compute; auto).
  split; [exact H1|split; [exact H2|]].
  exact (proj1 (snapshot_none_info Demo.blank_info Demo.clock wrapper_orchestrator Demo.st0 status st1 H1) H2).
Defined.

Lemma handle_status_request_no_target_witness :
  get_tmux_sessions Demo.tmux Demo.st0 = (Ok Demo.main_sessions, mkSt [] [] Demo.listing_log) /\
  find (fun x => py_eq_str (PStr "other") (name x)) Demo.main_sessions = None /\
  handle_status_request Demo.tmux Demo.clock wrapper_orchestrator (PStr "other") (PInt 0) Demo.st0 =
    (Ok false, mkSt [] [] Demo.listing_log).
Proof.
  assert (H1 : get_tmux_sessions Demo.tmux Demo.st0 = (Ok Demo.main_sessions, mkSt [] [] Demo.listing_log))
    by (vm_compute; reflexivity).
  assert (H2 : find (fun x => py_eq_str (PStr "other") (name x)) Demo.main_sessions = None)
    by (vm_compute; reflexivity).
  split; [exact H1|split; [exact H2|]].
  exact (handle_status_request_no_target Demo.tmux Demo.clock wrapper_orchestrator (PStr "other") (PInt 0)
           Demo.st0 _ _ H1 (or_introl H2)).
Defined.

Lemma handle_status_request_sends_witness :
  get_tmux_sessions Demo.tmux Demo.st0 = (Ok Demo.main_sessions, mkSt [] [] Demo.listing_log) /\
  find (fun x => py_eq_str (PStr "main") (name x)) Demo.main_sessions =
    Some (mkTmuxSession "main" [mkTmuxWindow "main" 0 "shell" true] true) /\
  find (fun y => py_eq_int (PInt 0) (window_index y)) [mkTmuxWindow "main" 0 "shell" true] =
    Some (mkTmuxWindow "main" 0 "shell" true) /\
  PyStr.has_char nul (target_of (PStr "main") (PInt 0)) = false /\
  (forall lg, Demo.tmux lg ["tmux"; "send-keys"; "-t"; target_of (PStr "main") (PInt 0); "C-c"] =
              Launched 0 EmptyString EmptyString) /\
  (forall lg t, Demo.tmux lg ["tmux"; "send-keys"; "-t"; target_of (PStr "main") (PInt 0); "echo '" ++ t ++ "'"; "C-m"] =
                Launched 0 EmptyString EmptyString) /\
  exists t,
    let echo := ["tmux"; "send-keys"; "-t"; target_of (PStr "main") (PInt 0); ("echo '" ++ t ++ "'")%string; "C-m"] in
    handle_status_request Demo.tmux Demo.clock wrapper_orchestrator (PStr "main") (PInt 0) Demo.st0 =
    (Ok (0 =? 0),
     mkSt [] ([] ++ (if 0 =? 0 then []
                     else [OutText ("Error handling status request: " ++
                                    exc_str (CalledProcessError 0 echo EmptyString true))]))
       (Demo.listing_log ++ [EvNow; EvRun ["tmux"; "send-keys"; "-t"; target_of (PStr "main") (PInt 0); "C-c"];
                             EvRun echo]))%list.
Proof.
  assert (H1 : get_tmux_sessions Demo.tmux Demo.st0 = (Ok Demo.main_sessions, mkSt [] [] Demo.listing_log))
    by (vm_compute; reflexivity).
  assert (H2 : find (fun x => py_eq_str (PStr "main") (name x)) Demo.main_sessions =
               Some (mkTmuxSession "main" [mkTmuxWindow "main" 0 "shell" true] true)) by (vm_compute; reflexivity).
  assert (H3 : find (fun y => py_eq_int (PInt 0) (window_index y)) [mkTmuxWindow "main" 0 "shell" true] =
               Some (mkTmuxWindow "main" 0 "shell" true)) by (vm_compute; reflexivity).
  assert (H4 : PyStr.has_char nul (target_of (PStr "main") (PInt 0)) = false) by (vm_compute; reflexivity).
  assert (H5 : forall lg, Demo.tmux lg ["tmux"; "send-keys"; "-t"; target_of (PStr "main") (PInt 0); "C-c"] =
                          Launched 0 EmptyString EmptyString) by (intros lg; vm_compute; reflexivity).
  assert (H6 : forall lg t, Demo.tmux lg ["tmux"; "send-keys"; "-t"; target_of (PStr "main") (PInt 0);
                                          "echo '" ++ t ++ "'"; "C-m"] = Launched 0 EmptyString EmptyString)
    by (intros lg t; vm_compute; reflexivity).
  split; [exact H1|split; [exact H2|split; [exact H3|split; [exact H4|split; [exact H5|split; [exact H6|]]]]]].
  exact (handle_status_request_sends Demo.tmux Demo.clock wrapper_orchestrator (PStr "main") (PInt 0) Demo.st0
           _ _ _ _ 0 EmptyString EmptyString 0 EmptyString EmptyString H1 H2 H3 H4 H5 H6).
Defined.

Lemma handle_request_unknown_method_witness :
  (forall s, dict_get [("id", PInt 1); ("method", PStr "reboot")] "method" PNone = PStr s -> ~ In s rpc_methods) /\
  handle_request Demo.tmux Demo.clock wrapper_orchestrator (PDict [("id", PInt 1); ("method", PStr "reboot")]) Demo.st0 =
  (Ok (response_err (dict_get [("id", PInt 1); ("method", PStr "reboot")] "id" PNone)
         ("Unknown method: " ++ py_str (dict_get [("id", PInt 1); ("method", PStr "reboot")] "method" PNone))),
   Demo.st0).
Proof.
  assert (H : forall s, dict_get [("id", PInt 1); ("method", PStr "reboot")] "method" PNone = PStr s ->
                        ~ In s rpc_methods).
  { intros s Hs. vm_compute in Hs. injection Hs as <-. vm_compute. intuition discriminate. }
  split; [exact H|].
  exact (handle_request_unknown_method Demo.tmux Demo.clock wrapper_orchestrator
           [("id", PInt 1); ("method", PStr "reboot")] Demo.st0 H).
Defined.

Lemma handle_request_missing_args_witness :
  In ("get_window_info", 2%nat) [("capture_window_content", 2%nat); ("get_window_info", 2%nat);
                                 ("send_keys_to_window", 3%nat); ("send_command_to_window", 3%nat)] /\
  (List.length [PStr "main"] < 2)%nat /\
  handle_request Demo.tmux Demo.clock wrapper_orchestrator
    (PDict [("id", PInt 1); ("method", PStr "get_window_info"); ("args", PList [PStr "main"])]) Demo.st0 =
  (Ok (response_err (PInt 1) ("Missing arguments for " ++ "get_window_info")), Demo.st0) /\
  handle_request Demo.tmux Demo.clock wrapper_orchestrator
    (PDict [("id", PInt 1); ("method", PStr "find_window_by_name"); ("args", PList [])]) Demo.st0 =
  (Ok (response_err (PInt 1) "Missing window name argument"), Demo.st0).
Proof.
  assert (H1 : In ("get_window_info", 2%nat) [("capture_window_content", 2%nat); ("get_window_info", 2%nat);
                                             ("send_keys_to_window", 3%nat); ("send_command_to_window", 3%nat)])
    by (right; left; reflexivity).
  assert (H2 : (List.length [PStr "main"] < 2)%nat) by (cbn; lia).
  split; [exact H1|split; [exact H2|]].
  exact (handle_request_missing_args Demo.tmux Demo.clock wrapper_orchestrator (PInt 1) "get_window_info" 2
           [PStr "main"] Demo.st0 H1 H2).
Defined.

Lemma run_persistent_non_object_request_witness :
  PyStr.strip "ARRAY" <> EmptyString /\ Demo.json_loads (PyStr.strip "ARRAY") = inl (PList [PInt 1]) /\
  (forall d, PList [PInt 1] <> PDict d) /\
  run_persistent Demo.tmux Demo.clock Demo.json_loads wrapper_orchestrator (mkSt ["ARRAY"] [] []) =
  run_persistent Demo.tmux Demo.clock Demo.json_loads wrapper_orchestrator
    (mkSt [] ([] ++ [OutJson (response_err PNone
       ("Request handling error: '" ++ py_type_name (PList [PInt 1]) ++ "' object has no attribute 'get'"))])%list []).
Proof.
  assert (H1 : PyStr.strip "ARRAY" <> EmptyString) by (vm_compute; discriminate).
  assert (H2 : Demo.json_loads (PyStr.strip "ARRAY") = inl (PList [PInt 1])) by (vm_compute; reflexivity).
  assert (H3 : forall d, PList [PInt 1] <> PDict d) by (intros d Hd; discriminate Hd).
  split; [exact H1|split; [exact H2|split; [exact H3|]]].
  exact (run_persistent_non_object_request Demo.tmux Demo.clock Demo.json_loads wrapper_orchestrator
           "ARRAY" [] [] [] (PList [PInt 1]) H1 H2 H3).
Defined.

Lemma run_persistent_answers_witness :
  Forall (fun l => l <> EmptyString) ["REQ1"; "  "; "bad"] /\
  exists rs,
    fst (run_persistent Demo.tmux Demo.clock Demo.json_loads wrapper_orchestrator (mkSt ["REQ1"; "  "; "bad"] [] [])) = Ok 0 /\
    st_in (snd (run_persistent Demo.tmux Demo.clock Demo.json_loads wrapper_orchestrator
                  (mkSt ["REQ1"; "  "; "bad"] [] []))) = [] /\
    json_out (st_out (snd (run_persistent Demo.tmux Demo.clock Demo.json_loads wrapper_orchestrator
                             (mkSt ["REQ1"; "  "; "bad"] [] [])))) = (json_out [] ++ rs)%list /\
    Forall2 (answers Demo.json_loads) (filter (fun l => negb (blank l)) ["REQ1"; "  "; "bad"]) rs.
Proof.
  assert (H : Forall (fun l => l <> EmptyString) ["REQ1"; "  "; "bad"])
    by (repeat (apply Forall_cons; [discriminate|]); apply Forall_nil).
  split; [exact H|].
  exact (run_persistent_answers Demo.tmux Demo.clock Demo.json_loads ["REQ1"; "  "; "bad"] [] [] H).
Defined.
